(** * pyopensky: the Impala shell wrapper ([src/pyopensky/impala.py])

    A shallow embedding of the cache, the response parser and the session
    handling of the [Impala] class, and the properties of its cache and
    parser.

    Conventions of the embedding.
    - A Python [str] and the bytes of a file are both a [string] (a sequence
      of 8-bit characters): text is identified with its encoding.
    - Files are opened in text mode with the default [newline=None]: reading
      translates the line ends (universal newlines), writing leaves them as
      they are (the POSIX line separator).
    - The remote shell, the SSH transport, [hashlib.md5], [gzip] and
      [pandas.read_csv] are libraries: they are interfaces (classes) of
      the embedding, instantiated only in examples.
    - An exception is a value of [exn]; a call returns, raises, or never
      returns (the receiving loops have no timeout). *)

From Stdlib Require Import ZArith Ascii String List Lia Bool.
From stdpp Require Import base option list strings pretty gmap fin_maps.

Local Open Scope string_scope.
Local Open Scope list_scope.

(** ** Strings the way the Python code uses them *)

Module PyStr.

Definition TAB : ascii := "009"%char.
Definition LF : ascii := "010"%char.
Definition CR : ascii := "013"%char.
Definition SP : ascii := " "%char.
Definition BAR : ascii := "|"%char.
Definition COMMA : ascii := ","%char.

Definition nl : string := String LF EmptyString.
Definition tab : string := String TAB EmptyString.

(** [c in s] for a one-character [c]; also [re.search(c, s)]. *)
Fixpoint contains (c : ascii) (s : string) : bool :=
  match s with
  | EmptyString => false
  | String d r => if Ascii.eqb d c then true else contains c r
  end.

(** [s.startswith(p)] *)
Definition startswith (p s : string) : bool := String.prefix p s.

(** [s[-n:]]: the last [n] characters, all of [s] when it is shorter. *)
Definition last_chars (n : nat) (s : string) : string :=
  String.substring (String.length s - n) n s.

(** [s[1:-2]] *)
Definition slice_1_m2 (s : string) : string :=
  String.substring 1 (String.length s - 3) s.

(** Universal newlines of text-mode reading: ["\r\n"] and a lone ["\r"]
    are read as ["\n"]. *)
Fixpoint universal_newlines (s : string) : string :=
  match s with
  | EmptyString => EmptyString
  | String c r =>
      if Ascii.eqb c CR then
        match r with
        | String d r' =>
            if Ascii.eqb d LF then String LF (universal_newlines r')
            else String LF (universal_newlines r)
        | EmptyString => String LF EmptyString
        end
      else String c (universal_newlines r)
  end.

(** [fh.readlines()] on the text [s]: the lines, each with its ["\n"],
    the last one without when the text does not end in one. [cur] is the
    part of the current line already read. *)
Fixpoint readlines_from (cur : string) (s : string) : list string :=
  match s with
  | EmptyString =>
      match cur with EmptyString => [] | _ => [cur] end
  | String c r =>
      if Ascii.eqb c LF then (cur +:+ nl) :: readlines_from EmptyString r
      else readlines_from (cur +:+ String c EmptyString) r
  end.

Definition readlines (s : string) : list string := readlines_from EmptyString s.

(** ["".join(l)] *)
Definition join (l : list string) : string := fold_right String.append EmptyString l.

Fixpoint spaces (n : nat) : string :=
  match n with O => EmptyString | S k => String SP (spaces k) end.

(** [re.sub(" *d *", ",", s)] for a delimiter character [d] other than a
    space: every [d], with the spaces around it, becomes a comma. [skip]
    holds right after a delimiter (the spaces that follow belong to the
    match), [pending] counts the spaces read that a delimiter may still
    follow. *)
Fixpoint sub_delim (d : ascii) (skip : bool) (pending : nat) (s : string) : string :=
  match s with
  | EmptyString => spaces pending
  | String c r =>
      if Ascii.eqb c d then String COMMA (sub_delim d true 0 r)
      else if Ascii.eqb c SP then
        if skip then sub_delim d true 0 r else sub_delim d false (S pending) r
      else spaces pending +:+ String c (sub_delim d false 0 r)
  end.

(** [re.sub(" *\t *", ",", line)] *)
Definition sub_tabs (line : string) : string := sub_delim TAB false 0 line.

(** [re.sub(r" *\| *", ",", line)] *)
Definition sub_bars (line : string) : string := sub_delim BAR false 0 line.

(** The part of [s] before its first ["\n"] (what [.] can match). *)
Fixpoint upto_newline (s : string) : string :=
  match s with
  | EmptyString => EmptyString
  | String c r => if Ascii.eqb c LF then EmptyString else String c (upto_newline r)
  end.

(** [re.match(r"\|.*\|", line)]: the line starts with a bar and has another
    one before its end of line. *)
Definition match_box (line : string) : bool :=
  match line with
  | String c r => Ascii.eqb c BAR && contains BAR (upto_newline r)
  | EmptyString => false
  end.

(** [re.sub(", ", "\t", columns)] *)
Fixpoint sub_comma_space (s : string) : string :=
  match s with
  | EmptyString => EmptyString
  | String c r =>
      if Ascii.eqb c COMMA then
        match r with
        | String d r' =>
            if Ascii.eqb d SP then String TAB (sub_comma_space r')
            else String c (sub_comma_space r)
        | EmptyString => String c EmptyString
        end
      else String c (sub_comma_space r)
  end.

(** [request.replace("\n", " ")] *)
Fixpoint replace_newlines (s : string) : string :=
  match s with
  | EmptyString => EmptyString
  | String c r =>
      String (if Ascii.eqb c LF then SP else c) (replace_newlines r)
  end.

Definition is_digit (c : ascii) : bool :=
  let n := nat_of_ascii c in (48 <=? n)%nat && (n <=? 57)%nat.

Definition digit_value (c : ascii) : nat := nat_of_ascii c - 48.

(** After ["line "]: one digit or more and a comma. The group [(\d)] is
    under the [+], so it keeps the last digit it matched. *)
Fixpoint digits_then_comma (last : option ascii) (s : string) : option ascii :=
  match s with
  | EmptyString => None
  | String c r =>
      if is_digit c then digits_then_comma (Some c) r
      else if Ascii.eqb c COMMA then last
      else None
  end.

(** [re.match(r"line (\d)+,", s)], giving [int(x.group(1))]. *)
Definition match_line_nb (s : string) : option nat :=
  if startswith "line " s then
    digit_value <$> digits_then_comma None (String.substring 5 (String.length s - 5) s)
  else None.

(** [[int(x.group(1)) for x in re.finditer(r"line (\d)+,", s)]]. No match
    starts inside another one, so every position is tried. *)
Fixpoint finditer_line_nb (s : string) : list nat :=
  match s with
  | EmptyString => []
  | String _ r =>
      match match_line_nb s with
      | Some n => n :: finditer_line_nb r
      | None => finditer_line_nb r
      end
  end.

End PyStr.

Import PyStr.

(** ** Exceptions, tables and the libraries the module calls *)

Inductive exn : Type :=
| ImpalaError (msg : string)
| RuntimeError (msg : string)
| TypeError
| IndexError
| UnboundLocalError
| FileNotFoundError
| BadGzipFile
| SSHException
| PandasError (name : string)
| OutOfBoundsDatetime
| IsADirectoryError.

(** A call returns a value, raises, or never returns. *)
Inductive outcome (A : Type) : Type :=
| Ret (a : A)
| Raise (e : exn)
| Hang.
Arguments Ret {A} a.
Arguments Raise {A} e.
Arguments Hang {A}.

(** A cell of a [pandas.DataFrame]: text (dtype [object]), an integer, a
    float in scientific notation ([mantissa * 10 ^ exponent]) or a missing
    value. *)
Inductive cell : Type :=
| CStr (s : string)
| CInt (z : Z)
| CFloat (mantissa exponent : Z)
| CNaN.

#[global] Instance cell_eq_dec : EqDecision cell.
Proof. solve_decision. Defined.

Record DataFrame : Type := mkDataFrame {
  df_columns : list string;
  df_rows : list (list cell)
}.

(** [df.drop_duplicates()]: of equal rows the first one is kept. *)
Fixpoint drop_duplicate_rows (seen rows : list (list cell)) : list (list cell) :=
  match rows with
  | [] => []
  | r :: rs =>
      if bool_decide (r ∈ seen) then drop_duplicate_rows seen rs
      else r :: drop_duplicate_rows (r :: seen) rs
  end.

Definition drop_duplicates (df : DataFrame) : DataFrame :=
  mkDataFrame (df_columns df) (drop_duplicate_rows [] (df_rows df)).

(** The column types that can be asked of [read_csv] ([str] is the only one
    the module asks for). *)
Inductive pytype : Type := py_str.

Inductive csv_result : Type :=
| CsvFrame (df : DataFrame)
| CsvParserError (msg : string)          (* pandas.errors.ParserError *)
| CsvOtherError (name : string).         (* e.g. EmptyDataError *)

(** [hashlib.md5(s.encode("utf8")).hexdigest()] *)
Class Hashlib := { md5_hexdigest : string -> string }.

(** [gzip]: the bytes of a compressed file for a text, and the text of such
    a file ([None]: not a gzip stream). *)
Class Gzip := {
  gzip_compress : string -> string;
  gzip_decompress : string -> option string
}.

(** [pd.read_csv(s, dtype=...)] *)
Class Pandas := { read_csv : string -> list (string * pytype) -> csv_result }.

(** [tempfile.gettempdir()] *)
Class Tempfile := { gettempdir : string }.

(** The far end: whether [client.connect] succeeds for a user, a password
    and a proxy command; the chunks the shell sends when it starts; the
    chunks it answers to the [n]-th command. *)
Class Remote := {
  ssh_accepts : option string -> option string -> option string -> bool;
  greeting : list string;
  server : nat -> string -> list string
}.

(** [b"\x1f\x8b\x08"]: the bytes a gzip file starts with. *)
Definition gzip_magic_bytes : string :=
  String "031"%char (String "139"%char (String "008"%char EmptyString)).

(** [bytes_header.read(3) == b"\x1f\x8b\x08"] *)
Definition has_gzip_magic (bytes : string) : bool :=
  String.eqb (String.substring 0 3 bytes) gzip_magic_bytes.

(** What the gzip library promises. *)
Class GzipLaws (G : Gzip) : Prop := {
  gzip_magic : forall s, has_gzip_magic (gzip_compress s) = true;
  gzip_round_trip : forall s, gzip_decompress (gzip_compress s) = Some s
}.

(** ** The state: the [Impala] object, the files, the channel *)

(** The module-level values of [config.py] ([None]: not configured). *)
Record config : Type := mkConfig {
  impala_username : option string;
  impala_password : option string;
  ssh_proxycommand : option string
}.

Record Impala : Type := mkImpala {
  username : option string;
  password : option string;
  proxy_command : option string;
  connected : bool;
  auth : option (option string * option string)
}.

(** What the process does to the outside, in order. *)
Inductive event : Type :=
| EvConnect (user pass proxy : option string)   (* client.connect(...) *)
| EvSend (data : string)                        (* stdin.channel.send *)
| EvRecv (data : string)                        (* stdout.channel.recv *)
| EvOpenW (name : string)       (* cache_dir/name created or truncated *)
| EvClose (name : string) (bytes : string)  (* the written bytes reach the file *)
| EvUnlink (name : string)
| EvRename (name : string).     (* cache_dir/name moved to gettempdir()/name *)

Record world : Type := mkWorld {
  self : Impala;
  cache_dir : gmap string string;   (* the files of self.cache_dir, by name *)
  tmp_dir : gmap string string;     (* the files of gettempdir(), by name *)
  inbox : list string;              (* chunks on the channel, not yet received *)
  trace : list event                (* oldest first *)
}.

Definition with_self (f : Impala -> Impala) (w : world) : world :=
  mkWorld (f (self w)) (cache_dir w) (tmp_dir w) (inbox w) (trace w).
Definition with_cache_dir (f : gmap string string -> gmap string string) (w : world) : world :=
  mkWorld (self w) (f (cache_dir w)) (tmp_dir w) (inbox w) (trace w).
Definition with_tmp_dir (f : gmap string string -> gmap string string) (w : world) : world :=
  mkWorld (self w) (cache_dir w) (f (tmp_dir w)) (inbox w) (trace w).
Definition with_inbox (f : list string -> list string) (w : world) : world :=
  mkWorld (self w) (cache_dir w) (tmp_dir w) (f (inbox w)) (trace w).
Definition emit (evs : list event) (w : world) : world :=
  mkWorld (self w) (cache_dir w) (tmp_dir w) (inbox w) (trace w ++ evs).

(** The effect of one event on the files of the cache directory: what is
    on disk if the process stops right after it. *)
Definition disk_step (d : gmap string string) (e : event) : gmap string string :=
  match e with
  | EvOpenW name => <[name := EmptyString]> d
  | EvClose name bytes => <[name := bytes]> d
  | EvUnlink name => delete name d
  | EvRename name => delete name d
  | EvConnect _ _ _ | EvSend _ | EvRecv _ => d
  end.

Definition disk_after (d : gmap string string) (evs : list event) : gmap string string :=
  fold_left disk_step evs d.

(** Computations over the world. *)
Definition M (A : Type) : Type := world -> outcome A * world.

#[global] Instance M_ret : MRet M := fun A a w => (Ret a, w).
#[global] Instance M_bind : MBind M := fun A B f m w =>
  match m w with
  | (Ret a, w') => f a w'
  | (Raise e, w') => (Raise e, w')
  | (Hang, w') => (Hang, w')
  end.

Definition raise {A : Type} (e : exn) : M A := fun w => (Raise e, w).
Definition get_world : M world := fun w => (Ret w, w).
Definition modify (f : world -> world) : M unit := fun w => (Ret tt, f w).

(** [l[i]] with Python's negative indices; [None] is an [IndexError]. *)
Definition py_index {A : Type} (l : list A) (i : Z) : option A :=
  if (0 <=? i)%Z then l !! Z.to_nat i
  else if (- Z.of_nat (length l) <=? i)%Z then l !! Z.to_nat (Z.of_nat (length l) + i)
  else None.

(** A value of an expression that mixes strings and an exception object. *)
Inductive pyval : Type :=
| VStr (s : string)
| VParserError (msg : string).

(** [a + b], a string when it is defined, which is on two strings: an
    exception object has no [__add__] and a string does not add to it. *)
Definition py_add (a b : pyval) : M string :=
  match a, b with
  | VStr x, VStr y => mret (x +:+ y)
  | _, _ => raise TypeError
  end.

Definition ERROR_marker : string := "ERROR:".
Definition prompt : string := ":21000] > ".

(** [Impala._parseErrorMsg.format(path=path)] *)
Definition _parseErrorMsg (path : string) : string :=
  nl +:+ "    Error at parsing the cache file, moved to a temporary directory: "
     +:+ path +:+ "." +:+ nl
     +:+ "    Running the request again may help." +:+ nl +:+ nl
     +:+ "    For more information, find below the error and the buggy line:" +:+ nl
     +:+ "    ".

(** What [_read_cache] returns: [None], a DataFrame, or the text of the
    file. *)
Inductive parsed : Type :=
| Empty
| Table (df : DataFrame)
| RawText (text : string).

(** The loop of [_read_cache] over the lines: the normalised rows written
    to [s], the number of matched lines, and [return_df] ([false] when the
    loop was left by [break]). *)
Fixpoint scan_lines (lines : list string) (s : string) (count : nat)
  : string * nat * bool :=
  match lines with
  | [] => (s, count, true)
  | line :: rest =>
      let '(s, count) :=
        if contains TAB line then (s +:+ sub_tabs line +:+ nl, S count)
        else (s, count) in
      if match_box line then
        let count := S count in
        if contains COMMA line then (s, count, false)
        else scan_lines rest (s +:+ slice_1_m2 (sub_bars line) +:+ nl) count
      else scan_lines rest s count
  end.

(** The receiving loop: [while len(total) == 0 or total[-10:] != prompt].
    It gives the transcript, the chunks it received and those left; it never
    returns when the chunks run out before the prompt shows. *)
Fixpoint recv_loop (total : string) (chunks : list string)
  : outcome string * list string * list string :=
  match chunks with
  | [] => (Hang, [], [])
  | b :: rest =>
      let total := total +:+ b in
      if (String.length total =? 0)%nat || negb (String.eqb (last_chars 10 total) prompt)
      then let '(o, got, remaining) := recv_loop total rest in (o, b :: got, remaining)
      else (Ret total, [b], rest)
  end.

(** The text received since the last command was sent. *)
Definition received_since_send (evs : list event) : string :=
  fold_left (fun total e =>
               match e with
               | EvSend _ => EmptyString
               | EvRecv b => total +:+ b
               | _ => total
               end) evs EmptyString.

Definition is_recv (e : event) : bool :=
  match e with EvRecv _ => true | _ => false end.

Section Code.
Context {HL : Hashlib} {GZ : Gzip} {PD : Pandas} {TF : Tempfile} {RM : Remote}.

(** *** Files *)

(** [cachename.exists()] *)
Definition path_exists (name : string) : M bool :=
  w ← get_world; mret (bool_decide (is_Some (cache_dir w !! name))).

(** [cachename.unlink()] *)
Definition unlink (name : string) : M unit :=
  e ← path_exists name;
  if e : bool then modify (fun w => emit [EvUnlink name] (with_cache_dir (delete name) w))
  else raise FileNotFoundError.

(** [cachename.rename(Path(gettempdir()) / cachename.name)] *)
Definition rename_to_tmp (name : string) : M unit :=
  w ← get_world;
  match cache_dir w !! name with
  | Some bytes =>
      modify (fun w => emit [EvRename name]
                (with_tmp_dir (insert name bytes) (with_cache_dir (delete name) w)))
  | None => raise FileNotFoundError
  end.

(** [open_cache_file(cachename)]: the text that the file object gives,
    whatever the compression of the file. *)
Definition open_cache_file (name : string) : M string :=
  w ← get_world;
  match cache_dir w !! name with
  | None => raise FileNotFoundError
  | Some bytes =>
      if has_gzip_magic bytes then
        match gzip_decompress bytes with
        | Some text => mret (universal_newlines text)
        | None => raise BadGzipFile
        end
      else mret (universal_newlines bytes)
  end.

(** What is written to the file object: the header line, when there are
    columns, and the transcript. *)
Definition header_line (columns : option string) : string :=
  match columns with
  | Some c => sub_comma_space c +:+ nl
  | None => EmptyString
  end.

(** The bytes of the file once it is closed. *)
Definition stored_bytes (columns : option string) (total : string) (compress : bool)
  : string :=
  let written := header_line columns +:+ total in
  if compress then gzip_compress written else written.

(** The writing of the cache file in [_impala]: the file is opened under
    its name, which creates it empty; the header and the transcript are
    written to the file object, where they stay buffered; the [with] block
    closes the file, and the bytes reach it. (A text larger than the buffer
    would reach the file in parts, each a prefix of these bytes.) *)
Definition write_cache (name : string) (columns : option string) (total : string)
    (compress : bool) : M unit :=
  modify (fun w => emit [EvOpenW name] (with_cache_dir (insert name EmptyString) w));;
  let bytes := stored_bytes columns total compress in
  modify (fun w => emit [EvClose name bytes] (with_cache_dir (insert name bytes) w)).

(** *** The parser: [Impala._read_cache] *)

(** The loop of the [except ParserError] block: for every line number found
    in the message, the line of the cache file at that number. *)
Fixpoint lines_at (name : string) (line_nbs : list nat) (content : option string)
  : M (option string) :=
  match line_nbs with
  | [] => mret content
  | line_nb :: rest =>
      fh ← open_cache_file name;
      match py_index (readlines fh) (Z.of_nat line_nb - 1) with
      | Some c => lines_at name rest (Some c)
      | None => raise IndexError
      end
  end.

(** The [except ParserError as error] block. *)
Definition on_parser_error (name : string) (error : string) : M parsed :=
  content ← lines_at name (finditer_line_nb error) None;
  let new_path := gettempdir +:+ "/" +:+ name in
  rename_to_tmp name;;
  let head := _parseErrorMsg new_path in
  e ← py_add (VParserError error) (VStr nl);
  c ← match content with
      | Some c => mret c
      | None => raise UnboundLocalError
      end;
  detail ← py_add (VStr e) (VStr c);
  msg ← py_add (VStr head) (VStr detail);
  raise (ImpalaError msg).

(** The end of [_read_cache]: the search for an error banner. *)
Definition check_error_banner (name : string) : M parsed :=
  fh ← open_cache_file name;
  let output := readlines fh in
  if existsb (startswith ERROR_marker) output then
    unlink name;;
    raise (ImpalaError (join (removelast output)))
  else mret Empty.

Definition _read_cache (name : string) : M parsed :=
  fh ← open_cache_file name;
  let '(s, count, return_df) := scan_lines (readlines fh) EmptyString 0 in
  if negb return_df then mret (RawText (join (readlines fh)))
  else if (0 <? count)%nat then
    match read_csv s [("icao24", py_str); ("callsign", py_str)] with
    | CsvParserError error => on_parser_error name error
    | CsvOtherError e => raise (PandasError e)
    | CsvFrame df =>
        if (0 <? length (df_rows df))%nat then mret (Table (drop_duplicates df))
        else check_error_banner name
    end
  else check_error_banner name.

(** *** The session *)

(** [Impala.__init__], with the warnings it logs. *)
Definition __init__ (cfg : config) : Impala * list string :=
  (mkImpala (impala_username cfg) (impala_password cfg) (ssh_proxycommand cfg) false
     (if bool_decide (impala_username cfg = Some EmptyString)
         || bool_decide (impala_password cfg = Some EmptyString)
      then None
      else Some (impala_username cfg, impala_password cfg)),
   if bool_decide (impala_username cfg = None) || bool_decide (impala_password cfg = None)
   then ["No credentials provided"] else []).

Definition is_send (e : event) : bool :=
  match e with EvSend _ => true | _ => false end.

(** The number of commands sent to the shell: the remote executions. *)
Definition count_sent (evs : list event) : nat :=
  length (List.filter is_send evs).

(** [self.stdin.channel.send(data)]; the answer of the shell is on its way. *)
Definition send (data : string) : M unit :=
  modify (fun w =>
    emit [EvSend data] (with_inbox (fun i => i ++ server (count_sent (trace w)) data) w)).

(** [total = ""] and the receiving loop. *)
Definition recv_until_prompt : M string :=
  fun w =>
    let '(o, got, remaining) := recv_loop EmptyString (inbox w) in
    (o, emit (map EvRecv got) (with_inbox (fun _ => remaining) w)).

Definition set_connected (me : Impala) : Impala :=
  mkImpala (username me) (password me) (proxy_command me) true (auth me).

Definition _connect : M unit :=
  w ← get_world;
  let me := self w in
  if bool_decide (username me = Some EmptyString)
     || bool_decide (password me = Some EmptyString)
  then raise (RuntimeError "This method requires authentication.")
  else
    let sock :=
      match proxy_command me with
      | Some p => if String.eqb p EmptyString then None else Some p
      | None => None
      end in
    modify (emit [EvConnect (username me) (password me) sock]);;
    if ssh_accepts (username me) (password me) sock then
      modify (with_inbox (fun i => i ++ greeting));;
      modify (with_self set_connected);;
      recv_until_prompt;;
      mret tt
    else raise SSHException.

(** [Impala._impala] *)
Definition _impala (request : string) (columns : option string)
    (cached compress : bool) : M parsed :=
  let digest := md5_hexdigest request in
  e ← path_exists digest;
  (if (e : bool) && negb cached then unlink digest else mret tt);;
  e ← path_exists digest;
  (if negb e then
     w ← get_world;
     (if negb (connected (self w)) then _connect else mret tt);;
     let request := replace_newlines request in
     send (request +:+ ";" +:+ nl);;
     total ← recv_until_prompt;
     write_cache digest columns total compress
   else mret tt);;
  _read_cache digest.

End Code.

(** *** The stop bound of the query methods *)

Section Bounds.
(** A [timelike] value and [to_datetime] of [time.py]; a timestamp is a
    number of nanoseconds since the epoch. *)
Context {timelike : Type} (to_datetime : timelike -> Z).

(** [pd.Timedelta("1d")] *)
Definition one_day : Z := 86400 * 1000000000.

(** [pd.Timestamp.max], the last nanosecond that a timestamp holds. *)
Definition timestamp_max : Z := 2 ^ 63 - 1.

(** [ts + delta] for a timestamp and a [Timedelta] that is not negative:
    pandas raises [OutOfBoundsDatetime] when the sum is after the last
    timestamp. *)
Definition timestamp_add (ts delta : Z) : exn + Z :=
  if (ts + delta <=? timestamp_max)%Z then inr (ts + delta)%Z
  else inl OutOfBoundsDatetime.

Definition _raw_tables : list string :=
  [ "acas_data4"; "allcall_replies_data4"; "identification_data4";
    "operational_status_data4"; "position_data4"; "rollcall_replies_data4";
    "velocity_data4" ].

(** [start_ts] and [stop_ts]: the same six lines in [Impala.request],
    [Impala.flightlist], [Impala.history] and [Impala.rawdata]. *)
Definition start_stop_ts (start : timelike) (stop : option timelike) : exn + Z * Z :=
  let start_ts := to_datetime start in
  match stop with
  | Some stop => inr (start_ts, to_datetime stop)
  | None =>
      match timestamp_add start_ts one_day with
      | inl e => inl e
      | inr stop_ts => inr (start_ts, stop_ts)
      end
  end.

End Bounds.

(** ** The query methods: [clear_cache], [request], [flarm], filters *)

(** [sep.join(l)] *)
Fixpoint join_sep (sep : string) (l : list string) : string :=
  match l with
  | [] => EmptyString
  | x :: r =>
      match r with
      | [] => x
      | _ :: _ => x +:+ sep +:+ join_sep sep r
      end
  end.

(** [s.find(sub)], counted from [i]: the index of the first occurrence,
    [-1] when there is none. *)
Fixpoint find_from (i : Z) (sub s : string) : Z :=
  if startswith sub s then i
  else
    match s with
    | EmptyString => (-1)%Z
    | String _ r => find_from (i + 1)%Z sub r
    end.

Definition find (sub s : string) : Z := find_from 0 sub s.

(** ["{:<8s}".format(s)]: [s] with spaces on its right up to 8 characters. *)
Definition ljust8 (s : string) : string := s +:+ spaces (8 - String.length s).

(** [string.ascii_letters], [string.digits] and ["%_"]. *)
Definition is_ascii_letter (c : ascii) : bool :=
  let n := nat_of_ascii c in
  ((65 <=? n)%nat && (n <=? 90)%nat) || ((97 <=? n)%nat && (n <=? 122)%nat).

Definition is_plain_callsign_char (c : ascii) : bool :=
  is_ascii_letter c || is_digit c || Ascii.eqb c "%" || Ascii.eqb c "_".

(** [set(callsign) - set(string.ascii_letters) - set(string.digits)
    - set("%_")] is not empty. *)
Fixpoint has_regex_char (callsign : string) : bool :=
  match callsign with
  | EmptyString => false
  | String c r => negb (is_plain_callsign_char c) || has_regex_char r
  end.

(** The callsigns of a list, padded and quoted:
    [",".join("'{:<8s}'".format(c) for c in callsign)]. *)
Definition quoted_callsigns (callsign : list string) : string :=
  join_sep "," (map (fun c => "'" +:+ ljust8 c +:+ "'") callsign).

(** What [Impala.flightlist] adds to [other_params] for its [callsign]
    argument: [None], a string or a list of strings. *)
Definition flightlist_callsign_params (callsign : option (string + list string))
  : string :=
  match callsign with
  | Some (inl callsign) =>
      if (0 <? find "%" callsign)%Z || (0 <? find "_" callsign)%Z
      then "and callsign ilike '" +:+ callsign +:+ "' "
      else "and callsign='" +:+ ljust8 callsign +:+ "' "
  | Some (inr callsign) => "and callsign in (" +:+ quoted_callsigns callsign +:+ ") "
  | None => EmptyString
  end.

(** What [Impala.history] adds to [other_params] for its [callsign]
    argument, and [regexp_in_callsign]. *)
Definition history_callsign_params (callsign : option (string + list string))
  : string * bool :=
  match callsign with
  | Some (inl callsign) =>
      if has_regex_char callsign then
        (if negb (find "REGEXP(" callsign =? 0)%Z
         then "and RTRIM(callsign) " +:+ callsign +:+ " "
         else "and RTRIM(callsign) REGEXP('" +:+ callsign +:+ "') ",
         true)
      else if (0 <=? find "%" callsign)%Z || (0 <=? find "_" callsign)%Z
      then ("and callsign ilike '" +:+ callsign +:+ "' ", false)
      else ("and callsign='" +:+ ljust8 callsign +:+ "' ", false)
  | Some (inr callsign) =>
      ("and callsign in (" +:+ quoted_callsigns callsign +:+ ") ", false)
  | None => (EmptyString, false)
  end.

(** [Impala.flarm_request] *)
Definition flarm_request : string :=
  "select * from flarm_raw " +:+ "where hour>={before_hour} and hour<{after_hour} ".

Definition _flarm_columns : list string :=
  [ "sensortype"; "sensorlatitude"; "sensorlongitude"; "sensoraltitude";
    "timeatserver"; "timeatsensor"; "timestamp"; "timeatplane"; "rawmessage";
    "crc"; "rawsoftmessage"; "sensorname"; "ntperror"; "userfreqcorrection";
    "autofreqcorrection"; "frequency"; "channel"; "snrdetector";
    "snrdemodulator"; "typeogn"; "crccorrect"; "hour" ].

(** The [other_params] of [Impala.flarm] once its filters are added. *)
Definition flarm_other_params (sensor_name : option (string + list string))
    (limit : option Z) (other_params : string) : string :=
  let other_params := other_params +:+ "and rawmessage = rawmessage and crccorrect " in
  let other_params := other_params +:+ "and not typeogn " in
  let other_params :=
    match sensor_name with
    | Some (inl sensor_name) =>
        if (-1 <? find "%" sensor_name)%Z || (-1 <? find "_" sensor_name)%Z
        then other_params +:+ "and sensorname ilike '" +:+ sensor_name +:+ "' "
        else other_params +:+ "and sensorname='" +:+ ljust8 sensor_name +:+ "' "
    | Some (inr sensor_name) =>
        other_params +:+ "and sensorname in (" +:+ join_sep ", " sensor_name +:+ ") "
    | None => other_params
    end in
  match limit with
  | Some limit => other_params +:+ "limit " +:+ pretty limit
  | None => other_params
  end.

(** A window of [split_times]: [(bt, at, bh, ah)], as timestamps. *)
Record window : Type := mkWindow {
  before_time : Z;
  after_time : Z;
  before_hour : Z;
  after_hour : Z
}.

(** [to_datetime] and [split_times] of [time.py], for the values of
    [timelike] that convert to a timestamp; [list(split_times(...))] is the
    finite list of the windows. *)
Class TimeLib (timelike : Type) := {
  to_datetime : timelike -> Z;
  split_times : Z -> Z -> Z -> list window
}.

(** [request_pattern.format(before_time=bt.timestamp(), ...)] for a window:
    the request, or the exception of a pattern that does not format. *)
Class StrFormat := { format_request : string -> window -> exn + string }.

(** [pd.concat(cumul)] *)
Class PandasConcat := { pd_concat : list parsed -> exn + DataFrame }.

(** The requests of a query method once its filters are put into text:
    what [_impala] gets as [columns], and the request of each window (the
    formatting of a window may raise). *)
Record query_text : Type := mkQueryText {
  parse_columns : string;
  request_of : window -> exn + string
}.

(** What [flightlist], [history] and [rawdata] do with text and with
    frames. Their keyword arguments other than [cached], [compress],
    [date_delta], [table_name] and [progressbar] are the [filters]. The text
    of the requests is built from the filters and from [start_ts] and
    [stop_ts] (neither [start] nor [stop] is read again), by the formatting
    of floats, tuples and user patterns, and the building may raise, before
    the first window is run. [Impala._format_dataframe] and the last step
    over the frames of the windows are operations of pandas. *)
Class QueryMethods (filters : Type) := {
  flightlist_text : filters -> Z -> Z -> exn + query_text;
  history_text : filters -> Z -> Z -> exn + query_text;
  rawdata_text : string -> filters -> Z -> Z -> exn + query_text;
  _format_dataframe : parsed -> exn + parsed;
  (** [pd.concat(cumul).rename(columns=...)] of [flightlist] *)
  flightlist_frame : list parsed -> exn + DataFrame;
  (** [pd.concat(cumul)], with [assign(count=...)] when [count] is set, of
      [history] *)
  history_frame : filters -> list parsed -> exn + DataFrame
}.

(** An entry of the cache directory, as [glob] gives it: a file (of the map
    of the world) or a sub-directory. *)
Inductive dir_entry : Type :=
| EntryFile (name : string)
| EntryDir (name : string).

(** [self.cache_dir.glob("*")] *)
Class CacheListing := { glob_star : world -> list dir_entry }.

(** [timedelta(hours=1)] *)
Definition one_hour : Z := 3600 * 1000000000.

Section Queries.
Context {HL : Hashlib} {GZ : Gzip} {PD : Pandas} {TF : Tempfile} {RM : Remote}.
Context {timelike : Type} {TL : TimeLib timelike} {SF : StrFormat} {PC : PandasConcat}.
Context {filters : Type} {QM : QueryMethods filters} {CL : CacheListing}.

(** [file.unlink()] for an entry of the directory: on a sub-directory it
    raises ([IsADirectoryError] on Linux). *)
Definition unlink_entry (entry : dir_entry) : M unit :=
  match entry with
  | EntryFile name => unlink name
  | EntryDir _ => raise IsADirectoryError
  end.

(** [Impala.clear_cache]: the entries of the cache directory are unlinked
    one by one, in the order in which [glob] gives them. *)
Fixpoint unlink_each (entries : list dir_entry) : M unit :=
  match entries with
  | [] => mret tt
  | entry :: rest => unlink_entry entry;; unlink_each rest
  end.

Definition clear_cache : M unit :=
  w ← get_world;
  unlink_each (glob_star w).

(** The loop of [Impala.request] over the windows, [cumul] being the
    results so far. The windows are run as they come, with or without a
    progress bar. *)
Fixpoint request_loop (request_pattern : string) (columns : string)
    (cached compress : bool) (sequence : list window) (cumul : list parsed)
  : M (list parsed) :=
  match sequence with
  | [] => mret cumul
  | win :: rest =>
      match format_request request_pattern win with
      | inl e => raise e
      | inr request =>
          df ← _impala request (Some columns) cached compress;
          match df with
          | Empty => request_loop request_pattern columns cached compress rest cumul
          | _ =>
              request_loop request_pattern columns cached compress rest (cumul ++ [df])
          end
      end
  end.

(** [Impala.request] *)
Definition request (request_pattern : string) (start : timelike)
    (stop : option timelike) (columns : list string) (date_delta : Z)
    (cached compress : bool) : M parsed :=
  match start_stop_ts to_datetime start stop with
  | inl e => raise e
  | inr (start_ts, stop_ts) =>
      let sequence := split_times start_ts stop_ts date_delta in
      cumul ← request_loop request_pattern (join_sep tab columns) cached compress
                sequence [];
      if (length cumul =? 0)%nat then mret Empty
      else
        match pd_concat cumul with
        | inl e => raise e
        | inr df => mret (Table df)
        end
  end.

(** [Impala.flarm] *)
Definition flarm (start : timelike) (stop : option timelike)
    (sensor_name : option (string + list string)) (cached compress : bool)
    (limit : option Z) (other_params : string) : M parsed :=
  let other_params := flarm_other_params sensor_name limit other_params in
  let pattern := flarm_request +:+ other_params in
  request pattern start stop _flarm_columns one_hour cached compress.

(** The loop of [flightlist], [history] and [rawdata] over the windows:
    that of [request], with [_format_dataframe] on every result that is
    not [None]. *)
Fixpoint query_loop (text : query_text) (cached compress : bool)
    (sequence : list window) (cumul : list parsed) : M (list parsed) :=
  match sequence with
  | [] => mret cumul
  | win :: rest =>
      match request_of text win with
      | inl e => raise e
      | inr request =>
          df ← _impala request (Some (parse_columns text)) cached compress;
          match df with
          | Empty => query_loop text cached compress rest cumul
          | _ =>
              match _format_dataframe df with
              | inl e => raise e
              | inr df => query_loop text cached compress rest (cumul ++ [df])
              end
          end
      end
  end.

(** [Impala.flightlist]: the windows are of one day. *)
Definition flightlist (start : timelike) (stop : option timelike) (args : filters)
    (cached compress : bool) : M parsed :=
  match start_stop_ts to_datetime start stop with
  | inl e => raise e
  | inr (start_ts, stop_ts) =>
      match flightlist_text args start_ts stop_ts with
      | inl e => raise e
      | inr text =>
          let sequence := split_times start_ts stop_ts one_day in
          cumul ← query_loop text cached compress sequence [];
          if (length cumul =? 0)%nat then mret Empty
          else
            match flightlist_frame cumul with
            | inl e => raise e
            | inr df => mret (Table df)
            end
      end
  end.

(** [Impala.history] *)
Definition history (start : timelike) (stop : option timelike) (args : filters)
    (date_delta : Z) (cached compress : bool) : M parsed :=
  match start_stop_ts to_datetime start stop with
  | inl e => raise e
  | inr (start_ts, stop_ts) =>
      match history_text args start_ts stop_ts with
      | inl e => raise e
      | inr text =>
          let sequence := split_times start_ts stop_ts date_delta in
          cumul ← query_loop text cached compress sequence [];
          if (length cumul =? 0)%nat then mret Empty
          else
            match history_frame args cumul with
            | inl e => raise e
            | inr df => mret (Table df)
            end
      end
  end.

(** [Impala.rawdata] for one table: the name of the table is checked
    before the bounds are computed. *)
Definition rawdata_table (table_name : string) (start : timelike)
    (stop : option timelike) (args : filters) (date_delta : Z)
    (cached compress : bool) : M parsed :=
  if bool_decide (table_name ∈ _raw_tables) then
    match start_stop_ts to_datetime start stop with
    | inl e => raise e
    | inr (start_ts, stop_ts) =>
        match rawdata_text table_name args start_ts stop_ts with
        | inl e => raise e
        | inr text =>
            let sequence := split_times start_ts stop_ts date_delta in
            cumul ← query_loop text cached compress sequence [];
            if (length cumul =? 0)%nat then mret Empty
            else
              match pd_concat cumul with
              | inl e => raise e
              | inr df => mret (Table df)
              end
        end
    end
  else raise (RuntimeError (table_name +:+ " is not a valid table name")).

(** The pieces of [Impala.rawdata] for a list of tables: [rawdata] calls
    itself for each table in turn, with the same [start] and [stop];
    [compress] is not handed over, so that each piece runs with its
    default, [False]. *)
Fixpoint rawdata_pieces (tables : list string) (start : timelike)
    (stop : option timelike) (args : filters) (date_delta : Z) (cached : bool)
  : M (list parsed) :=
  match tables with
  | [] => mret []
  | table :: rest =>
      df ← rawdata_table table start stop args date_delta cached false;
      pieces ← rawdata_pieces rest start stop args date_delta cached;
      mret (df :: pieces)
  end.

(** [Impala.rawdata]: [table_name] is [None] (every table of
    [_raw_tables]), one name or a list of names. *)
Definition rawdata (start : timelike) (stop : option timelike) (args : filters)
    (date_delta : Z) (table_name : option (string + list string))
    (cached compress : bool) : M parsed :=
  match table_name with
  | Some (inl table_name) =>
      rawdata_table table_name start stop args date_delta cached compress
  | _ =>
      let tables :=
        match table_name with
        | Some (inr tables) => tables
        | _ => _raw_tables
        end in
      pieces ← rawdata_pieces tables start stop args date_delta cached;
      let candidates :=
        List.filter (fun df => match df with Empty => false | _ => true end) pieces in
      match pd_concat candidates with
      | inl e => raise e
      | inr df => mret (Table df)
      end
  end.

End Queries.

(** ** Small instances of the libraries, for the examples *)

Module Demo.

(** A digest that is the text itself, prefixed. *)
Definition demo_hashlib : Hashlib := {| md5_hexdigest := fun s => "d41d" +:+ s |}.

(** A "stored" compression: the magic bytes and the text. *)
Definition demo_gzip : Gzip := {|
  gzip_compress := fun s => gzip_magic_bytes +:+ s;
  gzip_decompress := fun b =>
    if has_gzip_magic b then Some (String.substring 3 (String.length b - 3) b)
    else None
|}.

Definition demo_tempfile : Tempfile := {| gettempdir := "/tmp" |}.

(** [s.split(d)] *)
Fixpoint split_on (d : ascii) (cur s : string) : list string :=
  match s with
  | EmptyString => [cur]
  | String c r =>
      if Ascii.eqb c d then cur :: split_on d EmptyString r
      else split_on d (cur +:+ String c EmptyString) r
  end.

Fixpoint all_digits (s : string) : bool :=
  match s with
  | EmptyString => true
  | String c r => is_digit c && all_digits r
  end.

Fixpoint int_of_digits (acc : Z) (s : string) : Z :=
  match s with
  | EmptyString => acc
  | String c r => int_of_digits (10 * acc + Z.of_nat (digit_value c)) r
  end.

(** The type a number sniffer gives to a field: an integer for digits, a
    float for digits, [e] and digits, text otherwise. *)
Definition sniff (field : string) : cell :=
  if all_digits field then CInt (int_of_digits 0 field)
  else
    match split_on "e" EmptyString field with
    | [m; e] =>
        if all_digits m && all_digits e
           && negb (String.eqb m EmptyString) && negb (String.eqb e EmptyString)
        then CFloat (int_of_digits 0 m) (int_of_digits 0 e)
        else CStr field
    | _ => CStr field
    end.

Definition type_cell (dtype : list (string * pytype)) (column field : string) : cell :=
  if String.eqb field EmptyString then CNaN
  else if bool_decide (column ∈ dtype.*1) then CStr field
  else sniff field.

Fixpoint type_row (dtype : list (string * pytype)) (columns fields : list string)
  : list cell :=
  match columns with
  | [] => []
  | c :: cs =>
      match fields with
      | f :: fs => type_cell dtype c f :: type_row dtype cs fs
      | [] => CNaN :: type_row dtype cs []
      end
  end.

(** The rows after the header; [line_nb] counts the lines of the buffer,
    the blank ones too. *)
Fixpoint read_rows (dtype : list (string * pytype)) (columns : list string)
    (line_nb : nat) (lines : list string) : string + list (list cell) :=
  match lines with
  | [] => inr []
  | l :: rest =>
      if String.eqb l EmptyString then read_rows dtype columns (S line_nb) rest
      else
        let fields := split_on COMMA EmptyString l in
        if (length columns <? length fields)%nat then
          inl ("Error tokenizing data. C error: Expected " +:+ pretty (length columns)
               +:+ " fields in line " +:+ pretty line_nb +:+ ", saw "
               +:+ pretty (length fields) +:+ nl)
        else
          match read_rows dtype columns (S line_nb) rest with
          | inl e => inl e
          | inr rows => inr (type_row dtype columns fields :: rows)
          end
  end.

Fixpoint read_header (dtype : list (string * pytype)) (line_nb : nat)
    (lines : list string) : csv_result :=
  match lines with
  | [] => CsvOtherError "EmptyDataError"
  | l :: rest =>
      if String.eqb l EmptyString then read_header dtype (S line_nb) rest
      else
        let columns := split_on COMMA EmptyString l in
        match read_rows dtype columns (S line_nb) rest with
        | inl e => CsvParserError e
        | inr rows => CsvFrame (mkDataFrame columns rows)
        end
  end.

(** A small CSV reader: first line the header, blank lines skipped, a row
    longer than the header refused, the columns of [dtype] kept as text
    and the other fields sniffed one by one. *)
Definition demo_pandas : Pandas := {|
  read_csv := fun s dtype => read_header dtype 1 (split_on LF EmptyString s)
|}.

(** A shell that accepts every user who has a name and a password, greets
    with a banner and answers every command with [answer]. *)
Definition demo_remote (answer : list string) : Remote := {|
  ssh_accepts := fun u p _ =>
    match u, p with Some _, Some _ => true | _, _ => false end;
  greeting := ["Starting Impala Shell" +:+ nl; "[hadoop-1:21000] > "];
  server := fun _ _ => answer
|}.

Definition demo_self (user pass : option string) : Impala :=
  mkImpala user pass None false (Some (user, pass)).

Definition demo_world (user pass : option string) (files : gmap string string) : world :=
  mkWorld (demo_self user pass) files ∅ [] [].


(** Transcripts and files. *)

Definition prompt_line : string := "[hadoop-1:21000] > ".

Definition line (fields : list string) : string :=
  fold_right (fun f r => match r with
                         | EmptyString => f
                         | _ => f +:+ tab +:+ r
                         end) EmptyString fields +:+ nl.

(** An error banner and the prompt. *)
Definition disk_full_transcript : string := "ERROR: disk full" +:+ nl +:+ prompt_line.

(** The answer to a [describe]: box-drawn lines, one with a comma. *)
Definition describe_transcript : string :=
  "| name | type |" +:+ nl +:+ "| sensors | array<int,double> |" +:+ nl +:+ prompt_line.

(** Two aircraft, one whose identifier reads as a number. *)
Definition rows_transcript : string :=
  line ["a1b2c3"; "AFR123"; "1000"] +:+ line ["1234e5"; "1234"; "2e3"] +:+ prompt_line.

(** A cache file of ten lines: the header, eight rows of which the one at
    line 5 has a field too many, and the prompt. *)
Definition ten_lines_file : string :=
  line ["icao24"; "lat"] +:+ line ["a1b2c3"; "1"] +:+ line ["a1b2c4"; "2"]
  +:+ line ["a1b2c5"; "3"] +:+ line ["a1b2c6"; "4"; "5"] +:+ line ["a1b2c7"; "6"]
  +:+ line ["a1b2c8"; "7"] +:+ line ["a1b2c9"; "8"] +:+ line ["a1b2ca"; "9"]
  +:+ prompt_line.

(** A world with a user, a password and the given cache files. *)
Definition cached_world (files : gmap string string) : world :=
  demo_world (Some "user") (Some "secret") files.

End Demo.

(** ** Vocabulary of the properties *)

(** A line that is box-drawn and holds a comma: the one that makes the
    parser give the text back. *)
Definition box_with_comma (line : string) : bool :=
  match_box line && contains COMMA line.

(** A line the parser counts as a row. *)
Definition is_row (line : string) : bool :=
  contains TAB line || match_box line.



(** An event of the channel or of the transport: it leaves the files as
    they are. *)
Definition is_network (e : event) : bool :=
  match e with
  | EvConnect _ _ _ | EvSend _ | EvRecv _ => true
  | EvOpenW _ | EvClose _ _ | EvUnlink _ | EvRename _ => false
  end.

(** A step that only talks to the far end: the files are the same and the
    new events are [net]. *)
Definition network_step (w w' : world) (net : list event) : Prop :=
  cache_dir w' = cache_dir w /\ tmp_dir w' = tmp_dir w
  /\ trace w' = trace w ++ net /\ forallb is_network net = true.

Section Vocabulary.
Context {GZ : Gzip}.

(** The text of the bytes of a cache file, as [open_cache_file] gives it. *)
Definition text_of_bytes (bytes : string) : outcome string :=
  if has_gzip_magic bytes then
    match gzip_decompress bytes with
    | Some text => Ret (universal_newlines text)
    | None => Raise BadGzipFile
    end
  else Ret (universal_newlines bytes).

End Vocabulary.

Section ParserVocabulary.
Context {PD : Pandas}.

(** A cached text without a data row: no line is taken for a row, or the
    reader finds no row under the header in the lines that are. *)
Definition no_data_rows (fh : string) : Prop :=
  exists (s : string) (count : nat),
    scan_lines (readlines fh) EmptyString 0 = (s, count, true)
    /\ (count = 0%nat
        \/ exists df : DataFrame,
             read_csv s [("icao24", py_str); ("callsign", py_str)] = CsvFrame df
             /\ df_rows df = []).

End ParserVocabulary.

Section SessionVocabulary.
Context {RM : Remote}.

(** The world once [send] has run. *)
Definition sent_world (data : string) (w : world) : world :=
  emit [EvSend data] (with_inbox (fun i => i ++ server (count_sent (trace w)) data) w).

End SessionVocabulary.


(** The world once [write_cache] has run. *)
Definition written_world (name : string) (bytes : string) (w : world) : world :=
  emit [EvClose name bytes]
    (with_cache_dir (insert name bytes)
       (emit [EvOpenW name] (with_cache_dir (insert name EmptyString) w))).

(** ** Vocabulary of the further properties *)

Definition is_connect (e : event) : bool :=
  match e with EvConnect _ _ _ => true | _ => false end.

(** The number of calls to [client.connect]. *)
Definition count_connect (evs : list event) : nat :=
  length (List.filter is_connect evs).

(** The commands sent, oldest first. *)
Definition commands_sent (evs : list event) : list string :=
  omap (fun e => match e with EvSend data => Some data | _ => None end) evs.

(** The number of occurrences of a character. *)
Fixpoint count_char (c : ascii) (s : string) : nat :=
  match s with
  | EmptyString => 0
  | String d r => (if Ascii.eqb d c then 1 else 0) + count_char c r
  end.

(** The text ends with the prompt: it is the condition on which the
    receiving loops stop. *)
Definition ends_with_prompt (total : string) : bool :=
  negb ((String.length total =? 0)%nat || negb (String.eqb (last_chars 10 total) prompt)).

(** What a run of [_impala] for the file [digest] and the command [cmd]
    does, [evs] being its events: it sends [cmd] or nothing, connects once
    at most and only when the session is not connected, leaves a connected
    session connected, and leaves the other files as they are. *)
Definition run_effects (digest cmd : string) (w w' : world) (o : outcome parsed)
    (evs : list event) : Prop :=
  trace w' = trace w ++ evs
  /\ (commands_sent evs = [] \/ commands_sent evs = [cmd])
  /\ (count_connect evs <= 1)%nat
  /\ (connected (self w) = true ->
      count_connect evs = 0%nat /\ connected (self w') = true)
  /\ ((exists v, o = Ret v) -> count_connect evs = 1%nat ->
      connected (self w') = true)
  /\ (forall other : string, other <> digest ->
        cache_dir w' !! other = cache_dir w !! other
        /\ tmp_dir w' !! other = tmp_dir w !! other).

(** The files among the entries of a directory. *)
Definition files_of (entries : list dir_entry) : list string :=
  omap (fun entry => match entry with
                     | EntryFile name => Some name
                     | EntryDir _ => None
                     end) entries.

(** [glob] lists the files of the cache directory, each once, in some
    order, among the sub-directories. *)
Definition lists_the_cache {CL : CacheListing} (w : world) : Prop :=
  files_of (glob_star w) ≡ₚ (map_to_list (cache_dir w)).*1.

(** The windows of a call, none when the bounds raise. *)
Definition windows_of {timelike : Type} {TL : TimeLib timelike}
    (bounds : exn + Z * Z) (date_delta : Z) : list window :=
  match bounds with
  | inr (start_ts, stop_ts) => split_times start_ts stop_ts date_delta
  | inl _ => []
  end.

(** The rows that have no equal row before them, in their order. *)
Definition first_occurrences (rows : list (list cell)) : list (list cell) :=
  omap (fun '(i, r) => if bool_decide (r ∈ take i rows) then None else Some r)
       (imap pair rows).

(** [b.decode()] does not raise: the bytes are well-formed UTF-8. [pending]
    bytes of a character are still to come, the next one between [lo] and
    [hi]. *)
Fixpoint utf8_scan (pending lo hi : nat) (b : string) : bool :=
  match b with
  | EmptyString => (pending =? 0)%nat
  | String c r =>
      let n := nat_of_ascii c in
      match pending with
      | O =>
          if (n <=? 127)%nat then utf8_scan 0 128 191 r
          else if ((194 <=? n) && (n <=? 223))%nat then utf8_scan 1 128 191 r
          else if (n =? 224)%nat then utf8_scan 2 160 191 r
          else if ((225 <=? n) && (n <=? 236))%nat then utf8_scan 2 128 191 r
          else if (n =? 237)%nat then utf8_scan 2 128 159 r
          else if ((238 <=? n) && (n <=? 239))%nat then utf8_scan 2 128 191 r
          else if (n =? 240)%nat then utf8_scan 3 144 191 r
          else if ((241 <=? n) && (n <=? 243))%nat then utf8_scan 3 128 191 r
          else if (n =? 244)%nat then utf8_scan 3 128 143 r
          else false
      | S pending =>
          if ((lo <=? n) && (n <=? hi))%nat then utf8_scan pending 128 191 r
          else false
      end
  end.

Definition decodes (b : string) : bool := utf8_scan 0 128 191 b.

Module Demo2.

(** Timestamps for [timelike], and a split into windows of [delta], by
    fuel. *)
Fixpoint split_by (fuel : nat) (start stop delta : Z) : list window :=
  match fuel with
  | O => []
  | S fuel =>
      if (start <? stop)%Z then
        let next := Z.min (start + delta) stop in
        mkWindow start next start next :: split_by fuel next stop delta
      else []
  end.

Definition demo_timelib : TimeLib Z := {|
  to_datetime := fun t => t;
  split_times := fun start stop delta =>
    if (0 <? delta)%Z then split_by (Z.to_nat ((stop - start) / delta + 1)) start stop delta
    else []
|}.

(** The pattern followed by the bounds of the window. *)
Definition demo_format : StrFormat := {|
  format_request := fun pattern win =>
    inr (pattern +:+ " " +:+ pretty (before_time win) +:+ " " +:+ pretty (after_time win))
|}.

(** The rows of the tables one after the other, under the columns of the
    first; a text is refused. *)
Definition demo_concat : PandasConcat := {|
  pd_concat := fun cumul =>
    if existsb (fun df => match df with RawText _ => true | _ => false end) cumul
    then inl TypeError
    else inr (mkDataFrame
                (match cumul with
                 | Table df :: _ => df_columns df
                 | _ => []
                 end)
                (concat (map (fun df => match df with
                                        | Table df => df_rows df
                                        | _ => []
                                        end) cumul)))
|}.

(** A shell that answers the [n]-th command with the [n]-th answer. *)
Definition scripted_remote (answers : list (list string)) : Remote := {|
  ssh_accepts := fun u p _ =>
    match u, p with Some _, Some _ => true | _, _ => false end;
  greeting := ["[hadoop-1:21000] > "];
  server := fun n _ => nth n answers []
|}.

(** The answer for a window without rows. *)
Definition empty_transcript : string := "Fetched 0 row(s) in 0.5s" +:+ nl +:+ Demo.prompt_line.

(** Two windows of one hour, and their answers. *)
Definition two_hours : Z := 2 * one_hour.

Definition answer (fields : list string) : list string :=
  [Demo.line fields +:+ Demo.prompt_line].

(** A cache file with a row written twice. *)
Definition duplicate_rows_file : string :=
  Demo.line ["icao24"; "callsign"] +:+ Demo.line ["a1b2c3"; "AFR123"]
  +:+ Demo.line ["a1b2c4"; "AFR124"] +:+ Demo.line ["a1b2c3"; "AFR123"]
  +:+ Demo.prompt_line.

(** A directory listing that puts a sub-directory after the first file. *)
Definition demo_listing : CacheListing := {|
  glob_star := fun w =>
    match (map_to_list (cache_dir w)).*1 with
    | [] => []
    | file :: files => EntryFile file :: EntryDir "sub" :: map EntryFile files
    end
|}.

(** Query methods with one request text for every window, and frames left
    as they are. *)
Definition demo_methods : QueryMethods unit := {|
  flightlist_text := fun _ start_ts stop_ts =>
    inr (mkQueryText "icao24, callsign"
           (fun win => format_request (StrFormat := demo_format) "select x" win));
  history_text := fun _ start_ts stop_ts =>
    inr (mkQueryText "icao24, callsign"
           (fun win => format_request (StrFormat := demo_format) "select y" win));
  rawdata_text := fun table _ start_ts stop_ts =>
    inr (mkQueryText "icao24, callsign"
           (fun win => format_request (StrFormat := demo_format) ("select " +:+ table) win));
  _format_dataframe := fun df => inr df;
  flightlist_frame := pd_concat (PandasConcat := demo_concat);
  history_frame := fun _ => pd_concat (PandasConcat := demo_concat)
|}.

(** A request of two windows, run on a world. *)
Definition demo_request (answers : list (list string)) (cached : bool) (w : world)
  : outcome parsed * world :=
  @request Demo.demo_hashlib Demo.demo_gzip Demo.demo_pandas Demo.demo_tempfile
    (scripted_remote answers)
    Z demo_timelib demo_format demo_concat
    "select x" 0%Z (Some two_hours) ["icao24"; "callsign"] one_hour cached false w.

End Demo2.

(** * Properties *)

(** ** Strings *)

Lemma append_nil_l (s : string) : EmptyString +:+ s = s.
Proof. reflexivity. Qed.

Lemma append_cons (c : ascii) (s t : string) :
  String c s +:+ t = String c (s +:+ t).
Proof. reflexivity. Qed.

Lemma append_nil_r (s : string) : s +:+ EmptyString = s.
Proof.
  induction s as [|c s IH]; [reflexivity |].
  now rewrite append_cons, IH.
Qed.

Lemma append_assoc (a b c : string) : (a +:+ b) +:+ c = a +:+ (b +:+ c).
Proof.
  induction a as [|x a IH]; [reflexivity |].
  now rewrite !append_cons, IH.
Qed.

Lemma join_readlines_from (s cur : string) :
  join (readlines_from cur s) = cur +:+ s.
Proof.
  revert cur. induction s as [|c s IH]; intros cur; simpl.
  - destruct cur; simpl; rewrite ?append_nil_r; reflexivity.
  - destruct (Ascii.eqb_spec c LF) as [->|Hc]; simpl.
    + rewrite IH, append_nil_l. unfold nl. now rewrite append_assoc.
    + rewrite IH. now rewrite append_assoc.
Qed.

(** Joining the lines of a text gives the text back. *)
Lemma join_readlines (s : string) : join (readlines s) = s.
Proof. apply join_readlines_from. Qed.

(** A text without a carriage return is read as it is. *)
Lemma universal_newlines_id (s : string) :
  contains CR s = false -> universal_newlines s = s.
Proof.
  induction s as [|c s IH]; simpl; [reflexivity |].
  destruct (Ascii.eqb c CR); [discriminate |].
  intros H. now rewrite IH.
Qed.

(** ** The scan of the lines *)

Lemma scan_lines_return_df (lines : list string) (s : string) (count : nat) :
  (scan_lines lines s count).2 = negb (existsb box_with_comma lines).
Proof.
  revert s count. induction lines as [|l lines IH]; intros s count; simpl.
  - reflexivity.
  - unfold box_with_comma at 1.
    destruct (contains TAB l); destruct (match_box l); simpl;
      try destruct (contains COMMA l); simpl; try apply IH; reflexivity.
Qed.

Lemma scan_lines_no_rows (lines : list string) (s : string) (count : nat) :
  existsb is_row lines = false -> scan_lines lines s count = (s, count, true).
Proof.
  revert s count. induction lines as [|l lines IH]; intros s count; simpl.
  - reflexivity.
  - unfold is_row at 1. intros H.
    apply orb_false_iff in H as [H1 H2]. apply orb_false_iff in H1 as [Ht Hb].
    rewrite Ht, Hb. now apply IH.
Qed.

(** ** Computations *)

(** Unfolds the operations of [M]. *)
Ltac run := unfold mbind, mret, M_bind, M_ret, raise, modify, get_world in *; simpl in *.

Section Cache.
Context {HL : Hashlib} {GZ : Gzip} {PD : Pandas} {TF : Tempfile} {RM : Remote}.

(** Opening a cache file changes nothing, and what it gives depends on the
    bytes of the file only. *)
Lemma open_cache_file_spec (name : string) (w : world) :
  open_cache_file name w =
    (match cache_dir w !! name with
     | Some bytes => text_of_bytes bytes
     | None => Raise FileNotFoundError
     end, w).
Proof.
  unfold open_cache_file, text_of_bytes. run.
  destruct (cache_dir w !! name) as [bytes|]; [|reflexivity].
  destruct (has_gzip_magic bytes); [|reflexivity].
  destruct (gzip_decompress bytes); reflexivity.
Qed.

Lemma write_cache_spec (name : string) (columns : option string) (total : string)
    (compress : bool) (w : world) :
  write_cache name columns total compress w =
    (Ret tt, written_world name (stored_bytes columns total compress) w).
Proof. reflexivity. Qed.

Lemma written_world_lookup (name bytes : string) (w : world) :
  cache_dir (written_world name bytes w) !! name = Some bytes.
Proof. simpl. apply lookup_insert_eq. Qed.

(** The bytes written for a text are read back as that text, with the line
    ends as text mode gives them. A plain file is taken for what it is as
    long as it does not start with the gzip magic. *)
Lemma text_of_stored_bytes `{!GzipLaws GZ} (columns : option string) (total : string)
    (compress : bool) :
  (compress = false -> has_gzip_magic (header_line columns +:+ total) = false) ->
  text_of_bytes (stored_bytes columns total compress)
  = Ret (universal_newlines (header_line columns +:+ total)).
Proof.
  intros Hplain. unfold text_of_bytes, stored_bytes.
  destruct compress.
  - now rewrite gzip_magic, gzip_round_trip.
  - now rewrite Hplain.
Qed.

(** ** The parser *)

Lemma unlink_present (name bytes : string) (w : world) :
  cache_dir w !! name = Some bytes ->
  unlink name w = (Ret tt, emit [EvUnlink name] (with_cache_dir (delete name) w)).
Proof.
  intros H. unfold unlink, path_exists. run. rewrite H.
  rewrite bool_decide_true by eauto. reflexivity.
Qed.

(** The world once the cache file has been moved to the temporary
    directory. *)
Lemma rename_to_tmp_present (name bytes : string) (w : world) :
  cache_dir w !! name = Some bytes ->
  rename_to_tmp name w =
    (Ret tt, emit [EvRename name]
               (with_tmp_dir (insert name bytes) (with_cache_dir (delete name) w))).
Proof. intros H. unfold rename_to_tmp. run. now rewrite H. Qed.

Lemma check_error_banner_spec (name : string) (w : world) :
  check_error_banner name w =
    match cache_dir w !! name with
    | None => (Raise FileNotFoundError, w)
    | Some bytes =>
        match text_of_bytes bytes with
        | Ret fh =>
            if existsb (startswith ERROR_marker) (readlines fh)
            then (Raise (ImpalaError (join (removelast (readlines fh)))),
                  emit [EvUnlink name] (with_cache_dir (delete name) w))
            else (Ret Empty, w)
        | Raise e => (Raise e, w)
        | Hang => (Hang, w)
        end
    end.
Proof.
  unfold check_error_banner. unfold mbind at 1, M_bind at 1.
  rewrite open_cache_file_spec.
  destruct (cache_dir w !! name) as [bytes|] eqn:Hb; [|reflexivity].
  destruct (text_of_bytes bytes) as [fh| |]; [|reflexivity..].
  destruct (existsb _ _); [|reflexivity].
  unfold mbind, M_bind. now rewrite (unlink_present _ _ _ Hb).
Qed.

(** The parser in one equation: what it returns and the world it leaves,
    from the text of the file. *)
Lemma _read_cache_spec (name : string) (w : world) :
  _read_cache name w =
    match cache_dir w !! name with
    | None => (Raise FileNotFoundError, w)
    | Some bytes =>
        match text_of_bytes bytes with
        | Ret fh =>
            let '(s, count, return_df) := scan_lines (readlines fh) EmptyString 0 in
            if negb return_df then (Ret (RawText fh), w)
            else if (0 <? count)%nat then
              match read_csv s [("icao24", py_str); ("callsign", py_str)] with
              | CsvParserError error => on_parser_error name error w
              | CsvOtherError e => (Raise (PandasError e), w)
              | CsvFrame df =>
                  if (0 <? length (df_rows df))%nat
                  then (Ret (Table (drop_duplicates df)), w)
                  else check_error_banner name w
              end
            else check_error_banner name w
        | Raise e => (Raise e, w)
        | Hang => (Hang, w)
        end
    end.
Proof.
  unfold _read_cache. unfold mbind at 1, M_bind at 1.
  rewrite open_cache_file_spec.
  destruct (cache_dir w !! name) as [bytes|]; [|reflexivity].
  destruct (text_of_bytes bytes) as [fh| |]; [|reflexivity..].
  destruct (scan_lines (readlines fh) EmptyString 0) as [[s count] return_df].
  destruct return_df; simpl.
  - destruct (0 <? count)%nat; [|reflexivity].
    destruct (read_csv _ _) as [df|error|e]; try reflexivity.
    destruct (0 <? length (df_rows df))%nat; reflexivity.
  - now rewrite join_readlines.
Qed.

Lemma lines_at_of_readable (name bytes fh : string) (nbs : list nat)
    (content : option string) (w w' : world) (o : outcome (option string)) :
  cache_dir w !! name = Some bytes ->
  text_of_bytes bytes = Ret fh ->
  lines_at name nbs content w = (o, w') ->
  w' = w /\ (o = Raise IndexError \/ exists c, o = Ret c).
Proof.
  intros Hb Ht. revert content. induction nbs as [|n nbs IH]; intros content; simpl.
  - run. intros [= <- <-]. eauto.
  - unfold mbind, M_bind. rewrite open_cache_file_spec, Hb, Ht.
    destruct (py_index _ _); [apply IH|]. run. intros [= <- <-]. eauto.
Qed.

Lemma on_parser_error_of_readable (name error bytes fh : string) (w w' : world)
    (o : outcome parsed) :
  cache_dir w !! name = Some bytes ->
  text_of_bytes bytes = Ret fh ->
  on_parser_error name error w = (o, w') ->
  (o = Raise TypeError /\
   w' = emit [EvRename name]
          (with_tmp_dir (insert name bytes) (with_cache_dir (delete name) w)))
  \/ (o = Raise IndexError /\ w' = w).
Proof.
  intros Hb Ht. unfold on_parser_error. unfold mbind at 1, M_bind at 1.
  destruct (lines_at name (finditer_line_nb error) None w) as [o1 w1] eqn:E.
  apply (lines_at_of_readable _ _ _ _ _ _ _ _ Hb Ht) in E as [-> E].
  destruct E as [->|[c ->]].
  - intros [= <- <-]. now right.
  - unfold mbind at 1, M_bind at 1.
    rewrite (rename_to_tmp_present _ _ _ Hb). run.
    intros [= <- <-]. now left.
Qed.

Lemma readable_inv (name fh : string) (w : world) :
  open_cache_file name w = (Ret fh, w) ->
  exists bytes, cache_dir w !! name = Some bytes /\ text_of_bytes bytes = Ret fh.
Proof.
  rewrite open_cache_file_spec.
  destruct (cache_dir w !! name) as [bytes|]; [|discriminate].
  intros [= H]. eauto.
Qed.

(** C6, as amended. Whenever a line of the text of the cache file is
    box-drawn ([|...|]) and holds a comma, the parser gives up the table,
    changes nothing and returns as raw text the text of the file as
    [open_cache_file] reads it. For a file written by [write_cache] that is
    the header line and the transcript, with the line ends that text mode
    gives; it is the transcript as it was received only when there were no
    columns and the transcript has no carriage return. *)
Theorem box_line_with_comma_gives_raw_text (name fh : string) (w : world) :
  open_cache_file name w = (Ret fh, w) ->
  existsb box_with_comma (readlines fh) = true ->
  _read_cache name w = (Ret (RawText fh), w)
  /\ forall (w0 : world) (columns : option string) (total : string) (compress : bool),
       GzipLaws GZ ->
       w = (write_cache name columns total compress w0).2 ->
       (compress = false -> has_gzip_magic (header_line columns +:+ total) = false) ->
       fh = universal_newlines (header_line columns +:+ total)
       /\ (columns = None -> contains CR total = false -> fh = total).
Proof.
  intros Hopen Hbox. split.
  - apply readable_inv in Hopen as (bytes & Hb & Ht).
    rewrite _read_cache_spec, Hb, Ht.
    pose proof (scan_lines_return_df (readlines fh) EmptyString 0) as Hdf.
    destruct (scan_lines (readlines fh) EmptyString 0) as [[s count] return_df].
    simpl in Hdf. rewrite Hbox in Hdf. now subst return_df.
  - intros w0 columns total compress Hlaws -> Hplain.
    rewrite open_cache_file_spec, write_cache_spec in Hopen. simpl snd in Hopen.
    rewrite written_world_lookup, (text_of_stored_bytes _ _ _ Hplain) in Hopen.
    injection Hopen as [= <-]. split; [reflexivity |].
    intros -> Hcr. simpl header_line. rewrite append_nil_l.
    now apply universal_newlines_id.
Qed.

(** C10. When the parser returns raw text, the world is as it was (the
    cache entry is neither deleted nor moved, nothing is written), and the
    text is the whole of the file as it is read from its start: for a file
    written by [write_cache], the header line and the transcript. *)
Theorem raw_text_leaves_cache_entry `{!GzipLaws GZ} (name text : string) (w w' : world) :
  _read_cache name w = (Ret (RawText text), w') ->
  w' = w /\ open_cache_file name w = (Ret text, w) /\
  forall (w0 : world) (columns : option string) (total : string) (compress : bool),
    w = (write_cache name columns total compress w0).2 ->
    (compress = false -> has_gzip_magic (header_line columns +:+ total) = false) ->
    text = universal_newlines (header_line columns +:+ total).
Proof.
  intros H.
  assert (w' = w /\ open_cache_file name w = (Ret text, w)) as [-> Hopen].
  { rewrite _read_cache_spec in H. rewrite open_cache_file_spec.
    destruct (cache_dir w !! name) as [bytes|] eqn:Hb; [|discriminate].
    destruct (text_of_bytes bytes) as [fh| |] eqn:Ht; [|discriminate..].
    destruct (scan_lines (readlines fh) EmptyString 0) as [[s count] return_df].
    destruct return_df; simpl in H.
    - assert (Hbanner : check_error_banner name w <> (Ret (RawText text), w')).
      { rewrite check_error_banner_spec, Hb, Ht.
        destruct (existsb _ _); discriminate. }
      destruct (0 <? count)%nat; [|contradiction].
      destruct (read_csv _ _) as [df|error|e]; [| |discriminate].
      + destruct (0 <? length (df_rows df))%nat; [discriminate | contradiction].
      + apply (on_parser_error_of_readable _ _ _ _ _ _ _ Hb Ht) in H.
        destruct H as [[? _]|[? _]]; discriminate.
    - now injection H as [= -> ->]. }
  split; [reflexivity |]. split; [assumption |].
  intros w0 columns total compress -> Hplain.
  rewrite open_cache_file_spec, write_cache_spec in Hopen. simpl snd in Hopen.
  rewrite written_world_lookup, (text_of_stored_bytes _ _ _ Hplain) in Hopen.
  now injection Hopen.
Qed.

Lemma readlines_from_line (l rest cur : string) :
  contains LF l = false ->
  readlines_from cur (l +:+ nl +:+ rest) = (cur +:+ l +:+ nl) :: readlines rest.
Proof.
  revert cur. induction l as [|c l IH]; intros cur Hl.
  - reflexivity.
  - rewrite append_cons. simpl in *.
    destruct (Ascii.eqb c LF); [discriminate |].
    rewrite (IH _ Hl). now rewrite append_assoc.
Qed.

Lemma readlines_from_last (s cur : string) :
  contains LF s = false ->
  readlines_from cur s =
    match cur +:+ s with EmptyString => [] | t => [t] end.
Proof.
  revert cur. induction s as [|c s IH]; intros cur Hs; simpl in *.
  - rewrite append_nil_r. now destruct cur.
  - destruct (Ascii.eqb c LF); [discriminate |].
    rewrite (IH _ Hs). now rewrite append_assoc.
Qed.

(** A text of one line and a last line that has no line end. *)
Lemma readlines_two (l last : string) :
  contains LF l = false -> contains LF last = false -> last <> EmptyString ->
  readlines (l +:+ nl +:+ last) = [l +:+ nl; last].
Proof.
  intros Hl Hlast Hne. unfold readlines.
  rewrite (readlines_from_line _ _ _ Hl). unfold readlines.
  rewrite (readlines_from_last _ _ Hlast).
  rewrite !append_nil_l. destruct last; [contradiction | reflexivity].
Qed.

(** A text none of whose lines has a tab or is box-drawn has no data row. *)
Lemma no_row_lines_no_data_rows (fh : string) :
  existsb is_row (readlines fh) = false -> no_data_rows fh.
Proof.
  intros H. exists EmptyString, 0%nat.
  split; [now apply scan_lines_no_rows | now left].
Qed.

(** C3, as amended. When the cached text has no data row and a line that
    starts with [ERROR:], the parser deletes the cache file and raises an
    [ImpalaError] whose message is the lines of the text but the last, each
    with its line end. In particular for the line [ERROR: disk full]
    followed by a last line, the message is that line and its line end. *)
Theorem error_banner_deletes_entry (name fh : string) (w : world) :
  open_cache_file name w = (Ret fh, w) ->
  no_data_rows fh ->
  existsb (startswith ERROR_marker) (readlines fh) = true ->
  let w' := emit [EvUnlink name] (with_cache_dir (delete name) w) in
  _read_cache name w = (Raise (ImpalaError (join (removelast (readlines fh)))), w')
  /\ cache_dir w' !! name = None
  /\ forall last : string,
       fh = "ERROR: disk full" +:+ nl +:+ last ->
       last <> EmptyString -> contains LF last = false ->
       join (removelast (readlines fh)) = "ERROR: disk full" +:+ nl.
Proof.
  intros Hopen (s & count & Hscan & Hrows) Herr w'.
  apply readable_inv in Hopen as (bytes & Hb & Ht).
  split; [|split].
  - rewrite _read_cache_spec, Hb, Ht, Hscan. simpl.
    destruct Hrows as [-> | (df & -> & Hdf)]; simpl.
    + now rewrite check_error_banner_spec, Hb, Ht, Herr.
    + destruct (0 <? count)%nat; rewrite ?Hdf; simpl;
        now rewrite check_error_banner_spec, Hb, Ht, Herr.
  - simpl. apply lookup_delete_eq.
  - intros last -> Hne Hlast.
    rewrite readlines_two by (assumption || reflexivity).
    simpl. now rewrite append_nil_r.
Qed.

(** C2. When [read_csv] refuses the rows with a [ParserError], the parser
    never raises the [ImpalaError] that would carry the path, the line
    number and the line: it leaves with a [TypeError] once the file is
    moved to the temporary directory, or with an [IndexError] before the
    file is moved. *)
Theorem parser_error_is_not_reported (name fh s error : string) (count : nat)
    (w : world) :
  open_cache_file name w = (Ret fh, w) ->
  scan_lines (readlines fh) EmptyString 0 = (s, count, true) ->
  (0 < count)%nat ->
  read_csv s [("icao24", py_str); ("callsign", py_str)] = CsvParserError error ->
  exists (o : outcome parsed) (w' : world),
    _read_cache name w = (o, w') /\
    (forall msg : string, o <> Raise (ImpalaError msg)) /\
    ((o = Raise TypeError /\ cache_dir w' !! name = None
      /\ tmp_dir w' !! name = cache_dir w !! name)
     \/ (o = Raise IndexError /\ w' = w)).
Proof.
  intros Hopen Hscan Hcount Hcsv.
  apply readable_inv in Hopen as (bytes & Hb & Ht).
  destruct (_read_cache name w) as [o w'] eqn:E. exists o, w'.
  split; [reflexivity |].
  rewrite _read_cache_spec, Hb, Ht, Hscan in E. simpl in E.
  apply Nat.ltb_lt in Hcount. rewrite Hcount, Hcsv in E.
  apply (on_parser_error_of_readable _ _ _ _ _ _ _ Hb Ht) in E.
  destruct E as [[-> ->]|[-> ->]].
  - split; [discriminate |]. left. split; [reflexivity |]. simpl.
    now rewrite lookup_delete_eq, lookup_insert_eq.
  - split; [discriminate |]. now right.
Qed.



(** ** The cache: [write_cache] and [open_cache_file] *)

(** C5, as amended. What is read back after [write_cache] is the header
    line (when there are columns) followed by the transcript, with the line
    ends that text mode gives ([\r\n] and [\r] read as [\n]): exactly the
    header line and the transcript when they hold no carriage return,
    whether the file is compressed or not. For a plain file this asks that
    the written text does not start with the gzip magic, because the reader
    decides on the bytes of the file alone: the text is [text_of_bytes] of
    the bytes, whatever the name of the file. *)
Theorem write_then_read `{!GzipLaws GZ} (name : string) (columns : option string)
    (total : string) (compress : bool) (w : world) :
  (compress = false -> has_gzip_magic (header_line columns +:+ total) = false) ->
  let w1 := (write_cache name columns total compress w).2 in
  open_cache_file name w1
    = (Ret (universal_newlines (header_line columns +:+ total)), w1)
  /\ (contains CR (header_line columns +:+ total) = false ->
      open_cache_file name w1 = (Ret (header_line columns +:+ total), w1))
  /\ (forall (name' bytes : string) (w' : world),
        cache_dir w' !! name' = Some bytes ->
        open_cache_file name' w' = (text_of_bytes bytes, w')).
Proof.
  intros Hplain w1.
  assert (H1 : open_cache_file name w1
               = (Ret (universal_newlines (header_line columns +:+ total)), w1)).
  { rewrite open_cache_file_spec. subst w1. rewrite write_cache_spec. simpl snd.
    now rewrite written_world_lookup, (text_of_stored_bytes _ _ _ Hplain). }
  split; [exact H1 |]. split.
  - intros Hcr. now rewrite H1, (universal_newlines_id _ Hcr).
  - intros name' bytes w' Hb. now rewrite open_cache_file_spec, Hb.
Qed.

(** ** The session: [_connect] and [_impala] *)

Lemma network_step_refl (w : world) : network_step w w [].
Proof. unfold network_step. now rewrite app_nil_r. Qed.

Lemma forallb_is_network_recv (chunks : list string) :
  forallb is_network (map EvRecv chunks) = true.
Proof. induction chunks; simpl; auto. Qed.

(** The receiving loop returns the chunks it received put together, and
    that text ends with the prompt. *)
Lemma recv_loop_Ret (chunks got remaining : list string) (total0 total : string) :
  recv_loop total0 chunks = (Ret total, got, remaining) ->
  total = total0 +:+ join got /\ chunks = got ++ remaining
  /\ last_chars 10 total = prompt.
Proof.
  revert total0 got. induction chunks as [|b rest IH]; intros total0 got; simpl.
  - discriminate.
  - destruct (_ || _) eqn:Hcond.
    + destruct (recv_loop (total0 +:+ b) rest) as [[o g] r] eqn:E.
      intros [= -> <- <-]. apply IH in E as (-> & -> & Hp).
      simpl. rewrite <- append_assoc. auto.
    + intros [= <- <- <-]. apply orb_false_iff in Hcond as [_ Hcond].
      apply negb_false_iff, String.eqb_eq in Hcond.
      simpl. now rewrite append_nil_r.
Qed.

Lemma recv_loop_not_Raise (chunks got remaining : list string) (total0 : string)
    (e : exn) :
  recv_loop total0 chunks <> (Raise e, got, remaining).
Proof.
  revert total0 got. induction chunks as [|b rest IH]; intros total0 got; simpl.
  - discriminate.
  - destruct (_ || _).
    + destruct (recv_loop (total0 +:+ b) rest) as [[o g] r] eqn:E.
      intros [= -> <- <-]. now apply IH in E.
    + discriminate.
Qed.

(** Receiving is a step on the channel: it returns the transcript, or it
    never returns. *)
Lemma recv_until_prompt_spec (w w' : world) (o : outcome string) :
  recv_until_prompt w = (o, w') ->
  exists got : list string,
    network_step w w' (map EvRecv got) /\ self w' = self w
    /\ (o = Hang \/ (o = Ret (join got) /\ last_chars 10 (join got) = prompt)).
Proof.
  unfold recv_until_prompt.
  destruct (recv_loop EmptyString (inbox w)) as [[o1 got] remaining] eqn:E.
  intros [= <- <-]. exists got. split; [|split].
  - unfold network_step. simpl. now rewrite forallb_is_network_recv.
  - reflexivity.
  - destruct o1 as [total|e|].
    + apply recv_loop_Ret in E as (-> & _ & Hp). rewrite append_nil_l in *. auto.
    + now apply recv_loop_not_Raise in E.
    + now left.
Qed.

(** [_connect] with a user name or a password that is the empty string:
    the error, and nothing done. *)
Lemma _connect_empty_credentials (w : world) :
  username (self w) = Some EmptyString \/ password (self w) = Some EmptyString ->
  _connect w = (Raise (RuntimeError "This method requires authentication."), w).
Proof.
  intros H. unfold _connect. run.
  destruct H as [-> | ->]; simpl; [reflexivity |].
  now rewrite orb_true_r.
Qed.

(** [_connect] otherwise: [client.connect] is called first. *)
Lemma _connect_other_credentials (w w' : world) (o : outcome unit) :
  username (self w) <> Some EmptyString ->
  password (self w) <> Some EmptyString ->
  _connect w = (o, w') ->
  exists (sock : option string) (got : list string),
    network_step w w'
      (EvConnect (username (self w)) (password (self w)) sock :: map EvRecv got)
    /\ (o = Raise SSHException \/ o = Hang
        \/ (o = Ret tt /\ connected (self w') = true)).
Proof.
  intros Hu Hp. unfold _connect. run.
  rewrite !bool_decide_false by assumption. simpl.
  set (sock := match proxy_command (self w) with
               | Some p => if String.eqb p EmptyString then None else Some p
               | None => None
               end).
  destruct (ssh_accepts _ _ sock).
  - match goal with |- context [recv_until_prompt ?w1] =>
      destruct (recv_until_prompt w1) as [o1 w2] eqn:E end.
    apply recv_until_prompt_spec in E as (got & (Hc & Ht & Htr & Hn) & Hs & Ho).
    simpl in Hc, Ht, Htr, Hs.
    assert (Hstep : network_step w w2
              (EvConnect (username (self w)) (password (self w)) sock :: map EvRecv got)).
    { unfold network_step. rewrite Hc, Ht, Htr, <- app_assoc. simpl.
      now rewrite forallb_is_network_recv. }
    destruct Ho as [-> | [-> _]]; intros [= <- <-]; exists sock, got.
    + auto.
    + split; [assumption |]. right. right. now rewrite Hs.
  - intros [= <- <-]. exists sock, []. split; [|auto].
    unfold network_step. simpl. auto.
Qed.

Lemma _connect_network (w w' : world) (o : outcome unit) :
  _connect w = (o, w') ->
  exists net : list event,
    network_step w w' net /\ (o = Hang \/ o = Ret tt \/ exists e, o = Raise e).
Proof.
  intros H.
  destruct (decide (username (self w) = Some EmptyString)) as [Hu|Hu];
    [|destruct (decide (password (self w) = Some EmptyString)) as [Hp|Hp]].
  - rewrite _connect_empty_credentials in H by auto. injection H as [= <- <-].
    exists []. split; [apply network_step_refl | eauto].
  - rewrite _connect_empty_credentials in H by auto. injection H as [= <- <-].
    exists []. split; [apply network_step_refl | eauto].
  - apply (_connect_other_credentials _ _ _ Hu Hp) in H as (sock & got & Hs & Ho).
    eexists. split; [exact Hs |].
    destruct Ho as [-> | [-> | [-> _]]]; eauto.
Qed.

(** [_impala] when the cache has no file for the request. *)
Lemma _impala_miss (request : string) (columns : option string) (cached compress : bool)
    (w : world) :
  cache_dir w !! md5_hexdigest request = None ->
  _impala request columns cached compress w =
    match (if connected (self w) then (Ret tt, w) else _connect w) with
    | (Ret _, w1) =>
        match recv_until_prompt
                (sent_world (replace_newlines request +:+ ";" +:+ nl) w1) with
        | (Ret total, w2) =>
            _read_cache (md5_hexdigest request)
              (written_world (md5_hexdigest request)
                 (stored_bytes columns total compress) w2)
        | (Raise e, w2) => (Raise e, w2)
        | (Hang, w2) => (Hang, w2)
        end
    | (Raise e, w1) => (Raise e, w1)
    | (Hang, w1) => (Hang, w1)
    end.
Proof.
  intros Hnone. unfold _impala, path_exists. run. rewrite Hnone.
  rewrite bool_decide_false by (intros [? ?]; discriminate). simpl.
  rewrite Hnone. rewrite bool_decide_false by (intros [? ?]; discriminate). simpl.
  destruct (connected (self w)); simpl.
  - unfold send. run. fold (sent_world (replace_newlines request +:+ ";" +:+ nl) w).
    destruct (recv_until_prompt _) as [[total|e|] w2]; reflexivity.
  - destruct (_connect w) as [[[]|e|] w1]; try reflexivity.
    unfold send. run. fold (sent_world (replace_newlines request +:+ ";" +:+ nl) w1).
    destruct (recv_until_prompt _) as [[total|e|] w2]; reflexivity.
Qed.

(** [_impala] when the file is there and the cache is used. *)
Lemma _impala_hit (request : string) (columns : option string) (compress : bool)
    (w : world) :
  is_Some (cache_dir w !! md5_hexdigest request) ->
  _impala request columns true compress w = _read_cache (md5_hexdigest request) w.
Proof.
  intros Hsome. unfold _impala, path_exists. run.
  rewrite bool_decide_true by assumption. simpl.
  rewrite bool_decide_true by assumption. reflexivity.
Qed.

(** The parser leaves the world as it is, or it raises once it has deleted
    the file or moved it; when it returns, the world is as it was. *)
Lemma _read_cache_world (name : string) (w w' : world) (o : outcome parsed) :
  _read_cache name w = (o, w') ->
  w' = w
  \/ ((exists e, o = Raise e)
      /\ w' = emit [EvUnlink name] (with_cache_dir (delete name) w))
  \/ ((exists e, o = Raise e)
      /\ exists bytes,
           w' = emit [EvRename name]
                  (with_tmp_dir (insert name bytes) (with_cache_dir (delete name) w))).
Proof.
  rewrite _read_cache_spec.
  assert (Hbanner : forall o w', check_error_banner name w = (o, w') ->
            w' = w
            \/ ((exists e, o = Raise e)
                /\ w' = emit [EvUnlink name] (with_cache_dir (delete name) w))
            \/ ((exists e, o = Raise e)
                /\ exists bytes,
                     w' = emit [EvRename name]
                            (with_tmp_dir (insert name bytes)
                               (with_cache_dir (delete name) w)))).
  { intros o0 w0. rewrite check_error_banner_spec.
    destruct (cache_dir w !! name) as [bytes|]; [|intros [= <- <-]; auto].
    destruct (text_of_bytes bytes) as [fh| |]; try (intros [= <- <-]; auto).
    destruct (existsb _ _); intros [= <- <-]; [|auto].
    right. left. eauto. }
  destruct (cache_dir w !! name) as [bytes|] eqn:Hb; [|intros [= <- <-]; auto].
  destruct (text_of_bytes bytes) as [fh| |] eqn:Ht; try (intros [= <- <-]; auto).
  destruct (scan_lines (readlines fh) EmptyString 0) as [[s count] return_df].
  destruct return_df; simpl; [|intros [= <- <-]; auto].
  destruct (0 <? count)%nat; [|apply Hbanner].
  destruct (read_csv _ _) as [df|error|e].
  - destruct (0 <? length (df_rows df))%nat; [intros [= <- <-]; auto | apply Hbanner].
  - intros H. apply (on_parser_error_of_readable _ _ _ _ _ _ _ Hb Ht) in H.
    destruct H as [[-> ->]|[-> ->]]; [|auto].
    right. right. eauto.
  - intros [= <- <-]; auto.
Qed.

Lemma _read_cache_Ret_world (name : string) (w w' : world) (v : parsed) :
  _read_cache name w = (Ret v, w') -> w' = w.
Proof.
  intros H. apply _read_cache_world in H as [-> | [[[e He] _] | [[e He] _]]];
    [reflexivity | discriminate..].
Qed.

Lemma count_sent_app (a b : list event) :
  count_sent (a ++ b) = (count_sent a + count_sent b)%nat.
Proof. unfold count_sent. now rewrite List.filter_app, length_app. Qed.

Lemma count_sent_recv (chunks : list string) : count_sent (map EvRecv chunks) = 0%nat.
Proof. induction chunks; [reflexivity | assumption]. Qed.

(** Connecting sends no command. *)
Lemma _connect_count_sent (w w' : world) (o : outcome unit) :
  _connect w = (o, w') -> count_sent (trace w') = count_sent (trace w).
Proof.
  intros H.
  destruct (decide (username (self w) = Some EmptyString)) as [Hu|Hu];
    [|destruct (decide (password (self w) = Some EmptyString)) as [Hp|Hp]].
  - rewrite _connect_empty_credentials in H by auto. now injection H as [= <- <-].
  - rewrite _connect_empty_credentials in H by auto. now injection H as [= <- <-].
  - apply (_connect_other_credentials _ _ _ Hu Hp) in H
      as (sock & got & (_ & _ & -> & _) & _).
    rewrite count_sent_app. change (EvConnect ?u ?p ?s :: ?l) with ([EvConnect u p s] ++ l).
    rewrite count_sent_app, count_sent_recv. simpl. lia.
Qed.

(** An [ImpalaError] of the parser is that of the error banner: the file
    has been deleted. *)
Lemma _read_cache_ImpalaError (name msg : string) (w w' : world) :
  _read_cache name w = (Raise (ImpalaError msg), w') ->
  w' = emit [EvUnlink name] (with_cache_dir (delete name) w).
Proof.
  rewrite _read_cache_spec.
  destruct (cache_dir w !! name) as [bytes|] eqn:Hb; [|discriminate].
  destruct (text_of_bytes bytes) as [fh|e|] eqn:Ht; [| |discriminate].
  - assert (Hbanner : check_error_banner name w = (Raise (ImpalaError msg), w') ->
                      w' = emit [EvUnlink name] (with_cache_dir (delete name) w)).
    { rewrite check_error_banner_spec, Hb, Ht.
      destruct (existsb _ _); [|discriminate]. now intros [= _ <-]. }
    destruct (scan_lines (readlines fh) EmptyString 0) as [[s count] return_df].
    destruct return_df; simpl; [|discriminate].
    destruct (0 <? count)%nat; [|exact Hbanner].
    destruct (read_csv _ _) as [df|error|e] eqn:Hcsv; [| |discriminate].
    + destruct (0 <? length (df_rows df))%nat; [discriminate | exact Hbanner].
    + intros H. apply (on_parser_error_of_readable _ _ _ _ _ _ _ Hb Ht) in H.
      destruct H as [[? _]|[? _]]; discriminate.
  - unfold text_of_bytes in Ht. destruct (has_gzip_magic bytes); [|discriminate].
    destruct (gzip_decompress bytes); [discriminate |].
    injection Ht as [= <-]. discriminate.
Qed.

(** The parser sends nothing and leaves the session as it is. *)
Lemma _read_cache_count_sent (name : string) (w w' : world) (o : outcome parsed) :
  _read_cache name w = (o, w') ->
  count_sent (trace w') = count_sent (trace w) /\ self w' = self w.
Proof.
  intros H. apply _read_cache_world in H.
  destruct H as [-> | [[_ ->] | [_ [bytes ->]]]]; simpl;
    rewrite ?count_sent_app; unfold count_sent; simpl; split; (lia || reflexivity).
Qed.

Lemma _connect_not_ImpalaError (msg : string) (w w' : world) :
  _connect w <> (Raise (ImpalaError msg), w').
Proof.
  intros H.
  destruct (decide (username (self w) = Some EmptyString)) as [Hu|Hu];
    [|destruct (decide (password (self w) = Some EmptyString)) as [Hp|Hp]].
  - rewrite _connect_empty_credentials in H by auto. discriminate.
  - rewrite _connect_empty_credentials in H by auto. discriminate.
  - apply (_connect_other_credentials _ _ _ Hu Hp) in H
      as (sock & got & _ & [? | [? | [? _]]]); discriminate.
Qed.

(** A run that finds no file and has a session sends its command, whatever
    comes of it. *)
Lemma miss_connected_sends (request : string) (columns : option string)
    (cached compress : bool) (w w' : world) (o : outcome parsed) :
  cache_dir w !! md5_hexdigest request = None ->
  connected (self w) = true ->
  _impala request columns cached compress w = (o, w') ->
  count_sent (trace w') = (count_sent (trace w) + 1)%nat.
Proof.
  intros Hnone Hconn H. rewrite _impala_miss in H by exact Hnone. rewrite Hconn in H.
  destruct (recv_until_prompt _) as [o2 w2] eqn:E.
  apply recv_until_prompt_spec in E as (got & (_ & _ & Htr & _) & _ & _).
  simpl in Htr.
  assert (Hw2 : count_sent (trace w2) = (count_sent (trace w) + 1)%nat).
  { rewrite Htr, !count_sent_app, count_sent_recv. unfold count_sent. simpl. lia. }
  destruct o2 as [total|e|]; [|now injection H as [= <- <-]..].
  apply _read_cache_count_sent in H as [Hc _]. simpl in Hc.
  rewrite !count_sent_app in Hc.
  change (count_sent [EvOpenW ?n]) with 0%nat in Hc.
  change (count_sent [EvClose ?n ?b]) with 0%nat in Hc. lia.
Qed.

(** C4, as amended. With the cache in use, a run of a request that returns
    (a table, raw text or nothing) leaves a cache file from which a second
    run of the same request is served: the second run returns the same
    value and changes nothing, so nothing is sent by it; over the two runs
    one command is sent when the cache had no file for the request, and
    none when it had one. A run that raises [ImpalaError], the error of a
    banner in the answer, leaves no file for the request: when the cache had
    none, the command has been sent and the session is connected; and a
    second run on a connected session sends the command again. *)
Theorem second_run_is_served_from_cache (request : string) (columns : option string)
    (compress : bool) (w w1 : world) (o : outcome parsed) :
  _impala request columns true compress w = (o, w1) ->
  (forall v : parsed,
     o = Ret v ->
     _impala request columns true compress w1 = (Ret v, w1)
     /\ count_sent (trace w1)
        = (count_sent (trace w)
           + if bool_decide (is_Some (cache_dir w !! md5_hexdigest request))
             then 0 else 1)%nat)
  /\ (forall msg : string,
        o = Raise (ImpalaError msg) ->
        cache_dir w1 !! md5_hexdigest request = None
        /\ (cache_dir w !! md5_hexdigest request = None ->
            connected (self w1) = true
            /\ count_sent (trace w1) = (count_sent (trace w) + 1)%nat)
        /\ forall (o2 : outcome parsed) (w2 : world),
             connected (self w1) = true ->
             _impala request columns true compress w1 = (o2, w2) ->
             count_sent (trace w2) = (count_sent (trace w1) + 1)%nat).
Proof.
  intros H. set (digest := md5_hexdigest request) in *. split.
  - intros v ->.
    destruct (cache_dir w !! digest) as [bytes|] eqn:Hb.
    + rewrite _impala_hit in H by (unfold digest in Hb; rewrite Hb; eauto).
      pose proof (_read_cache_Ret_world _ _ _ _ H) as ->.
      rewrite _impala_hit by (unfold digest in Hb; rewrite Hb; eauto).
      split; [exact H |]. rewrite bool_decide_true by eauto. lia.
    + rewrite _impala_miss in H by exact Hb.
      assert (Hc : exists wc, (if connected (self w) then (Ret tt, w) else _connect w)
                              = (Ret tt, wc)
                   /\ count_sent (trace wc) = count_sent (trace w)) .
      { destruct (connected (self w)); [eauto |].
        destruct (_connect w) as [[[]|e|] wc] eqn:E; try discriminate.
        exists wc. split; [reflexivity |]. exact (_connect_count_sent _ _ _ E). }
      destruct Hc as (wc & Hc & Hcount). rewrite Hc in H.
      destruct (recv_until_prompt _) as [[total|e|] w2] eqn:E; try discriminate.
      apply recv_until_prompt_spec in E as (got & (_ & _ & Htr & _) & _ & _).
      pose proof (_read_cache_Ret_world _ _ _ _ H) as ->.
      split.
      * rewrite _impala_hit; [exact H |].
        fold digest. rewrite written_world_lookup. eauto.
      * rewrite bool_decide_false by (intros [? ?]; discriminate).
        simpl trace. rewrite Htr. simpl trace.
        rewrite !count_sent_app, count_sent_recv, Hcount.
        unfold count_sent. simpl. lia.
  - intros msg ->.
    assert (Hgone : cache_dir w1 !! digest = None
                    /\ (cache_dir w !! digest = None ->
                        connected (self w1) = true
                        /\ count_sent (trace w1) = (count_sent (trace w) + 1)%nat)).
    { destruct (cache_dir w !! digest) as [bytes|] eqn:Hb.
      - rewrite _impala_hit in H by (unfold digest in Hb; rewrite Hb; eauto).
        apply _read_cache_ImpalaError in H as ->. simpl.
        split; [apply lookup_delete_eq | discriminate].
      - rewrite _impala_miss in H by exact Hb.
        destruct (if connected (self w) then (Ret tt, w) else _connect w)
          as [o1 wc] eqn:Ec.
        assert (Hc : o1 = Ret tt /\ connected (self wc) = true
                     /\ count_sent (trace wc) = count_sent (trace w)).
        { destruct (connected (self w)) eqn:Hconn.
          - injection Ec as [= <- <-]. auto.
          - destruct o1 as [[]|e|]; [| |discriminate].
            + split; [reflexivity |]. split; [|exact (_connect_count_sent _ _ _ Ec)].
              destruct (decide (username (self w) = Some EmptyString)) as [Hu|Hu];
                [|destruct (decide (password (self w) = Some EmptyString))
                    as [Hp|Hp]].
              * rewrite _connect_empty_credentials in Ec by auto. discriminate.
              * rewrite _connect_empty_credentials in Ec by auto. discriminate.
              * apply (_connect_other_credentials _ _ _ Hu Hp) in Ec
                  as (sock & got & _ & [? | [? | [_ ?]]]);
                  [discriminate.. | assumption].
            + injection H as [= -> ->]. now apply _connect_not_ImpalaError in Ec. }
        destruct Hc as (-> & Hconn & Hcount).
        destruct (recv_until_prompt _) as [o2 w2] eqn:E.
        apply recv_until_prompt_spec in E
          as (got & (_ & _ & Htr & _) & Hself & Ho2).
        simpl in Htr, Hself.
        destruct Ho2 as [-> | [-> _]]; [discriminate |].
        apply _read_cache_ImpalaError in H as ->. simpl.
        split; [apply lookup_delete_eq |]. intros _.
        split; [now rewrite Hself |].
        rewrite Htr, !count_sent_app, count_sent_recv, Hcount.
        unfold count_sent. simpl. lia. }
    destruct Hgone as [Hgone Hsent]. split; [exact Hgone |]. split; [exact Hsent |].
    intros o2 w2 Hconn H2.
    exact (miss_connected_sends _ _ _ _ _ _ _ Hgone Hconn H2).
Qed.

(** *** The order of the events of a run *)

Lemma received_fold_recv (chunks : list string) (total : string) :
  fold_left (fun total e =>
               match e with
               | EvSend _ => EmptyString
               | EvRecv b => total +:+ b
               | _ => total
               end) (map EvRecv chunks) total = total +:+ join chunks.
Proof.
  revert total. induction chunks as [|b chunks IH]; intros total; simpl.
  - now rewrite append_nil_r.
  - rewrite IH. now rewrite append_assoc.
Qed.

(** What was received after the command is the transcript. *)
Lemma received_since_send_command (before : list event) (data : string)
    (got : list string) :
  received_since_send (before ++ EvSend data :: map EvRecv got) = join got.
Proof.
  unfold received_since_send. rewrite fold_left_app. simpl.
  now rewrite received_fold_recv.
Qed.

(** The events of the files do not count as received text. *)
Lemma received_since_send_files (net files : list event) :
  forallb (fun e => negb (is_network e)) files = true ->
  received_since_send (net ++ files) = received_since_send net.
Proof.
  unfold received_since_send. rewrite fold_left_app.
  generalize (fold_left (fun total e =>
               match e with
               | EvSend _ => EmptyString
               | EvRecv b => total +:+ b
               | _ => total
               end) net EmptyString).
  induction files as [|e files IH]; intros total; simpl; [reflexivity |].
  intros [He Hf]%andb_true_iff. destruct e; try discriminate; now apply IH.
Qed.

(** Events of the network leave the disk as it is. *)
Lemma disk_after_network (net : list event) (d : gmap string string) (k : nat) :
  forallb is_network net = true -> disk_after d (take k net) = d.
Proof.
  revert d k. induction net as [|e net IH]; intros d k H.
  - now destruct k.
  - destruct k; [reflexivity |]. simpl in *.
    apply andb_true_iff in H as [He Hn].
    destruct e; try discriminate; now apply IH.
Qed.

Lemma disk_after_app (a b : list event) (d : gmap string string) :
  disk_after d (a ++ b) = disk_after (disk_after d a) b.
Proof. apply fold_left_app. Qed.

Lemma prefix_nil (s : string) : String.prefix EmptyString s = true.
Proof. now destruct s. Qed.

Lemma prefix_refl (s : string) : String.prefix s s = true.
Proof.
  induction s as [|c s IH]; simpl; [reflexivity |].
  now destruct (ascii_dec c c).
Qed.

(** The events of a run that finds no file for its request: events of the
    network and no more when the run stops before the transcript is there;
    otherwise the network, up to the last chunk of the transcript, then the
    opening and the closing of the file, then what the parser does to it.
    The files of the cache are what these events make of them. *)
Lemma _impala_miss_events (request : string) (columns : option string)
    (cached compress : bool) (w w' : world) (o : outcome parsed) :
  cache_dir w !! md5_hexdigest request = None ->
  _impala request columns cached compress w = (o, w') ->
  exists net : list event,
    forallb is_network net = true /\
    ((trace w' = trace w ++ net /\ cache_dir w' = cache_dir w)
     \/ exists post : list event,
          last_chars 10 (received_since_send net) = prompt
          /\ trace w' = trace w ++ net
               ++ [EvOpenW (md5_hexdigest request);
                   EvClose (md5_hexdigest request)
                     (stored_bytes columns (received_since_send net) compress)]
               ++ post
          /\ cache_dir w'
             = disk_after (cache_dir w)
                 ([EvOpenW (md5_hexdigest request);
                   EvClose (md5_hexdigest request)
                     (stored_bytes columns (received_since_send net) compress)]
                  ++ post)
          /\ (post = [] \/ post = [EvUnlink (md5_hexdigest request)]
              \/ post = [EvRename (md5_hexdigest request)])).
Proof.
  intros Hnone H. rewrite _impala_miss in H by exact Hnone.
  set (digest := md5_hexdigest request) in *.
  assert (Hc : exists o1 wc net1,
             (if connected (self w) then (Ret tt, w) else _connect w) = (o1, wc)
             /\ network_step w wc net1
             /\ (o1 = Hang \/ o1 = Ret tt \/ exists e, o1 = Raise e)).
  { destruct (connected (self w)).
    - exists (Ret tt), w, []. split; [reflexivity |].
      split; [apply network_step_refl | auto].
    - destruct (_connect w) as [o1 wc] eqn:E.
      apply _connect_network in E as (net1 & Hs & Ho). eauto 6. }
  destruct Hc as (o1 & wc & net1 & Hc & (Hcd1 & _ & Htr1 & Hn1) & Ho1).
  rewrite Hc in H.
  destruct Ho1 as [-> | [-> | [e ->]]];
    try (injection H as [= <- <-]; exists net1; split; [assumption | now left]).
  set (data := replace_newlines request +:+ ";" +:+ nl) in *.
  destruct (recv_until_prompt (sent_world data wc)) as [o2 w2] eqn:E.
  apply recv_until_prompt_spec in E as (got & (Hcd2 & _ & Htr2 & Hn2) & _ & Ho2).
  simpl trace in Htr2. rewrite Htr1, <- !app_assoc in Htr2. simpl in Htr2.
  simpl cache_dir in Hcd2. rewrite Hcd1 in Hcd2.
  set (net := net1 ++ EvSend data :: map EvRecv got) in *.
  assert (Hnet : forallb is_network net = true).
  { unfold net. rewrite forallb_app, Hn1. simpl. exact Hn2. }
  exists net. split; [exact Hnet |].
  destruct Ho2 as [-> | [-> Hprompt]].
  - injection H as [= <- <-]. now left.
  - right. assert (Hrecv : received_since_send net = join got)
      by apply received_since_send_command.
    rewrite Hrecv.
    apply _read_cache_world in H.
    destruct H as [-> | [[_ ->] | [_ [bytes ->]]]].
    + exists []. simpl. rewrite Htr2, Hcd2, <- !app_assoc. simpl. auto.
    + exists [EvUnlink digest]. simpl. rewrite Htr2, Hcd2, <- !app_assoc. simpl. auto 6.
    + exists [EvRename digest]. simpl. rewrite Htr2, Hcd2, <- !app_assoc. simpl. auto 6.
Qed.

(** The crash points of a run that finds no file for its request. *)
Lemma crash_points_of_a_miss (request : string) (columns : option string)
    (cached compress : bool) (w w' : world) (o : outcome parsed) :
  cache_dir w !! md5_hexdigest request = None ->
  _impala request columns cached compress w = (o, w') ->
  exists evs : list event,
    trace w' = trace w ++ evs /\
    cache_dir w' = disk_after (cache_dir w) evs /\
    (cache_dir w' !! md5_hexdigest request = None
     \/ cache_dir w' !! md5_hexdigest request
        = Some (stored_bytes columns (received_since_send evs) compress)) /\
    forall k : nat,
      let d := disk_after (cache_dir w) (take k evs) in
      d !! md5_hexdigest request = None
      \/ (existsb is_recv (drop k evs) = false
          /\ last_chars 10 (received_since_send evs) = prompt
          /\ exists bytes : string,
               d !! md5_hexdigest request = Some bytes
               /\ String.prefix bytes
                    (stored_bytes columns (received_since_send evs) compress) = true).
Proof.
  intros Hnone H.
  apply (_impala_miss_events _ _ _ _ _ _ _ Hnone) in H as (net & Hnet & H).
  set (digest := md5_hexdigest request) in *.
  destruct H as [[Htr Hcd] | (post & Hprompt & Htr & Hcd & Hpost)].
  - exists net. split; [exact Htr |]. split; [|split].
    + rewrite <- (take_ge net (length net)) at 1 by lia.
      now rewrite disk_after_network.
    + left. now rewrite Hcd.
    + intros k d. left. subst d. now rewrite disk_after_network.
  - set (total := received_since_send net) in *.
    set (files := [EvOpenW digest; EvClose digest (stored_bytes columns total compress)]
                    ++ post) in *.
    exists (net ++ files).
    assert (Hfiles : forallb (fun e => negb (is_network e)) files = true).
    { unfold files. destruct Hpost as [-> | [-> | ->]]; reflexivity. }
    assert (Hall : disk_after (cache_dir w) net = cache_dir w).
    { rewrite <- (take_ge net (length net)) at 1 by lia.
      now rewrite disk_after_network. }
    rewrite (received_since_send_files _ _ Hfiles). fold total.
    split; [exact Htr |]. split; [|split].
    + now rewrite disk_after_app, Hall.
    + rewrite Hcd. unfold files.
      destruct Hpost as [-> | [-> | ->]]; simpl.
      * right. apply lookup_insert_eq.
      * left. apply lookup_delete_eq.
      * left. apply lookup_delete_eq.
    + intros k d. subst d.
      rewrite take_app, disk_after_app, (disk_after_network _ _ _ Hnet).
      destruct (k - length net)%nat as [|j] eqn:Hk; [now left |].
      assert (Hdrop : drop k (net ++ files) = drop (S j) files).
      { rewrite drop_app, Hk, drop_ge by lia. reflexivity. }
      rewrite Hdrop.
      destruct j as [|[|j]].
      * right. split; [|split; [exact Hprompt |]].
        -- destruct Hpost as [-> | [-> | ->]]; reflexivity.
        -- exists EmptyString. split; [|apply prefix_nil].
           simpl. apply lookup_insert_eq.
      * right. split; [|split; [exact Hprompt |]].
        -- destruct Hpost as [-> | [-> | ->]]; reflexivity.
        -- exists (stored_bytes columns total compress).
           split; [|apply prefix_refl]. simpl. apply lookup_insert_eq.
      * destruct Hpost as [-> | [-> | ->]]; simpl; rewrite ?take_nil; simpl.
        -- right. split; [now destruct j |]. split; [exact Hprompt |].
           exists (stored_bytes columns total compress).
           split; [|apply prefix_refl]. apply lookup_insert_eq.
        -- left. apply lookup_delete_eq.
        -- left. apply lookup_delete_eq.
Qed.

(** [_impala] when the file is there and the cache is not to be used: the
    file is deleted, and the run goes on as one that finds no file. *)
Lemma _impala_refresh (request : string) (columns : option string) (compress : bool)
    (w : world) :
  is_Some (cache_dir w !! md5_hexdigest request) ->
  _impala request columns false compress w
  = _impala request columns false compress
      (emit [EvUnlink (md5_hexdigest request)]
         (with_cache_dir (delete (md5_hexdigest request)) w)).
Proof.
  intros Hsome.
  unfold _impala, path_exists, unlink, path_exists. run.
  repeat (rewrite (bool_decide_true _ Hsome); simpl).
  rewrite ?lookup_delete_eq.
  change (bool_decide (is_Some (@None string))) with false. simpl.
  rewrite ?lookup_delete_eq.
  change (bool_decide (is_Some (@None string))) with false. reflexivity.
Qed.

Lemma received_since_send_file_first (e : event) (evs : list event) :
  is_network e = false ->
  received_since_send (e :: evs) = received_since_send evs.
Proof. intros He. unfold received_since_send. now destruct e. Qed.

(** C1, as amended. [_impala] writes the cache file in place, once the
    transcript is there in full. The files at the end of a run are what its
    events make of them, and if the process stops after any number [k] of
    these events, the file of the request is as it was before the run, or
    there is none, or nothing is left to receive, the received transcript
    ends with the prompt, and the file holds a prefix of the header and the
    transcript: nothing of them right after the opening, all of them after
    the closing. *)
Theorem cache_file_written_after_reception (request : string) (columns : option string)
    (cached compress : bool) (w w' : world) (o : outcome parsed) :
  _impala request columns cached compress w = (o, w') ->
  exists evs : list event,
    trace w' = trace w ++ evs /\
    cache_dir w' = disk_after (cache_dir w) evs /\
    (cache_dir w' !! md5_hexdigest request = cache_dir w !! md5_hexdigest request
     \/ cache_dir w' !! md5_hexdigest request = None
     \/ cache_dir w' !! md5_hexdigest request
        = Some (stored_bytes columns (received_since_send evs) compress)) /\
    forall k : nat,
      let d := disk_after (cache_dir w) (take k evs) in
      d !! md5_hexdigest request = cache_dir w !! md5_hexdigest request
      \/ d !! md5_hexdigest request = None
      \/ (existsb is_recv (drop k evs) = false
          /\ last_chars 10 (received_since_send evs) = prompt
          /\ exists bytes : string,
               d !! md5_hexdigest request = Some bytes
               /\ String.prefix bytes
                    (stored_bytes columns (received_since_send evs) compress) = true).
Proof.
  intros H. set (digest := md5_hexdigest request) in *.
  destruct (cache_dir w !! digest) as [old|] eqn:Hold; [destruct cached|].
  - (* the file is there and is used *)
    rewrite _impala_hit in H by (fold digest; rewrite Hold; eauto).
    apply _read_cache_world in H. fold digest in H.
    destruct H as [-> | [[_ ->] | [_ [bytes ->]]]].
    + exists []. rewrite app_nil_r.
      split; [reflexivity |]. split; [reflexivity |]. split; [now left |].
      intros k d. left. subst d. now rewrite take_nil.
    + exists [EvUnlink digest].
      split; [reflexivity |]. split; [reflexivity |]. split.
      * right. left. apply lookup_delete_eq.
      * intros k d. subst d. destruct k; simpl; [now left |].
        right. left. rewrite take_nil. apply lookup_delete_eq.
    + exists [EvRename digest].
      split; [reflexivity |]. split; [reflexivity |]. split.
      * right. left. apply lookup_delete_eq.
      * intros k d. subst d. destruct k; simpl; [now left |].
        right. left. rewrite take_nil. apply lookup_delete_eq.
  - (* the file is there and is not to be used *)
    rewrite _impala_refresh in H by (fold digest; rewrite Hold; eauto).
    fold digest in H.
    apply crash_points_of_a_miss in H; [|simpl; apply lookup_delete_eq].
    destruct H as (evs & Htr & Hcd & Hend & Hk). fold digest in Hend, Hk.
    simpl trace in Htr. simpl cache_dir in Hcd, Hk.
    assert (Hrecv : received_since_send (EvUnlink digest :: evs)
                    = received_since_send evs)
      by now apply received_since_send_file_first.
    exists (EvUnlink digest :: evs). rewrite Hrecv.
    split; [now rewrite Htr, <- app_assoc |]. split; [exact Hcd |].
    split; [right; exact Hend |].
    intros k d. subst d. destruct k; [now left |]. right. exact (Hk k).
  - (* there is no file *)
    apply (crash_points_of_a_miss _ _ _ _ _ _ _ Hold) in H.
    destruct H as (evs & Htr & Hcd & Hend & Hk). fold digest in Hend, Hk.
    exists evs. split; [exact Htr |]. split; [exact Hcd |].
    split; [right; exact Hend |].
    intros k. right. exact (Hk k).
Qed.

(** ** The credentials *)

(** C7. When the user name or the password is not configured ([None]) and
    neither is the empty string, [__init__] warns that there are no
    credentials, and yet [_connect] does not raise its error: it calls
    [client.connect] with what it has, and ends as the transport decides. *)
Theorem connect_without_credentials_reaches_transport (cfg : config) (w w' : world)
    (o : outcome unit) :
  impala_username cfg = None \/ impala_password cfg = None ->
  impala_username cfg <> Some EmptyString ->
  impala_password cfg <> Some EmptyString ->
  self w = (__init__ cfg).1 ->
  _connect w = (o, w') ->
  (__init__ cfg).2 = ["No credentials provided"]
  /\ (forall msg : string, o <> Raise (RuntimeError msg))
  /\ exists (sock : option string) (rest : list event),
       trace w' = trace w
                  ++ EvConnect (impala_username cfg) (impala_password cfg) sock :: rest.
Proof.
  intros Hnone Hu Hp Hself H.
  assert (Hu' : username (self w) = impala_username cfg) by now rewrite Hself.
  assert (Hp' : password (self w) = impala_password cfg) by now rewrite Hself.
  apply _connect_other_credentials in H as (sock & got & (_ & _ & Htr & _) & Ho);
    [|now rewrite Hu' | now rewrite Hp'].
  split; [|split].
  - unfold __init__. simpl.
    destruct Hnone as [-> | ->]; simpl; [reflexivity |].
    now rewrite orb_true_r.
  - intros msg. destruct Ho as [-> | [-> | [-> _]]]; discriminate.
  - rewrite Hu', Hp' in Htr. eauto.
Qed.

End Cache.

(** ** The stop bound *)

Section DefaultStop.
Context {HL : Hashlib} {GZ : Gzip} {PD : Pandas} {TF : Tempfile} {RM : Remote}.
Context {timelike : Type} {TL : TimeLib timelike} {SF : StrFormat} {PC : PandasConcat}.
Context {filters : Type} {QM : QueryMethods filters}.

Lemma start_stop_ts_default (start : timelike) :
  start_stop_ts to_datetime start None
  = if (to_datetime start + 86400000000000 <=? 9223372036854775807)%Z
    then inr (to_datetime start, (to_datetime start + 86400000000000)%Z)
    else inl OutOfBoundsDatetime.
Proof.
  unfold start_stop_ts, timestamp_add.
  change timestamp_max with 9223372036854775807%Z.
  change one_day with 86400000000000%Z.
  now destruct (_ <=? _)%Z.
Qed.

Lemma rawdata_pieces_ext (start : timelike) (stop stop' : option timelike)
    (args : filters) (date_delta : Z) (cached : bool) (tables : list string) :
  (forall table compress w,
     rawdata_table table start stop args date_delta cached compress w
     = rawdata_table table start stop' args date_delta cached compress w) ->
  forall w,
    rawdata_pieces tables start stop args date_delta cached w
    = rawdata_pieces tables start stop' args date_delta cached w.
Proof.
  intros Hone. induction tables as [|table rest IH]; intros w; [reflexivity |].
  simpl. unfold mbind, M_bind. rewrite Hone.
  destruct (rawdata_table table start stop' args date_delta cached false w)
    as [[df|e|] w1]; [|reflexivity..].
  now rewrite IH.
Qed.

(** C9, as amended. When the start bound and one day (86 400 s, in
    nanoseconds) do not pass the last timestamp of pandas, a stop that is
    [None] gives the stop bound of the start bound plus one day, and
    [request], [flarm], [flightlist], [history] and [rawdata] run as they do
    when they are given that stop. When they pass it, no stop bound is
    computed: the methods raise [OutOfBoundsDatetime] and do nothing else
    ([rawdata] once the name of its table is accepted). *)
Theorem default_stop_is_start_plus_one_day (start : timelike) :
  ((to_datetime start + 86400000000000 <= 9223372036854775807)%Z ->
   start_stop_ts to_datetime start None
   = inr (to_datetime start, (to_datetime start + 86400000000000)%Z)
   /\ forall stop' : timelike,
        to_datetime stop' = (to_datetime start + 86400000000000)%Z ->
        (forall pattern columns date_delta cached compress w,
           request pattern start None columns date_delta cached compress w
           = request pattern start (Some stop') columns date_delta cached compress w)
        /\ (forall sensor_name cached compress limit other_params w,
              flarm start None sensor_name cached compress limit other_params w
              = flarm start (Some stop') sensor_name cached compress limit
                  other_params w)
        /\ (forall args cached compress w,
              flightlist start None args cached compress w
              = flightlist start (Some stop') args cached compress w)
        /\ (forall args date_delta cached compress w,
              history start None args date_delta cached compress w
              = history start (Some stop') args date_delta cached compress w)
        /\ (forall args date_delta table_name cached compress w,
              rawdata start None args date_delta table_name cached compress w
              = rawdata start (Some stop') args date_delta table_name cached
                  compress w))
  /\ ((9223372036854775807 < to_datetime start + 86400000000000)%Z ->
      start_stop_ts to_datetime start None = inl OutOfBoundsDatetime
      /\ (forall pattern columns date_delta cached compress w,
            request pattern start None columns date_delta cached compress w
            = (Raise OutOfBoundsDatetime, w))
      /\ (forall sensor_name cached compress limit other_params w,
            flarm start None sensor_name cached compress limit other_params w
            = (Raise OutOfBoundsDatetime, w))
      /\ (forall args cached compress w,
            flightlist start None args cached compress w
            = (Raise OutOfBoundsDatetime, w))
      /\ (forall args date_delta cached compress w,
            history start None args date_delta cached compress w
            = (Raise OutOfBoundsDatetime, w))
      /\ (forall args date_delta table cached compress w,
            table ∈ _raw_tables ->
            rawdata start None args date_delta (Some (inl table)) cached compress w
            = (Raise OutOfBoundsDatetime, w))
      /\ (forall args date_delta cached compress w,
            rawdata start None args date_delta None cached compress w
            = (Raise OutOfBoundsDatetime, w))).
Proof.
  split.
  - intros Hrange.
    assert (Hnone : start_stop_ts to_datetime start None
                    = inr (to_datetime start, (to_datetime start + 86400000000000)%Z)).
    { rewrite start_stop_ts_default.
      destruct (Z.leb_spec (to_datetime start + 86400000000000) 9223372036854775807);
        [reflexivity | lia]. }
    split; [exact Hnone |]. intros stop' Hstop.
    assert (Hsame : start_stop_ts to_datetime start None
                    = start_stop_ts to_datetime start (Some stop')).
    { rewrite Hnone. unfold start_stop_ts. now rewrite Hstop. }
    assert (Htable : forall table args date_delta cached compress w,
              rawdata_table table start None args date_delta cached compress w
              = rawdata_table table start (Some stop') args date_delta cached
                  compress w).
    { intros. unfold rawdata_table. now rewrite Hsame. }
    split; [intros; unfold request; now rewrite Hsame |].
    split; [intros; unfold flarm, request; now rewrite Hsame |].
    split; [intros; unfold flightlist; now rewrite Hsame |].
    split; [intros; unfold history; now rewrite Hsame |].
    intros args date_delta table_name cached compress w. unfold rawdata.
    destruct table_name as [[table|tables]|]; [apply Htable | |];
      unfold mbind, M_bind;
      rewrite (rawdata_pieces_ext start None (Some stop')) by (intros; apply Htable);
      reflexivity.
  - intros Hrange.
    assert (Hnone : start_stop_ts to_datetime start None = inl OutOfBoundsDatetime).
    { rewrite start_stop_ts_default.
      destruct (Z.leb_spec (to_datetime start + 86400000000000) 9223372036854775807);
        [lia | reflexivity]. }
    assert (Htable : forall table args date_delta cached compress w,
              table ∈ _raw_tables ->
              rawdata_table table start None args date_delta cached compress w
              = (Raise OutOfBoundsDatetime, w)).
    { intros table args date_delta cached compress w Hin. unfold rawdata_table.
      rewrite bool_decide_true by exact Hin. now rewrite Hnone. }
    split; [exact Hnone |].
    split; [intros; unfold request; now rewrite Hnone |].
    split; [intros; unfold flarm, request; now rewrite Hnone |].
    split; [intros; unfold flightlist; now rewrite Hnone |].
    split; [intros; unfold history; now rewrite Hnone |].
    split; [intros; unfold rawdata; now apply Htable |].
    intros args date_delta cached compress w. unfold rawdata, _raw_tables at 1.
    simpl rawdata_pieces. unfold mbind, M_bind.
    rewrite Htable; [reflexivity |]. unfold _raw_tables. left.
Qed.

End DefaultStop.

(** * Examples *)

Import Demo.

Lemma substring_all (s : string) : String.substring 0 (String.length s) s = s.
Proof. induction s as [|c s IH]; simpl; [reflexivity | now rewrite IH]. Qed.

(** The stored compression keeps the promises of gzip. *)
Lemma demo_gzip_laws : GzipLaws demo_gzip.
Proof.
  split; intros s; simpl.
  - unfold has_gzip_magic, gzip_magic_bytes. rewrite !append_cons, append_nil_l.
    simpl. now destruct s.
  - unfold has_gzip_magic, gzip_magic_bytes. rewrite !append_cons, append_nil_l.
    simpl. replace (String.length s - 0)%nat with (String.length s) by lia.
    rewrite substring_all. now destruct s.
Defined.




(** C1: a run on an empty cache, whose crash points the theorem covers. *)
Lemma cache_file_written_after_reception_witness :
  let w := cached_world ∅ in
  let r := @_impala demo_hashlib demo_gzip demo_pandas demo_tempfile
             (demo_remote [rows_transcript]) "q" (Some "icao24, callsign, alt")
             true false w in
  let stored evs := @stored_bytes demo_gzip (Some "icao24, callsign, alt")
                      (received_since_send evs) false in
  exists evs : list event,
    trace r.2 = trace w ++ evs /\
    cache_dir r.2 = disk_after (cache_dir w) evs /\
    (cache_dir r.2 !! @md5_hexdigest demo_hashlib "q"
       = cache_dir w !! @md5_hexdigest demo_hashlib "q"
     \/ cache_dir r.2 !! @md5_hexdigest demo_hashlib "q" = None
     \/ cache_dir r.2 !! @md5_hexdigest demo_hashlib "q" = Some (stored evs)) /\
    forall k : nat,
      let d := disk_after (cache_dir w) (take k evs) in
      d !! @md5_hexdigest demo_hashlib "q" = cache_dir w !! @md5_hexdigest demo_hashlib "q"
      \/ d !! @md5_hexdigest demo_hashlib "q" = None
      \/ (existsb is_recv (drop k evs) = false
          /\ last_chars 10 (received_since_send evs) = prompt
          /\ exists bytes : string,
               d !! @md5_hexdigest demo_hashlib "q" = Some bytes
               /\ String.prefix bytes (stored evs) = true).
Proof.
  intros w r stored.
  apply (@cache_file_written_after_reception demo_hashlib demo_gzip demo_pandas
           demo_tempfile (demo_remote [rows_transcript]) "q"
           (Some "icao24, callsign, alt") true false w r.2 r.1).
  apply surjective_pairing.
Defined.

(** C1: the file is visible, and empty, if the process stops right after it
    has opened it (after six events: the connection, two chunks of
    greeting, the command, the transcript, the opening). *)
Lemma crash_after_open_leaves_empty_file :
  let w := cached_world ∅ in
  let r := @_impala demo_hashlib demo_gzip demo_pandas demo_tempfile
             (demo_remote [rows_transcript]) "q" (Some "icao24, callsign, alt")
             true false w in
  disk_after (cache_dir w) (take 6 (trace r.2)) !! "d41dq" = Some EmptyString
  /\ cache_dir r.2 !! "d41dq"
     = Some (line ["icao24"; "callsign"; "alt"] +:+ rows_transcript)
  /\ EmptyString <> line ["icao24"; "callsign"; "alt"] +:+ rows_transcript.
Proof. vm_compute. repeat split; discriminate. Qed.

(** C2: the file of ten lines with a bad row at line 5. The reader names
    line 9 of its buffer, the file is moved and a [TypeError] leaves. *)
Lemma parser_error_is_not_reported_witness :
  let w := cached_world {[ "k" := ten_lines_file ]} in
  let s := (scan_lines (readlines ten_lines_file) EmptyString 0).1.1 in
  @open_cache_file demo_gzip "k" w = (Ret ten_lines_file, w)
  /\ scan_lines (readlines ten_lines_file) EmptyString 0 = (s, 9%nat, true)
  /\ (0 < 9)%nat
  /\ @read_csv demo_pandas s [("icao24", py_str); ("callsign", py_str)]
     = CsvParserError
         ("Error tokenizing data. C error: Expected 2 fields in line 9, saw 3" +:+ nl)
  /\ exists (o : outcome parsed) (w' : world),
       @_read_cache demo_gzip demo_pandas demo_tempfile "k" w = (o, w') /\
       (forall msg : string, o <> Raise (ImpalaError msg)) /\
       ((o = Raise TypeError /\ cache_dir w' !! "k" = None
         /\ tmp_dir w' !! "k" = cache_dir w !! "k")
        \/ (o = Raise IndexError /\ w' = w)).
Proof.
  intros w s.
  assert (H1 : @open_cache_file demo_gzip "k" w = (Ret ten_lines_file, w))
    by (vm_compute; reflexivity).
  assert (H2 : scan_lines (readlines ten_lines_file) EmptyString 0 = (s, 9%nat, true))
    by (vm_compute; reflexivity).
  assert (H3 : (0 < 9)%nat) by lia.
  assert (H4 : @read_csv demo_pandas s [("icao24", py_str); ("callsign", py_str)]
               = CsvParserError
                   ("Error tokenizing data. C error: Expected 2 fields in line 9, saw 3"
                    +:+ nl))
    by (vm_compute; reflexivity).
  repeat (split; [assumption |]).
  exact (@parser_error_is_not_reported demo_gzip demo_pandas demo_tempfile
           "k" ten_lines_file s _ 9%nat w H1 H2 H3 H4).
Defined.

(** C2: the line number that the handler reads in a message of the reader
    is its last digit. *)
Example line_number_keeps_last_digit :
  finditer_line_nb "Error tokenizing data. C error: Expected 2 fields in line 15, saw 3"
  = [5%nat].
Proof. reflexivity. Qed.

(** C2: what the parser does on that file. *)
Example ten_lines_file_raises_TypeError :
  let w := cached_world {[ "k" := ten_lines_file ]} in
  @_read_cache demo_gzip demo_pandas demo_tempfile "k" w
  = (Raise TypeError,
     emit [EvRename "k"]
       (with_tmp_dir (insert "k" ten_lines_file) (with_cache_dir (delete "k") w))).
Proof. vm_compute. reflexivity. Qed.

(** C3: the banner and the prompt. *)
Lemma error_banner_deletes_entry_witness :
  let w := cached_world {[ "k" := disk_full_transcript ]} in
  let w' := emit [EvUnlink "k"] (with_cache_dir (delete "k") w) in
  @open_cache_file demo_gzip "k" w = (Ret disk_full_transcript, w)
  /\ @no_data_rows demo_pandas disk_full_transcript
  /\ existsb (startswith ERROR_marker) (readlines disk_full_transcript) = true
  /\ @_read_cache demo_gzip demo_pandas demo_tempfile "k" w
     = (Raise (ImpalaError (join (removelast (readlines disk_full_transcript)))), w')
  /\ cache_dir w' !! "k" = None
  /\ forall last : string,
       disk_full_transcript = "ERROR: disk full" +:+ nl +:+ last ->
       last <> EmptyString -> contains LF last = false ->
       join (removelast (readlines disk_full_transcript)) = "ERROR: disk full" +:+ nl.
Proof.
  intros w w'.
  assert (H1 : @open_cache_file demo_gzip "k" w = (Ret disk_full_transcript, w))
    by (vm_compute; reflexivity).
  assert (H2 : @no_data_rows demo_pandas disk_full_transcript)
    by (exists EmptyString, 0%nat; split; [vm_compute; reflexivity | now left]).
  assert (H3 : existsb (startswith ERROR_marker) (readlines disk_full_transcript) = true)
    by (vm_compute; reflexivity).
  repeat (split; [assumption |]).
  exact (@error_banner_deletes_entry demo_gzip demo_pandas demo_tempfile
           "k" disk_full_transcript w H1 H2 H3).
Defined.

(** C3: the message is the line with its line end, not the line alone; for
    a file that is that line alone (the last line), the message is empty. *)
Lemma disk_full_message_keeps_line_end :
  let w := cached_world {[ "k" := disk_full_transcript ]} in
  let w1 := cached_world {[ "k" := "ERROR: disk full" ]} in
  (@_read_cache demo_gzip demo_pandas demo_tempfile "k" w).1
    = Raise (ImpalaError ("ERROR: disk full" +:+ nl))
  /\ (@_read_cache demo_gzip demo_pandas demo_tempfile "k" w).1
     <> Raise (ImpalaError "ERROR: disk full")
  /\ (@_read_cache demo_gzip demo_pandas demo_tempfile "k" w1).1
     = Raise (ImpalaError EmptyString).
Proof. vm_compute. repeat split; discriminate. Qed.

(** C4: two runs of a request whose first run returns a table, and two
    runs of one that the shell answers with an error banner. *)
Lemma second_run_is_served_from_cache_witness :
  let w := cached_world ∅ in
  let run answer request columns :=
    @_impala demo_hashlib demo_gzip demo_pandas demo_tempfile
      (demo_remote [answer]) request columns true false in
  let r := run rows_transcript "q" (Some "icao24, callsign, alt") w in
  let df := mkDataFrame ["icao24"; "callsign"; "alt"]
              [[CStr "a1b2c3"; CStr "AFR123"; CInt 1000];
               [CStr "1234e5"; CStr "1234"; CFloat 2 3]] in
  let f := run disk_full_transcript "q" None w in
  let f2 := run disk_full_transcript "q" None f.2 in
  (r = (Ret (Table df), r.2)
   /\ run rows_transcript "q" (Some "icao24, callsign, alt") r.2 = (Ret (Table df), r.2)
   /\ count_sent (trace r.2)
      = (count_sent (trace w)
         + if bool_decide (is_Some (cache_dir w !! @md5_hexdigest demo_hashlib "q"))
           then 0 else 1)%nat)
  /\ (f = (Raise (ImpalaError ("ERROR: disk full" +:+ nl)), f.2)
      /\ cache_dir w !! @md5_hexdigest demo_hashlib "q" = None
      /\ cache_dir f.2 !! @md5_hexdigest demo_hashlib "q" = None
      /\ connected (self f.2) = true
      /\ count_sent (trace f.2) = (count_sent (trace w) + 1)%nat
      /\ count_sent (trace f2.2) = (count_sent (trace f.2) + 1)%nat).
Proof.
  intros w run r df f f2. split.
  - assert (H : r = (Ret (Table df), r.2)) by (vm_compute; reflexivity).
    split; [exact H |].
    destruct (@second_run_is_served_from_cache demo_hashlib demo_gzip demo_pandas
                demo_tempfile (demo_remote [rows_transcript]) "q"
                (Some "icao24, callsign, alt") false w r.2 (Ret (Table df)) H)
      as [Hret _].
    exact (Hret (Table df) eq_refl).
  - assert (H : f = (Raise (ImpalaError ("ERROR: disk full" +:+ nl)), f.2))
      by (vm_compute; reflexivity).
    assert (Hnone : cache_dir w !! @md5_hexdigest demo_hashlib "q" = None)
      by (vm_compute; reflexivity).
    split; [exact H |]. split; [exact Hnone |].
    destruct (@second_run_is_served_from_cache demo_hashlib demo_gzip demo_pandas
                demo_tempfile (demo_remote [disk_full_transcript]) "q" None false
                w f.2 (Raise (ImpalaError ("ERROR: disk full" +:+ nl))) H)
      as [_ Hraise].
    destruct (Hraise _ eq_refl) as (Hgone & Hsent & Hagain).
    destruct (Hsent Hnone) as [Hconn Hcount].
    split; [exact Hgone |]. split; [exact Hconn |]. split; [exact Hcount |].
    exact (Hagain f2.1 f2.2 Hconn (surjective_pairing f2)).
Defined.

(** C4: a request that the shell answers with an error banner is sent
    again by the second run, since the first one deleted the file. *)
Lemma failed_request_is_sent_twice :
  let w := cached_world ∅ in
  let run := @_impala demo_hashlib demo_gzip demo_pandas demo_tempfile
               (demo_remote [disk_full_transcript]) "q" None true false in
  let r1 := run w in
  let r2 := run r1.2 in
  cache_dir w !! "d41dq" = None
  /\ r1.1 = Raise (ImpalaError ("ERROR: disk full" +:+ nl))
  /\ r2.1 = Raise (ImpalaError ("ERROR: disk full" +:+ nl))
  /\ count_sent (trace r1.2) = 1%nat
  /\ count_sent (trace r2.2) = 2%nat.
Proof. vm_compute. repeat split. Qed.

(** C5: a plain file, read back. *)
Lemma write_then_read_witness :
  let columns := Some "icao24, callsign" in
  let total := rows_transcript in
  let w := cached_world ∅ in
  let w1 := (@write_cache demo_gzip "k" columns total false w).2 in
  (false = false -> has_gzip_magic (header_line columns +:+ total) = false)
  /\ @open_cache_file demo_gzip "k" w1
     = (Ret (universal_newlines (header_line columns +:+ total)), w1)
  /\ (contains CR (header_line columns +:+ total) = false ->
      @open_cache_file demo_gzip "k" w1 = (Ret (header_line columns +:+ total), w1))
  /\ (forall (name' bytes : string) (w' : world),
        cache_dir w' !! name' = Some bytes ->
        @open_cache_file demo_gzip name' w' = (@text_of_bytes demo_gzip bytes, w')).
Proof.
  intros columns total w w1.
  assert (H : false = false -> has_gzip_magic (header_line columns +:+ total) = false)
    by (intros _; vm_compute; reflexivity).
  split; [exact H |].
  exact (@write_then_read demo_gzip demo_gzip_laws "k" columns total false w H).
Defined.

(** C5: with columns, what is read back starts with the header line and is
    not the transcript, compressed or not; and a transcript with a carriage
    return is read back with a line feed in its place. *)
Lemma read_back_is_not_the_transcript :
  let w := cached_world ∅ in
  let read columns total compress :=
    (@open_cache_file demo_gzip "k"
       (@write_cache demo_gzip "k" columns total compress w).2).1 in
  read (Some "icao24, callsign") "x" false = Ret ("icao24" +:+ tab +:+ "callsign" +:+ nl +:+ "x")
  /\ read (Some "icao24, callsign") "x" true = Ret ("icao24" +:+ tab +:+ "callsign" +:+ nl +:+ "x")
  /\ read (Some "icao24, callsign") "x" false <> Ret "x"
  /\ read (Some "icao24, callsign") "x" true <> Ret "x"
  /\ read None (String "a" (String CR (String LF "b"))) false = Ret (String "a" (String LF "b")).
Proof. vm_compute. repeat split; discriminate. Qed.

(** C6: the answer to a [describe], written to the cache without columns
    and parsed. *)
Lemma box_line_with_comma_gives_raw_text_witness :
  let w0 := cached_world ∅ in
  let w := (@write_cache demo_gzip "k" None describe_transcript false w0).2 in
  @open_cache_file demo_gzip "k" w = (Ret describe_transcript, w)
  /\ existsb box_with_comma (readlines describe_transcript) = true
  /\ @_read_cache demo_gzip demo_pandas demo_tempfile "k" w
     = (Ret (RawText describe_transcript), w)
  /\ GzipLaws demo_gzip
  /\ (false = false ->
      has_gzip_magic (header_line None +:+ describe_transcript) = false)
  /\ describe_transcript = universal_newlines (header_line None +:+ describe_transcript)
  /\ contains CR describe_transcript = false.
Proof.
  intros w0 w.
  assert (H1 : @open_cache_file demo_gzip "k" w = (Ret describe_transcript, w))
    by (vm_compute; reflexivity).
  assert (H2 : existsb box_with_comma (readlines describe_transcript) = true)
    by (vm_compute; reflexivity).
  assert (H3 : false = false ->
               has_gzip_magic (header_line None +:+ describe_transcript) = false)
    by (intros _; vm_compute; reflexivity).
  assert (H4 : contains CR describe_transcript = false) by (vm_compute; reflexivity).
  destruct (@box_line_with_comma_gives_raw_text demo_gzip demo_pandas demo_tempfile
              "k" describe_transcript w H1 H2) as [Hraw Hfile].
  destruct (Hfile w0 None describe_transcript false demo_gzip_laws eq_refl H3)
    as [Htext Hsame].
  pose proof (Hsame eq_refl H4) as _.
  repeat (split; [assumption || exact demo_gzip_laws |]). exact H4.
Defined.

(** C6: with columns, the raw text starts with the header line and is not
    the transcript; and a transcript with carriage returns comes back with
    line feeds only. *)
Lemma raw_text_is_not_the_transcript :
  let w := cached_world ∅ in
  let run columns answer :=
    (@_impala demo_hashlib demo_gzip demo_pandas demo_tempfile
       (demo_remote [answer]) "describe t" columns true false w).1 in
  let received := "| sensors | array<int,double> |" +:+ String CR nl +:+ prompt_line in
  run (Some "name, type") describe_transcript
  = Ret (RawText ("name" +:+ tab +:+ "type" +:+ nl +:+ describe_transcript))
  /\ run (Some "name, type") describe_transcript <> Ret (RawText describe_transcript)
  /\ run None received
     = Ret (RawText ("| sensors | array<int,double> |" +:+ nl +:+ prompt_line))
  /\ run None received <> Ret (RawText received).
Proof. vm_compute. repeat split; discriminate. Qed.

(** C7: no credentials at all, and a transport that refuses them. *)
Lemma connect_without_credentials_reaches_transport_witness :
  let cfg := mkConfig None None None in
  let w := mkWorld (__init__ cfg).1 ∅ ∅ [] [] in
  let r := @_connect (demo_remote []) w in
  (impala_username cfg = None \/ impala_password cfg = None)
  /\ impala_username cfg <> Some EmptyString
  /\ impala_password cfg <> Some EmptyString
  /\ self w = (__init__ cfg).1
  /\ (__init__ cfg).2 = ["No credentials provided"]
  /\ (forall msg : string, r.1 <> Raise (RuntimeError msg))
  /\ exists (sock : option string) (rest : list event),
       trace r.2 = trace w
                   ++ EvConnect (impala_username cfg) (impala_password cfg) sock :: rest.
Proof.
  intros cfg w r.
  assert (H1 : impala_username cfg = None \/ impala_password cfg = None)
    by (left; reflexivity).
  assert (H2 : impala_username cfg <> Some EmptyString) by discriminate.
  assert (H3 : impala_password cfg <> Some EmptyString) by discriminate.
  repeat (split; [assumption || reflexivity |]).
  apply (@connect_without_credentials_reaches_transport (demo_remote []) cfg w r.2 r.1
           H1 H2 H3); [reflexivity | apply surjective_pairing].
Defined.

(** C7: the same call, run. *)
Example connect_without_credentials_run :
  @_connect (demo_remote []) (mkWorld (__init__ (mkConfig None None None)).1 ∅ ∅ [] [])
  = (Raise SSHException,
     mkWorld (__init__ (mkConfig None None None)).1 ∅ ∅ [] [EvConnect None None None]).
Proof. reflexivity. Qed.


(** C8: without the [dtype], the small reader takes the same identifier
    for a float. *)
Example sniffed_identifier_is_a_number :
  @read_csv demo_pandas ("icao24,alt" +:+ nl +:+ "1234e5,1000" +:+ nl)
    [("icao24", py_str); ("callsign", py_str)]
  = CsvFrame (mkDataFrame ["icao24"; "alt"] [[CStr "1234e5"; CInt 1000]])
  /\ @read_csv demo_pandas ("icao24,alt" +:+ nl +:+ "1234e5,1000" +:+ nl) []
  = CsvFrame (mkDataFrame ["icao24"; "alt"] [[CFloat 1234 5; CInt 1000]]).
Proof. vm_compute. split; reflexivity. Qed.

(** C9: a start at the epoch, which has a day after it, and a start on the
    last nanosecond, which has none. *)
Lemma default_stop_is_start_plus_one_day_witness :
  let history_of (start : Z) (stop : option Z) :=
    @history demo_hashlib demo_gzip demo_pandas demo_tempfile
      (Demo2.scripted_remote []) Z Demo2.demo_timelib unit Demo2.demo_methods
      start stop tt one_hour true false in
  ((0 + 86400000000000 <= 9223372036854775807)%Z
   /\ start_stop_ts (@to_datetime Z Demo2.demo_timelib) 0%Z None
      = inr (0%Z, 86400000000000%Z)
   /\ forall w, history_of 0%Z None w = history_of 0%Z (Some 86400000000000%Z) w)
  /\ ((9223372036854775807 < 9223372036854775807 + 86400000000000)%Z
      /\ forall w,
           history_of 9223372036854775807%Z None w = (Raise OutOfBoundsDatetime, w)).
Proof.
  intros history_of.
  assert (H1 : (0 + 86400000000000 <= 9223372036854775807)%Z) by lia.
  assert (H2 : (9223372036854775807 < 9223372036854775807 + 86400000000000)%Z) by lia.
  split.
  - split; [exact H1 |].
    destruct (@default_stop_is_start_plus_one_day demo_hashlib demo_gzip demo_pandas
                demo_tempfile (Demo2.scripted_remote []) Z Demo2.demo_timelib
                Demo2.demo_format Demo2.demo_concat unit Demo2.demo_methods 0%Z)
      as [[Hbound Hsame] _]; [exact H1 |].
    split; [exact Hbound |]. intros w.
    destruct (Hsame 86400000000000%Z eq_refl) as (_ & _ & _ & Hhistory & _).
    apply Hhistory.
  - split; [exact H2 |].
    destruct (@default_stop_is_start_plus_one_day demo_hashlib demo_gzip demo_pandas
                demo_tempfile (Demo2.scripted_remote []) Z Demo2.demo_timelib
                Demo2.demo_format Demo2.demo_concat unit Demo2.demo_methods
                9223372036854775807%Z)
      as [_ Hraise].
    destruct (Hraise H2) as (_ & _ & _ & _ & Hhistory & _).
    intros w. apply Hhistory.
Defined.

(** C9: on the last day that pandas can hold, a stop that is [None] gives
    no stop bound: [request] and [flightlist] raise, and send nothing. *)
Lemma last_day_has_no_default_stop :
  let start := (9223372036854775807 - 3600000000000)%Z in
  let w := cached_world ∅ in
  start_stop_ts (@to_datetime Z Demo2.demo_timelib) start None
  = inl OutOfBoundsDatetime
  /\ (forall stop_ts : Z,
        start_stop_ts (@to_datetime Z Demo2.demo_timelib) start None
        <> inr (start, stop_ts))
  /\ @request demo_hashlib demo_gzip demo_pandas demo_tempfile
       (Demo2.scripted_remote [Demo2.answer ["a1b2c3"; "AFR123"]])
       Z Demo2.demo_timelib Demo2.demo_format Demo2.demo_concat
       "select x" start None ["icao24"; "callsign"] one_hour true false w
     = (Raise OutOfBoundsDatetime, w)
  /\ @flightlist demo_hashlib demo_gzip demo_pandas demo_tempfile
       (Demo2.scripted_remote [Demo2.answer ["a1b2c3"; "AFR123"]])
       Z Demo2.demo_timelib unit Demo2.demo_methods start None tt true false w
     = (Raise OutOfBoundsDatetime, w).
Proof. vm_compute. repeat split; discriminate. Qed.

(** C10: the answer to a [describe], fetched with columns and parsed. *)
Lemma raw_text_leaves_cache_entry_witness :
  let w0 := cached_world ∅ in
  let w := (@write_cache demo_gzip "k" (Some "name, type") describe_transcript false w0).2 in
  let text := "name" +:+ tab +:+ "type" +:+ nl +:+ describe_transcript in
  @_read_cache demo_gzip demo_pandas demo_tempfile "k" w = (Ret (RawText text), w)
  /\ w = w /\ @open_cache_file demo_gzip "k" w = (Ret text, w)
  /\ forall (w0 : world) (columns : option string) (total : string) (compress : bool),
       w = (@write_cache demo_gzip "k" columns total compress w0).2 ->
       (compress = false -> has_gzip_magic (header_line columns +:+ total) = false) ->
       text = universal_newlines (header_line columns +:+ total).
Proof.
  intros w0 w text.
  assert (H : @_read_cache demo_gzip demo_pandas demo_tempfile "k" w
              = (Ret (RawText text), w)) by (vm_compute; reflexivity).
  split; [exact H |].
  exact (@raw_text_leaves_cache_entry demo_gzip demo_pandas demo_tempfile
           demo_gzip_laws "k" text w w H).
Defined.

(** * Further properties *)

(** ** The receiving loop *)

Lemma ends_with_prompt_cond (total : string) :
  (String.length total =? 0)%nat || negb (String.eqb (last_chars 10 total) prompt)
  = negb (ends_with_prompt total).
Proof. unfold ends_with_prompt. now rewrite negb_involutive. Qed.

Lemma recv_loop_shape (chunks got remaining : list string) (total0 : string)
    (o : outcome string) :
  recv_loop total0 chunks = (o, got, remaining) ->
  chunks = got ++ remaining
  /\ (forall n : nat, (0 < n < length got)%nat ->
        ends_with_prompt (total0 +:+ join (take n got)) = false)
  /\ match o with
     | Ret total =>
         total = total0 +:+ join got /\ ends_with_prompt total = true /\ got <> []
     | Hang =>
         remaining = []
         /\ (got <> [] -> ends_with_prompt (total0 +:+ join got) = false)
     | Raise _ => False
     end.
Proof.
  revert total0 got. induction chunks as [|b rest IH]; intros total0 got; simpl.
  - intros [= <- <- <-]. split; [reflexivity |]. split; [simpl; lia | now split].
  - rewrite ends_with_prompt_cond.
    destruct (ends_with_prompt (total0 +:+ b)) eqn:Hend; simpl.
    + intros [= <- <- <-]. split; [reflexivity |]. split; [simpl; lia |].
      simpl. rewrite append_nil_r. auto.
    + destruct (recv_loop (total0 +:+ b) rest) as [[o1 g] r] eqn:E.
      intros [= <- <- <-]. apply IH in E as (-> & Hbefore & Ho).
      split; [reflexivity |]. split.
      * intros [|n] Hn; [lia |]. simpl in Hn. simpl.
        destruct n as [|n].
        -- rewrite take_0. simpl. now rewrite append_nil_r.
        -- rewrite <- append_assoc. apply Hbefore. lia.
      * destruct o1 as [total|e|]; [| exact Ho |].
        -- destruct Ho as (-> & Ht & _). simpl. rewrite <- append_assoc.
           repeat split; [assumption | discriminate].
        -- destruct Ho as [-> Hg]. split; [reflexivity |]. intros _. simpl.
           destruct g as [|c g].
           ++ simpl. now rewrite append_nil_r.
           ++ rewrite <- append_assoc. now apply Hg.
Qed.

(** X1. The receiving loop stops at the first chunk after which the text
    received ends with the prompt: it returns the chunks up to that one put
    together, leaves the others on the channel, and no shorter run of
    chunks ended with the prompt. *)
Theorem reception_stops_at_first_prompt (chunks got remaining : list string)
    (total : string) :
  recv_loop EmptyString chunks = (Ret total, got, remaining) ->
  chunks = got ++ remaining
  /\ total = join got
  /\ ends_with_prompt total = true
  /\ forall n : nat, (0 < n < length got)%nat ->
       ends_with_prompt (join (take n got)) = false.
Proof.
  intros H. apply recv_loop_shape in H as (Hc & Hbefore & Ht & Hend & _).
  rewrite append_nil_l in Ht. repeat split; assumption.
Qed.

(** X2. On a channel whose chunks decode, each on its own, the receiving
    loop never returns, having received every chunk, exactly when no run of
    chunks from the first one ends with the prompt (there is no timeout). A
    chunk that does not decode makes [b.decode()] raise, which the loop of
    the model does not do: the chunks of the model are decoded text. *)
Theorem reception_hangs_iff_no_prompt (chunks : list string) :
  Forall (fun b => decodes b = true) chunks ->
  recv_loop EmptyString chunks = (Hang, chunks, [])
  <-> forall n : nat, (0 < n <= length chunks)%nat ->
        ends_with_prompt (join (take n chunks)) = false.
Proof.
  intros _. split.
  - intros H n Hn. apply recv_loop_shape in H as (_ & Hbefore & _ & Hall).
    destruct (decide (n = length chunks)) as [-> | Hne].
    + rewrite take_ge by lia. rewrite <- (append_nil_l (join chunks)).
      apply Hall. destruct chunks; [simpl in Hn; lia | discriminate].
    + specialize (Hbefore n). rewrite append_nil_l in Hbefore. apply Hbefore. lia.
  - intros Hno.
    destruct (recv_loop EmptyString chunks) as [[o got] remaining] eqn:E.
    pose proof (recv_loop_shape _ _ _ _ _ E) as (Hc & _ & Ho).
    destruct o as [total|e|]; [| contradiction |].
    + destruct Ho as (Ht & Hend & Hgot). rewrite append_nil_l in Ht. subst total.
      assert (Hn : (0 < length got <= length chunks)%nat).
      { rewrite Hc, length_app. destruct got; [contradiction | simpl; lia]. }
      specialize (Hno _ Hn). rewrite Hc, take_app_length in Hno. congruence.
    + destruct Ho as [-> _]. rewrite app_nil_r in Hc. now subst got.
Qed.

(** ** The parser, further *)

Lemma drop_duplicate_rows_elem (rows seen : list (list cell)) (r : list cell) :
  r ∈ drop_duplicate_rows seen rows <-> r ∈ rows /\ r ∉ seen.
Proof.
  revert seen. induction rows as [|x rows IH]; intros seen; simpl.
  - split; [intros Hr; now apply elem_of_nil in Hr | intros [Hr _]; exact Hr].
  - case_bool_decide as Hx.
    + rewrite IH, elem_of_cons. split; [tauto |].
      intros [[-> | Hr] Hs]; [contradiction | tauto].
    + rewrite !elem_of_cons, IH, elem_of_cons. split.
      * intros [-> | [Hr Hs]]; [tauto |]. tauto.
      * intros [[-> | Hr] Hs]; [tauto |].
        destruct (decide (r = x)) as [-> | Hne]; [tauto |]. right. tauto.
Qed.

Lemma drop_duplicate_rows_NoDup (rows seen : list (list cell)) :
  NoDup (drop_duplicate_rows seen rows).
Proof.
  revert seen. induction rows as [|x rows IH]; intros seen; simpl.
  - constructor.
  - case_bool_decide as Hx; [apply IH |].
    constructor; [|apply IH].
    rewrite drop_duplicate_rows_elem, elem_of_cons. tauto.
Qed.

Lemma drop_duplicate_rows_sublist (rows seen : list (list cell)) :
  sublist (drop_duplicate_rows seen rows) rows.
Proof.
  revert seen. induction rows as [|x rows IH]; intros seen; simpl.
  - constructor.
  - case_bool_decide; [apply sublist_cons | apply sublist_skip]; apply IH.
Qed.

(** [drop_duplicates] keeps the first of the rows that are equal. *)
Lemma drop_duplicate_rows_from (rows seen before : list (list cell)) :
  (forall r, r ∈ seen <-> r ∈ before) ->
  drop_duplicate_rows seen rows
  = omap (fun '(i, r) =>
            if bool_decide (r ∈ take i (before ++ rows)) then None else Some r)
         (imap (fun i r => ((length before + i)%nat, r)) rows).
Proof.
  revert seen before. induction rows as [|x rows IH]; intros seen before Hseen;
    [reflexivity |].
  rewrite imap_cons. simpl omap. simpl drop_duplicate_rows.
  rewrite Nat.add_0_r, take_app_length.
  rewrite (bool_decide_ext (x ∈ seen) (x ∈ before)) by apply Hseen.
  assert (Hrest : forall seen',
            (forall r, r ∈ seen' <-> r ∈ before ++ [x]) ->
            drop_duplicate_rows seen' rows
            = omap (fun '(i, r) =>
                      if bool_decide (r ∈ take i (before ++ x :: rows))
                      then None else Some r)
                   (imap ((fun i r => ((length before + i)%nat, r)) ∘ S) rows)).
  { intros seen' Hseen'. rewrite (IH seen' (before ++ [x]) Hseen').
    rewrite <- app_assoc. simpl. f_equal. apply imap_ext. intros i r _. simpl.
    rewrite length_app. simpl. f_equal. lia. }
  case_bool_decide as Hx.
  - apply Hrest. intros r. rewrite elem_of_app, list_elem_of_singleton, Hseen.
    split; [tauto |]. intros [?| ->]; assumption.
  - f_equal. apply Hrest. intros r.
    rewrite elem_of_cons, elem_of_app, list_elem_of_singleton, Hseen. tauto.
Qed.

Lemma drop_duplicate_rows_first (rows : list (list cell)) :
  drop_duplicate_rows [] rows = first_occurrences rows.
Proof. now rewrite (drop_duplicate_rows_from rows [] []). Qed.

Section Further.
Context {HL : Hashlib} {GZ : Gzip} {PD : Pandas} {TF : Tempfile} {RM : Remote}.

(** The parser on a file whose loop over the lines ends with no row to
    return, and which has no error banner. *)
Lemma _read_cache_no_rows (name bytes fh s : string) (count : nat) (w : world) :
  cache_dir w !! name = Some bytes ->
  text_of_bytes bytes = Ret fh ->
  scan_lines (readlines fh) EmptyString 0 = (s, count, true) ->
  (count = 0%nat
   \/ exists df : DataFrame,
        read_csv s [("icao24", py_str); ("callsign", py_str)] = CsvFrame df
        /\ df_rows df = []) ->
  existsb (startswith ERROR_marker) (readlines fh) = false ->
  _read_cache name w = (Ret Empty, w).
Proof.
  intros Hb Ht Hscan Hrows Herr.
  rewrite _read_cache_spec, Hb, Ht, Hscan. simpl.
  destruct Hrows as [-> | (df & -> & Hdf)]; simpl.
  - now rewrite check_error_banner_spec, Hb, Ht, Herr.
  - destruct (0 <? count)%nat; rewrite ?Hdf; simpl;
      now rewrite check_error_banner_spec, Hb, Ht, Herr.
Qed.

(** What the parser leaves of the world: the session, the channel, the
    other files, and no event of the network. *)
Lemma _read_cache_effects (name : string) (w w' : world) (o : outcome parsed) :
  _read_cache name w = (o, w') ->
  self w' = self w /\ inbox w' = inbox w
  /\ (forall other : string, other <> name ->
        cache_dir w' !! other = cache_dir w !! other
        /\ tmp_dir w' !! other = tmp_dir w !! other)
  /\ exists evs : list event,
       trace w' = trace w ++ evs /\ List.filter is_network evs = [].
Proof.
  intros H. apply _read_cache_world in H.
  destruct H as [-> | [[_ ->] | [_ [bytes ->]]]]; simpl;
    (split; [reflexivity |]); (split; [reflexivity |]); split.
  - auto.
  - exists []. now rewrite app_nil_r.
  - intros other Hother. split; [now apply lookup_delete_ne | reflexivity].
  - now exists [EvUnlink name].
  - intros other Hother.
    split; [now apply lookup_delete_ne | now apply lookup_insert_ne].
  - now exists [EvRename name].
Qed.

(** X3. When the cached text has no data row and no line that starts with
    [ERROR:], the parser returns nothing ([None]) and leaves the world as it
    is: the file stays in the cache. *)
Theorem no_rows_no_banner_gives_empty (name fh : string) (w : world) :
  open_cache_file name w = (Ret fh, w) ->
  no_data_rows fh ->
  existsb (startswith ERROR_marker) (readlines fh) = false ->
  _read_cache name w = (Ret Empty, w).
Proof.
  intros Hopen (s & count & Hscan & Hrows) Herr.
  apply readable_inv in Hopen as (bytes & Hb & Ht).
  exact (_read_cache_no_rows _ _ _ _ _ _ Hb Ht Hscan Hrows Herr).
Qed.

(** X4. Whatever the parser does, it touches no other file than the one it
    reads, in the cache and in the temporary directory; the file it reads is
    left as it is or is gone from the cache, never changed; nothing goes
    over the network and the session is as it was. *)
Theorem parser_touches_its_file_only (name : string) (w w' : world)
    (o : outcome parsed) :
  _read_cache name w = (o, w') ->
  self w' = self w /\ inbox w' = inbox w
  /\ (cache_dir w' !! name = cache_dir w !! name \/ cache_dir w' !! name = None)
  /\ (forall other : string, other <> name ->
        cache_dir w' !! other = cache_dir w !! other
        /\ tmp_dir w' !! other = tmp_dir w !! other)
  /\ exists evs : list event,
       trace w' = trace w ++ evs /\ List.filter is_network evs = [].
Proof.
  intros H. apply _read_cache_world in H.
  destruct H as [-> | [[_ ->] | [_ [bytes ->]]]]; simpl.
  - repeat split; auto. exists []. now rewrite app_nil_r.
  - repeat split; auto.
    + right. apply lookup_delete_eq.
    + now apply lookup_delete_ne.
    + now exists [EvUnlink name].
  - repeat split; auto.
    + right. apply lookup_delete_eq.
    + now apply lookup_delete_ne.
    + now apply lookup_insert_ne.
    + now exists [EvRename name].
Qed.

(** X5. A table that the parser returns is the table that [read_csv] gives
    for the normalised rows of the file, with the same columns, and of its
    rows those that have no equal row before them, in their order: no two
    rows are equal and no row is lost. *)
Theorem table_rows_are_distinct (name : string) (df : DataFrame) (w w' : world) :
  _read_cache name w = (Ret (Table df), w') ->
  exists (fh s : string) (count : nat) (df0 : DataFrame),
    open_cache_file name w = (Ret fh, w)
    /\ scan_lines (readlines fh) EmptyString 0 = (s, count, true)
    /\ read_csv s [("icao24", py_str); ("callsign", py_str)] = CsvFrame df0
    /\ df_columns df = df_columns df0
    /\ df_rows df = first_occurrences (df_rows df0)
    /\ NoDup (df_rows df)
    /\ (forall r : list cell, r ∈ df_rows df <-> r ∈ df_rows df0)
    /\ sublist (df_rows df) (df_rows df0).
Proof.
  intros H. rewrite _read_cache_spec in H.
  destruct (cache_dir w !! name) as [bytes|] eqn:Hb; [|discriminate].
  destruct (text_of_bytes bytes) as [fh| |] eqn:Ht; [|discriminate..].
  destruct (scan_lines (readlines fh) EmptyString 0) as [[s count] return_df] eqn:Hscan.
  assert (Hbanner : check_error_banner name w <> (Ret (Table df), w')).
  { rewrite check_error_banner_spec, Hb, Ht. destruct (existsb _ _); discriminate. }
  destruct return_df; simpl in H; [|discriminate].
  destruct (0 <? count)%nat; [|contradiction].
  destruct (read_csv _ _) as [df0|error|e] eqn:Hcsv; [| |discriminate].
  - destruct (0 <? length (df_rows df0))%nat; [|contradiction].
    injection H as [= <- <-]. exists fh, s, count, df0. simpl.
    split; [now rewrite open_cache_file_spec, Hb, Ht |].
    split; [exact Hscan |]. split; [exact Hcsv |]. split; [reflexivity |].
    split; [apply drop_duplicate_rows_first |].
    split; [apply drop_duplicate_rows_NoDup |]. split.
    + intros r. rewrite drop_duplicate_rows_elem. split; [tauto |].
      intros Hr. split; [exact Hr | apply not_elem_of_nil].
    + apply drop_duplicate_rows_sublist.
  - apply (on_parser_error_of_readable _ _ _ _ _ _ _ Hb Ht) in H.
    destruct H as [[? _]|[? _]]; discriminate.
Qed.

(** ** The runs of [_impala], further *)

Lemma commands_sent_app (a b : list event) :
  commands_sent (a ++ b) = commands_sent a ++ commands_sent b.
Proof. unfold commands_sent. apply omap_app. Qed.

Lemma commands_sent_recv (chunks : list string) : commands_sent (map EvRecv chunks) = [].
Proof. induction chunks; [reflexivity | assumption]. Qed.

Lemma count_connect_app (a b : list event) :
  count_connect (a ++ b) = (count_connect a + count_connect b)%nat.
Proof. unfold count_connect. now rewrite List.filter_app, length_app. Qed.

Lemma count_connect_recv (chunks : list string) :
  count_connect (map EvRecv chunks) = 0%nat.
Proof. induction chunks; [reflexivity | assumption]. Qed.

(** The connection at the start of a run that finds no file: nothing when
    the session is connected, [_connect] otherwise. *)
Lemma connection_effects (w wc : world) (o : outcome unit) :
  (if connected (self w) then (Ret tt, w) else _connect w) = (o, wc) ->
  cache_dir wc = cache_dir w /\ tmp_dir wc = tmp_dir w
  /\ exists net : list event,
       trace wc = trace w ++ net
       /\ commands_sent net = [] /\ (count_connect net <= 1)%nat
       /\ (connected (self w) = true -> net = [] /\ wc = w)
       /\ (o = Ret tt -> connected (self wc) = true)
       /\ (o = Ret tt \/ o = Hang \/ exists e, o = Raise e).
Proof.
  assert (Hnothing : forall o1 : outcome unit,
            (o1 = Ret tt -> connected (self w) = true) ->
            (o1 = Ret tt \/ o1 = Hang \/ exists e, o1 = Raise e) ->
            cache_dir w = cache_dir w /\ tmp_dir w = tmp_dir w
            /\ exists net : list event,
                 trace w = trace w ++ net
                 /\ commands_sent net = [] /\ (count_connect net <= 1)%nat
                 /\ (connected (self w) = true -> net = [] /\ w = w)
                 /\ (o1 = Ret tt -> connected (self w) = true)
                 /\ (o1 = Ret tt \/ o1 = Hang \/ exists e, o1 = Raise e)).
  { intros o1 H1 H2. split; [reflexivity |]. split; [reflexivity |].
    exists []. rewrite app_nil_r. split; [reflexivity |]. split; [reflexivity |].
    split; [unfold count_connect; simpl; lia |]. auto. }
  destruct (connected (self w)) eqn:Hconn.
  - intros [= <- <-]. rewrite Hconn. apply Hnothing; auto.
  - intros H.
    destruct (decide (username (self w) = Some EmptyString)) as [Hu|Hu];
      [|destruct (decide (password (self w) = Some EmptyString)) as [Hp|Hp]].
    + rewrite _connect_empty_credentials in H by auto. injection H as [= <- <-].
      rewrite Hconn. apply Hnothing; [discriminate | eauto].
    + rewrite _connect_empty_credentials in H by auto. injection H as [= <- <-].
      rewrite Hconn. apply Hnothing; [discriminate | eauto].
    + apply (_connect_other_credentials _ _ _ Hu Hp) in H
        as (sock & got & (Hc & Ht & Htr & _) & Ho).
      split; [exact Hc |]. split; [exact Ht |].
      eexists. split; [exact Htr |].
      change (EvConnect ?u ?p sock :: ?l) with ([EvConnect u p sock] ++ l).
      rewrite commands_sent_app, count_connect_app, commands_sent_recv,
        count_connect_recv.
      split; [reflexivity |]. split; [unfold count_connect; simpl; lia |].
      split; [discriminate |]. split.
      * intros ->. destruct Ho as [? | [? | [_ ?]]]; [discriminate.. | assumption].
      * destruct Ho as [-> | [-> | [-> _]]]; eauto.
Qed.

(** A run that finds no file. *)
Lemma miss_effects (request : string) (columns : option string) (cached compress : bool)
    (w w' : world) (o : outcome parsed) :
  cache_dir w !! md5_hexdigest request = None ->
  _impala request columns cached compress w = (o, w') ->
  exists evs : list event,
    run_effects (md5_hexdigest request) (replace_newlines request +:+ ";" +:+ nl)
      w w' o evs
    /\ ((exists v, o = Ret v) ->
        commands_sent evs = [replace_newlines request +:+ ";" +:+ nl]
        /\ connected (self w') = true
        /\ exists total : string,
             last_chars 10 total = prompt
             /\ cache_dir w' !! md5_hexdigest request
                = Some (stored_bytes columns total compress)).
Proof.
  intros Hnone H. rewrite _impala_miss in H by exact Hnone.
  set (digest := md5_hexdigest request) in *.
  set (data := replace_newlines request +:+ ";" +:+ nl) in *.
  destruct (if connected (self w) then (Ret tt, w) else _connect w) as [o1 wc] eqn:Ec.
  apply connection_effects in Ec
    as (Hcd1 & Htd1 & net1 & Htr1 & Hs1 & Hc1 & Hconn1 & Hret1 & Ho1).
  assert (Hstop : forall o0 : outcome parsed, (forall v, o0 <> Ret v) ->
            (o1 = Ret tt -> False) ->
            exists evs, run_effects digest data w wc o0 evs
                        /\ ((exists v, o0 = Ret v) ->
                            commands_sent evs = [data] /\ connected (self wc) = true
                            /\ exists total, last_chars 10 total = prompt
                                 /\ cache_dir wc !! digest
                                    = Some (stored_bytes columns total compress))).
  { intros o0 Hno Hnot. exists net1. split.
    - split; [exact Htr1 |]. split; [now left |]. split; [exact Hc1 |].
      split; [|split].
      + intros Hw. destruct (Hconn1 Hw) as [-> ->].
        split; [reflexivity | exact Hw].
      + intros [v ->]. now destruct (Hno v).
      + intros other _. now rewrite Hcd1, Htd1.
    - intros [v ->]. now destruct (Hno v). }
  destruct o1 as [[]|e|];
    [| injection H as [= <- <-]; apply Hstop; [discriminate | discriminate]
     | injection H as [= <- <-]; apply Hstop; [discriminate | discriminate]].
  clear Hstop. specialize (Hret1 eq_refl).
  destruct (recv_until_prompt (sent_world data wc)) as [o2 w2] eqn:E.
  apply recv_until_prompt_spec in E
    as (got & (Hcd2 & Htd2 & Htr2 & _) & Hself2 & Ho2).
  simpl in Hcd2, Htd2, Htr2, Hself2.
  assert (Hsent : commands_sent (net1 ++ EvSend data :: map EvRecv got) = [data]).
  { rewrite commands_sent_app, Hs1. simpl. now rewrite commands_sent_recv. }
  assert (Hcount : count_connect (net1 ++ EvSend data :: map EvRecv got)
                   = count_connect net1).
  { rewrite count_connect_app.
    change (EvSend data :: ?l) with ([EvSend data] ++ l).
    rewrite count_connect_app, count_connect_recv.
    unfold count_connect at 2. simpl. lia. }
  assert (Hfiles : forall (files : list event) (wf : world),
            commands_sent files = [] -> count_connect files = 0%nat ->
            trace wf = trace w2 ++ files -> self wf = self w2 ->
            (forall other, other <> digest ->
               cache_dir wf !! other = cache_dir w2 !! other
               /\ tmp_dir wf !! other = tmp_dir w2 !! other) ->
            run_effects digest data w wf o
              ((net1 ++ EvSend data :: map EvRecv got) ++ files)).
  { intros files wf Hfs Hfc Hftr Hfself Hframe.
    split; [now rewrite Hftr, Htr2, Htr1, <- !app_assoc |].
    split; [right; now rewrite commands_sent_app, Hsent, Hfs |].
    split; [now rewrite count_connect_app, Hcount, Hfc, Nat.add_0_r |].
    split; [|split].
    - intros Hw. destruct (Hconn1 Hw) as [-> _].
      rewrite count_connect_app, Hcount, Hfc. unfold count_connect. simpl.
      split; [reflexivity |]. now rewrite Hfself, Hself2.
    - intros _ _. now rewrite Hfself, Hself2.
    - intros other Hother. destruct (Hframe other Hother) as [-> ->].
      now rewrite Hcd2, Htd2, Hcd1, Htd1. }
  destruct Ho2 as [-> | [-> Hprompt]].
  - injection H as [= <- <-].
    exists ((net1 ++ EvSend data :: map EvRecv got) ++ []). split.
    + apply Hfiles; auto. now rewrite app_nil_r.
    + intros [v Hv]; discriminate.
  - set (bytes := stored_bytes columns (join got) compress) in *.
    apply _read_cache_world in H.
    destruct H as [-> | [[[e ->] ->] | [[e ->] [old ->]]]].
    + exists ((net1 ++ EvSend data :: map EvRecv got)
              ++ [EvOpenW digest; EvClose digest bytes]). split.
      * apply Hfiles; simpl; auto.
        -- now rewrite <- app_assoc.
        -- intros other Hother. now rewrite !lookup_insert_ne by congruence.
      * intros _. split; [now rewrite commands_sent_app, Hsent |].
        split; [simpl; now rewrite Hself2 |].
        exists (join got). split; [exact Hprompt |]. apply written_world_lookup.
    + exists ((net1 ++ EvSend data :: map EvRecv got)
              ++ [EvOpenW digest; EvClose digest bytes; EvUnlink digest]). split.
      * apply Hfiles; simpl; auto.
        -- now rewrite <- !app_assoc.
        -- intros other Hother.
           now rewrite lookup_delete_ne, !lookup_insert_ne by congruence.
      * intros [v Hv]; discriminate.
    + exists ((net1 ++ EvSend data :: map EvRecv got)
              ++ [EvOpenW digest; EvClose digest bytes; EvRename digest]). split.
      * apply Hfiles; simpl; auto.
        -- now rewrite <- !app_assoc.
        -- intros other Hother.
           now rewrite lookup_delete_ne, !lookup_insert_ne by congruence.
      * intros [v Hv]; discriminate.
Qed.

Lemma replace_newlines_no_newline (s : string) :
  contains LF (replace_newlines s) = false.
Proof.
  induction s as [|c s IH]; simpl; [reflexivity |].
  destruct (Ascii.eqb c LF) eqn:Hc; simpl; [exact IH |]. now rewrite Hc.
Qed.

(** Every run of [_impala]. *)
Lemma impala_effects (request : string) (columns : option string)
    (cached compress : bool) (w w' : world) (o : outcome parsed) :
  _impala request columns cached compress w = (o, w') ->
  exists evs : list event,
    run_effects (md5_hexdigest request) (replace_newlines request +:+ ";" +:+ nl)
      w w' o evs.
Proof.
  intros H. set (digest := md5_hexdigest request) in *.
  destruct (cache_dir w !! digest) as [old|] eqn:Hold; [destruct cached|].
  - rewrite _impala_hit in H by (fold digest; rewrite Hold; eauto).
    apply _read_cache_effects in H as (Hself & _ & Hframe & evs & Htr & Hnet).
    assert (Hs : commands_sent evs = []).
    { clear Htr. induction evs as [|e evs IH]; [reflexivity |].
      simpl in Hnet. destruct e; try discriminate; now apply IH. }
    assert (Hc : count_connect evs = 0%nat).
    { clear Htr Hs. induction evs as [|e evs IH]; [reflexivity |].
      simpl in Hnet. destruct e; try discriminate; now apply IH. }
    exists evs. split; [exact Htr |]. split; [now left |].
    split; [rewrite Hc; lia |]. split; [|split].
    + intros Hw. split; [exact Hc |]. now rewrite Hself.
    + intros _ Hone. rewrite Hc in Hone. discriminate.
    + exact Hframe.
  - rewrite _impala_refresh in H by (fold digest; rewrite Hold; eauto).
    apply miss_effects in H; [|simpl; apply lookup_delete_eq].
    destruct H as (evs & (Htr & Hs & Hc & Hconn & Hret & Hframe) & _).
    fold digest in Hframe. simpl in Htr, Hconn, Hframe.
    exists (EvUnlink digest :: evs).
    split; [now rewrite Htr, <- app_assoc |]. split; [exact Hs |].
    split; [exact Hc |]. split; [exact Hconn |]. split; [exact Hret |].
    intros other Hother. destruct (Hframe other Hother) as [-> ->].
    split; [now apply lookup_delete_ne | reflexivity].
  - apply (miss_effects _ _ _ _ _ _ _ Hold) in H as (evs & H & _). eauto.
Qed.

(** X6. When the cache has a file for the request and the cache is in use,
    the run is the parsing of that file and nothing else: it sends and
    receives nothing, does not connect (so it needs no credentials) and the
    session is as it was. *)
Theorem cache_hit_needs_no_connection (request : string) (columns : option string)
    (compress : bool) (w w' : world) (o : outcome parsed) :
  is_Some (cache_dir w !! md5_hexdigest request) ->
  _impala request columns true compress w = (o, w') ->
  _read_cache (md5_hexdigest request) w = (o, w')
  /\ self w' = self w /\ inbox w' = inbox w
  /\ exists evs : list event,
       trace w' = trace w ++ evs /\ List.filter is_network evs = [].
Proof.
  intros Hsome H. rewrite _impala_hit in H by exact Hsome.
  split; [exact H |].
  apply _read_cache_effects in H as (Hself & Hinbox & _ & Hevs).
  auto.
Qed.

(** X7. With an empty user name or an empty password, a run that finds no
    file for its request and no open session raises the error of
    [_connect] and does nothing: no transport, nothing sent, no file. *)
Theorem miss_without_credentials_does_nothing (request : string)
    (columns : option string) (cached compress : bool) (w : world) :
  cache_dir w !! md5_hexdigest request = None ->
  connected (self w) = false ->
  username (self w) = Some EmptyString \/ password (self w) = Some EmptyString ->
  _impala request columns cached compress w
  = (Raise (RuntimeError "This method requires authentication."), w).
Proof.
  intros Hnone Hconn Hcred. rewrite _impala_miss by exact Hnone.
  now rewrite Hconn, _connect_empty_credentials.
Qed.

(** X8. A run that is told not to use the cache and returns has sent its
    command, once, whether the cache had a file for the request or not, and
    the file it leaves holds the header and a transcript that ends with the
    prompt. *)
Theorem forced_run_sends_the_command (request : string) (columns : option string)
    (compress : bool) (w w' : world) (v : parsed) :
  _impala request columns false compress w = (Ret v, w') ->
  exists (evs : list event) (total : string),
    trace w' = trace w ++ evs
    /\ commands_sent evs = [replace_newlines request +:+ ";" +:+ nl]
    /\ last_chars 10 total = prompt
    /\ cache_dir w' !! md5_hexdigest request
       = Some (stored_bytes columns total compress).
Proof.
  intros H. set (digest := md5_hexdigest request) in *.
  destruct (cache_dir w !! digest) as [old|] eqn:Hold.
  - rewrite _impala_refresh in H by (fold digest; rewrite Hold; eauto).
    apply miss_effects in H; [|simpl; apply lookup_delete_eq].
    destruct H as (evs & (Htr & _) & Hret).
    destruct Hret as (Hs & _ & total & Hp & Hfile); [eauto |].
    simpl in Htr. exists (EvUnlink digest :: evs), total.
    split; [now rewrite Htr, <- app_assoc |]. auto.
  - apply (miss_effects _ _ _ _ _ _ _ Hold) in H as (evs & (Htr & _) & Hret).
    destruct Hret as (Hs & _ & total & Hp & Hfile); [eauto |].
    exists evs, total. auto.
Qed.

(** X9. A run sends one command at most, and the command is the request on
    one line: its line ends replaced by spaces, then [;] and a line end. *)
Theorem run_sends_one_line_at_most (request : string) (columns : option string)
    (cached compress : bool) (w w' : world) (o : outcome parsed) :
  _impala request columns cached compress w = (o, w') ->
  contains LF (replace_newlines request) = false
  /\ exists evs : list event,
       trace w' = trace w ++ evs
       /\ (commands_sent evs = []
           \/ commands_sent evs = [replace_newlines request +:+ ";" +:+ nl]).
Proof.
  intros H. split; [apply replace_newlines_no_newline |].
  apply impala_effects in H as (evs & Htr & Hs & _). eauto.
Qed.

(** X10. A run connects once at most, and only when the session is not
    connected: a connected session is left connected, with no call to
    [client.connect]; and when a run that connects returns, the session is
    connected. *)
Theorem run_connects_once_at_most (request : string) (columns : option string)
    (cached compress : bool) (w w' : world) (o : outcome parsed) :
  _impala request columns cached compress w = (o, w') ->
  exists evs : list event,
    trace w' = trace w ++ evs
    /\ (count_connect evs <= 1)%nat
    /\ (connected (self w) = true ->
        count_connect evs = 0%nat /\ connected (self w') = true)
    /\ ((exists v, o = Ret v) -> count_connect evs = 1%nat ->
        connected (self w') = true).
Proof.
  intros H. apply impala_effects in H as (evs & Htr & _ & Hc & Hconn & Hret & _).
  eauto.
Qed.

(** X11. A run leaves the files of the other requests as they are, in the
    cache and in the temporary directory. *)
Theorem run_leaves_other_files (request : string) (columns : option string)
    (cached compress : bool) (w w' : world) (o : outcome parsed) :
  _impala request columns cached compress w = (o, w') ->
  forall other : string, other <> md5_hexdigest request ->
    cache_dir w' !! other = cache_dir w !! other
    /\ tmp_dir w' !! other = tmp_dir w !! other.
Proof.
  intros H. apply impala_effects in H as (evs & _ & _ & _ & _ & _ & Hframe).
  exact Hframe.
Qed.

End Further.

(** ** The normalisation of the rows and the header *)

Lemma count_char_cons (c d : ascii) (r : string) :
  count_char c (String d r) = ((if Ascii.eqb d c then 1 else 0) + count_char c r)%nat.
Proof. reflexivity. Qed.

Lemma count_char_app (c : ascii) (a b : string) :
  count_char c (a +:+ b) = (count_char c a + count_char c b)%nat.
Proof.
  induction a as [|x a IH]; [reflexivity |].
  rewrite append_cons, !count_char_cons, IH. lia.
Qed.

Lemma count_char_spaces (c : ascii) (n : nat) :
  c <> SP -> count_char c (spaces n) = 0%nat.
Proof.
  intros Hc. induction n as [|n IH]; [reflexivity |].
  change (spaces (S n)) with (String SP (spaces n)).
  rewrite count_char_cons, IH.
  destruct (Ascii.eqb_spec SP c) as [E|_]; [now subst | reflexivity].
Qed.

Lemma sub_delim_cons (d c : ascii) (skip : bool) (pending : nat) (r : string) :
  sub_delim d skip pending (String c r)
  = if Ascii.eqb c d then String COMMA (sub_delim d true 0 r)
    else if Ascii.eqb c SP then
      if skip then sub_delim d true 0 r else sub_delim d false (S pending) r
    else spaces pending +:+ String c (sub_delim d false 0 r).
Proof. reflexivity. Qed.

Lemma sub_delim_counts (d : ascii) (s : string) (skip : bool) (pending : nat) :
  d <> COMMA -> d <> SP ->
  count_char COMMA (sub_delim d skip pending s)
  = (count_char COMMA s + count_char d s)%nat
  /\ count_char d (sub_delim d skip pending s) = 0%nat.
Proof.
  intros Hdc Hds. revert skip pending.
  induction s as [|c s IH]; intros skip pending.
  - change (sub_delim d skip pending EmptyString) with (spaces pending).
    rewrite !count_char_spaces by (congruence || discriminate). auto.
  - rewrite sub_delim_cons, !(count_char_cons _ c).
    destruct (Ascii.eqb_spec c d) as [-> | Hcd].
    + destruct (IH true 0%nat) as [IH1 IH2].
      rewrite !count_char_cons, IH1, IH2.
      destruct (Ascii.eqb_spec COMMA COMMA) as [_|?]; [|contradiction].
      destruct (Ascii.eqb_spec d COMMA) as [?|_]; [contradiction |].
      destruct (Ascii.eqb_spec COMMA d) as [?|_]; [now subst |].
      lia.
    + destruct (Ascii.eqb_spec c SP) as [-> | Hcs].
      * destruct (Ascii.eqb_spec SP COMMA) as [?|_]; [discriminate |].
        destruct skip; [destruct (IH true 0%nat) | destruct (IH false (S pending))];
          split; lia.
      * destruct (IH false 0%nat) as [IH1 IH2].
        rewrite !count_char_app, !count_char_cons,
          !count_char_spaces by (congruence || discriminate).
        rewrite IH1, IH2.
        destruct (Ascii.eqb_spec c d) as [?|_]; [contradiction |]. lia.
Qed.

(** X12. The normalisation of a row keeps its number of fields: every tab
    of a tab-separated line gives one comma and no tab is left; every bar of
    a box-drawn line gives one comma and no bar is left. The commas of the
    line stay. *)
Theorem normalised_row_has_a_comma_per_delimiter (line : string) :
  count_char COMMA (sub_tabs line)
    = (count_char COMMA line + count_char TAB line)%nat
  /\ count_char TAB (sub_tabs line) = 0%nat
  /\ count_char COMMA (sub_bars line)
    = (count_char COMMA line + count_char BAR line)%nat
  /\ count_char BAR (sub_bars line) = 0%nat.
Proof.
  destruct (sub_delim_counts TAB line false 0) as [H1 H2]; [discriminate.. |].
  destruct (sub_delim_counts BAR line false 0) as [H3 H4]; [discriminate.. |].
  auto.
Qed.

Lemma sub_comma_space_app (a b : string) :
  contains COMMA a = false ->
  sub_comma_space (a +:+ b) = a +:+ sub_comma_space b.
Proof.
  induction a as [|c a IH]; [reflexivity |].
  rewrite !append_cons. simpl.
  destruct (Ascii.eqb c COMMA) eqn:Hc; [discriminate |].
  intros Ha. now rewrite IH.
Qed.

(** X13. The header line that [_impala] writes for column names joined by
    a comma and a space is the names joined by tabs, and a line end, as long
    as no name holds a comma. *)
Theorem header_of_joined_columns (names : list string) :
  Forall (fun name => contains COMMA name = false) names ->
  header_line (Some (join_sep ", " names)) = join_sep tab names +:+ nl.
Proof.
  intros Hnames. unfold header_line. f_equal.
  induction Hnames as [|x names Hx Hnames IH]; [reflexivity |].
  destruct names as [|y names].
  - simpl. rewrite <- (append_nil_r x) at 1.
    rewrite (sub_comma_space_app _ _ Hx). simpl. now rewrite append_nil_r.
  - change (join_sep ", " (x :: y :: names))
      with (x +:+ ", " +:+ join_sep ", " (y :: names)).
    change (join_sep tab (x :: y :: names))
      with (x +:+ tab +:+ join_sep tab (y :: names)).
    rewrite (sub_comma_space_app _ _ Hx). f_equal.
    change (", " +:+ ?r) with (String COMMA (String SP r)).
    change (sub_comma_space (String COMMA (String SP ?r)))
      with (String TAB (sub_comma_space r)).
    now rewrite IH.
Qed.

(** ** [clear_cache] and [request] *)

Section QueryProperties.
Context {HL : Hashlib} {GZ : Gzip} {PD : Pandas} {TF : Tempfile} {RM : Remote}.
Context {timelike : Type} {TL : TimeLib timelike} {SF : StrFormat} {PC : PandasConcat}.
Context {CL : CacheListing}.

Lemma files_of_files (files : list string) : files_of (map EntryFile files) = files.
Proof. induction files as [|f files IH]; [reflexivity | simpl; now rewrite IH]. Qed.

Lemma files_of_elem (name : string) (entries : list dir_entry) :
  name ∈ files_of entries <-> EntryFile name ∈ entries.
Proof.
  unfold files_of. rewrite list_elem_of_omap. split.
  - intros ([f|d] & Hin & Hf); [|discriminate]. now injection Hf as [= <-].
  - intros Hin. exists (EntryFile name). auto.
Qed.

Lemma unlink_each_files (files : list string) (rest : list dir_entry) (w : world) :
  NoDup files ->
  (forall file, file ∈ files -> is_Some (cache_dir w !! file)) ->
  exists w1 : world,
    unlink_each (map EntryFile files ++ rest) w = unlink_each rest w1
    /\ self w1 = self w /\ tmp_dir w1 = tmp_dir w /\ inbox w1 = inbox w
    /\ trace w1 = trace w ++ map EvUnlink files
    /\ forall name : string,
         cache_dir w1 !! name
         = if bool_decide (name ∈ files) then None else cache_dir w !! name.
Proof.
  intros Hnodup. revert w. induction Hnodup as [|f files Hf Hnodup IH]; intros w Hall.
  - exists w. simpl. rewrite app_nil_r. repeat split; try reflexivity.
  - destruct (Hall f) as [bytes Hb]; [left |].
    destruct (IH (emit [EvUnlink f] (with_cache_dir (delete f) w)))
      as (w' & Hrun & Hself & Htmp & Hinbox & Htr & Hcd).
    { intros g Hg. simpl. rewrite lookup_delete_ne by (intros ->; contradiction).
      apply Hall. now right. }
    exists w'. split.
    + simpl. unfold mbind, M_bind. now rewrite (unlink_present _ _ _ Hb).
    + simpl in Hself, Htmp, Hinbox, Htr, Hcd.
      repeat split; try assumption.
      * now rewrite Htr, <- app_assoc.
      * intros name. rewrite Hcd.
        destruct (decide (name = f)) as [-> | Hne].
        -- rewrite (bool_decide_true (f ∈ f :: files)) by left.
           rewrite lookup_delete_eq. now destruct (bool_decide (f ∈ files)).
        -- rewrite lookup_delete_ne by congruence.
           destruct (bool_decide (name ∈ files)) eqn:Hin.
           ++ apply bool_decide_eq_true in Hin.
              now rewrite (bool_decide_true (name ∈ f :: files)) by now right.
           ++ apply bool_decide_eq_false in Hin.
              rewrite (bool_decide_false (name ∈ f :: files)); [reflexivity |].
              intros [?|?]%elem_of_cons; contradiction.
Qed.

(** X14. [clear_cache] unlinks the entries of the cache directory in the
    order of [glob], each file once, and stops at the first sub-directory,
    on which [unlink] raises: the files listed before it are gone, the ones
    listed after it stay. When [glob] gives files only, [clear_cache]
    returns and the cache is empty. Nothing else is touched. *)
Theorem clear_cache_stops_at_first_directory (files : list string)
    (after : option (string * list dir_entry)) (w : world) :
  lists_the_cache w ->
  glob_star w
  = map EntryFile files
    ++ match after with
       | None => []
       | Some (dir, others) => EntryDir dir :: others
       end ->
  exists w' : world,
    clear_cache w
    = (match after with None => Ret tt | Some _ => Raise IsADirectoryError end, w')
    /\ (forall name : string,
          cache_dir w' !! name
          = if bool_decide (name ∈ files) then None else cache_dir w !! name)
    /\ (after = None -> cache_dir w' = ∅)
    /\ (forall dir others name,
          after = Some (dir, others) -> EntryFile name ∈ others ->
          is_Some (cache_dir w' !! name)
          /\ cache_dir w' !! name = cache_dir w !! name)
    /\ self w' = self w /\ tmp_dir w' = tmp_dir w /\ inbox w' = inbox w
    /\ trace w' = trace w ++ map EvUnlink files.
Proof.
  intros Hlist Hglob. unfold lists_the_cache in Hlist.
  rewrite Hglob in Hlist. unfold files_of in Hlist. rewrite omap_app in Hlist.
  fold (files_of (map EntryFile files)) in Hlist. rewrite files_of_files in Hlist.
  assert (Hnodup : NoDup (files ++ files_of match after with
                                            | None => []
                                            | Some (dir, others) => EntryDir dir :: others
                                            end)).
  { unfold files_of. rewrite Hlist. apply NoDup_fst_map_to_list. }
  assert (Hkeys : forall name, name ∈ (map_to_list (cache_dir w)).*1
                               <-> is_Some (cache_dir w !! name)).
  { intros name. rewrite list_elem_of_fmap. split.
    - intros [[f bytes] [-> Hin]]. apply elem_of_map_to_list in Hin. simpl. eauto.
    - intros [bytes Hb]. exists (name, bytes). split; [reflexivity |].
      now apply elem_of_map_to_list. }
  apply NoDup_app in Hnodup as (Hfiles & Hdisjoint & _).
  destruct (unlink_each_files files
              (match after with
               | None => []
               | Some (dir, others) => EntryDir dir :: others
               end) w Hfiles)
    as (w1 & Hrun & Hself & Htmp & Hinbox & Htr & Hcd).
  { intros file Hin. apply Hkeys. rewrite <- Hlist. apply elem_of_app. now left. }
  exists w1. split; [|split; [exact Hcd |]].
  - unfold clear_cache, mbind, M_bind. simpl. rewrite Hglob, Hrun.
    destruct after as [[dir others]|]; reflexivity.
  - split; [|split; [|auto]].
    + intros ->. apply map_eq. intros name. rewrite Hcd, lookup_empty.
      case_bool_decide as Hin; [reflexivity |].
      destruct (cache_dir w !! name) as [bytes|] eqn:Hb; [|reflexivity].
      exfalso. apply Hin.
      assert (Hk : name ∈ (map_to_list (cache_dir w)).*1)
        by (apply Hkeys; rewrite Hb; eauto).
      rewrite <- Hlist in Hk. simpl in Hk. now rewrite app_nil_r in Hk.
    + intros dir others name -> Hin.
      assert (Hrest : name ∈ files_of (EntryDir dir :: others))
        by (apply files_of_elem; now right).
      assert (Hnot : name ∉ files) by (intros Hf; exact (Hdisjoint _ Hf Hrest)).
      rewrite Hcd, bool_decide_false by exact Hnot.
      split; [|reflexivity]. apply Hkeys. rewrite <- Hlist.
      apply elem_of_app. now right.
Qed.

Lemma request_loop_cons (request_pattern columns : string) (cached compress : bool)
    (win : window) (rest : list window) (cumul : list parsed) (w : world) :
  request_loop request_pattern columns cached compress (win :: rest) cumul w
  = match format_request request_pattern win with
    | inl e => (Raise e, w)
    | inr request =>
        match _impala request (Some columns) cached compress w with
        | (Ret Empty, w1) =>
            request_loop request_pattern columns cached compress rest cumul w1
        | (Ret df, w1) =>
            request_loop request_pattern columns cached compress rest (cumul ++ [df]) w1
        | (Raise e, w1) => (Raise e, w1)
        | (Hang, w1) => (Hang, w1)
        end
    end.
Proof.
  simpl. destruct (format_request request_pattern win) as [e|request]; [reflexivity |].
  unfold mbind, M_bind.
  destruct (_impala request (Some columns) cached compress w) as [o1 w1].
  destruct o1 as [df|e|]; try destruct df; reflexivity.
Qed.

(** The windows whose requests are in the cache. *)
Lemma request_loop_cached (request_pattern columns : string) (compress : bool)
    (sequence : list window) (cumul : list parsed) (w w' : world)
    (o : outcome (list parsed)) :
  (forall win request, win ∈ sequence ->
     format_request request_pattern win = inr request ->
     is_Some (cache_dir w !! md5_hexdigest request)) ->
  request_loop request_pattern columns true compress sequence cumul w = (o, w') ->
  self w' = self w /\ inbox w' = inbox w
  /\ (forall cumul', o = Ret cumul' -> w' = w)
  /\ exists evs : list event,
       trace w' = trace w ++ evs /\ List.filter is_network evs = [].
Proof.
  revert cumul. induction sequence as [|win rest IH]; intros cumul Hall.
  - simpl. intros [= <- <-].
    split; [reflexivity |]. split; [reflexivity |]. split; [reflexivity |].
    exists []. now rewrite app_nil_r.
  - rewrite request_loop_cons.
    destruct (format_request request_pattern win) as [e|request] eqn:Hf.
    + intros [= <- <-].
      split; [reflexivity |]. split; [reflexivity |]. split; [discriminate |].
      exists []. now rewrite app_nil_r.
    + assert (Hsome : is_Some (cache_dir w !! md5_hexdigest request))
        by (apply (Hall win); [left | exact Hf]).
      destruct (_impala request (Some columns) true compress w) as [o1 w1] eqn:E.
      rewrite _impala_hit in E by exact Hsome.
      pose proof (_read_cache_effects _ _ _ _ E) as (Hself & Hinbox & _ & Hevs).
      rename E into Hread.
      assert (Hrest : forall v cumul1,
                o1 = Ret v ->
                request_loop request_pattern columns true compress rest cumul1 w1
                = (o, w') ->
                self w' = self w /\ inbox w' = inbox w
                /\ (forall cumul', o = Ret cumul' -> w' = w)
                /\ exists evs, trace w' = trace w ++ evs
                               /\ List.filter is_network evs = []).
      { intros v cumul1 -> Hloop.
        apply _read_cache_Ret_world in Hread. subst w1.
        apply (IH cumul1); [|exact Hloop].
        intros win' request' Hin. apply Hall. now right. }
      destruct o1 as [df|e|].
      * destruct df; intros Hloop; eapply Hrest; eauto.
      * intros [= <- <-].
        split; [exact Hself |]. split; [exact Hinbox |]. split; [discriminate | exact Hevs].
      * intros [= <- <-].
        split; [exact Hself |]. split; [exact Hinbox |]. split; [discriminate | exact Hevs].
Qed.

(** X15. When the requests of all the windows are in the cache and the
    cache is in use, [request] sends and receives nothing and does not
    connect: the session is as it was, and when [request] returns the world
    is as it was. *)
Theorem request_from_cache_needs_no_network (request_pattern : string)
    (start : timelike) (stop : option timelike) (columns : list string)
    (date_delta : Z) (compress : bool) (w w' : world) (o : outcome parsed) :
  (forall win request,
     win ∈ windows_of (start_stop_ts to_datetime start stop) date_delta ->
     format_request request_pattern win = inr request ->
     is_Some (cache_dir w !! md5_hexdigest request)) ->
  request request_pattern start stop columns date_delta true compress w = (o, w') ->
  self w' = self w /\ inbox w' = inbox w
  /\ (forall v, o = Ret v -> w' = w)
  /\ exists evs : list event,
       trace w' = trace w ++ evs /\ List.filter is_network evs = [].
Proof.
  intros Hall. unfold request.
  destruct (start_stop_ts to_datetime start stop) as [e|[start_ts stop_ts]].
  { intros [= <- <-]. split; [reflexivity |]. split; [reflexivity |].
    split; [discriminate |]. exists []. now rewrite app_nil_r. }
  simpl in Hall. unfold mbind, M_bind.
  destruct (request_loop _ _ _ _ _ _ w) as [o1 w1] eqn:E.
  apply (request_loop_cached _ _ _ _ _ _ _ _ Hall) in E
    as (Hself & Hinbox & Hret & Hevs).
  destruct o1 as [cumul|e|].
  - specialize (Hret cumul eq_refl). subst w1.
    destruct (length cumul =? 0)%nat.
    + intros [= <- <-]. auto.
    + destruct (pd_concat cumul); intros [= <- <-]; auto.
  - intros [= <- <-].
    split; [exact Hself |]. split; [exact Hinbox |]. split; [discriminate | exact Hevs].
  - intros [= <- <-].
    split; [exact Hself |]. split; [exact Hinbox |]. split; [discriminate | exact Hevs].
Qed.

Lemma request_loop_counts (request_pattern columns : string) (cached compress : bool)
    (sequence : list window) (cumul : list parsed) (w w' : world)
    (o : outcome (list parsed)) :
  request_loop request_pattern columns cached compress sequence cumul w = (o, w') ->
  exists evs : list event,
    trace w' = trace w ++ evs
    /\ (length (commands_sent evs) <= length sequence)%nat
    /\ (count_connect evs <= 1)%nat
    /\ (connected (self w) = true ->
        count_connect evs = 0%nat /\ connected (self w') = true).
Proof.
  revert cumul w. induction sequence as [|win rest IH]; intros cumul w.
  - simpl. intros [= <- <-]. exists []. rewrite app_nil_r.
    split; [reflexivity |]. split; [simpl; lia |].
    split; [unfold count_connect; simpl; lia | auto].
  - rewrite request_loop_cons.
    destruct (format_request request_pattern win) as [e|request].
    + intros [= <- <-]. exists []. rewrite app_nil_r.
      split; [reflexivity |]. split; [simpl; lia |].
      split; [unfold count_connect; simpl; lia | auto].
    + destruct (_impala request (Some columns) cached compress w) as [o1 w1] eqn:E.
      apply impala_effects in E as (evs1 & Htr1 & Hs1 & Hc1 & Hconn1 & Hret1 & _).
      assert (Hlen1 : (length (commands_sent evs1) <= 1)%nat)
        by (destruct Hs1 as [-> | ->]; simpl; lia).
      assert (Hstop : (o, w') = (match o1 with
                                 | Ret _ => (o, w')
                                 | Raise e => (Raise e, w1)
                                 | Hang => (Hang, w1)
                                 end) ->
                      (forall v, o1 <> Ret v) ->
                      exists evs, trace w' = trace w ++ evs
                        /\ (length (commands_sent evs) <= length (win :: rest))%nat
                        /\ (count_connect evs <= 1)%nat
                        /\ (connected (self w) = true ->
                            count_connect evs = 0%nat /\ connected (self w') = true)).
      { intros Heq Hno. destruct o1 as [v|e|]; [now destruct (Hno v) |..];
          injection Heq as [= -> ->]; exists evs1;
          (split; [exact Htr1 |]); (split; [simpl; lia |]); auto. }
      assert (Hgo : forall v cumul1,
                o1 = Ret v ->
                request_loop request_pattern columns cached compress rest cumul1 w1
                = (o, w') ->
                exists evs, trace w' = trace w ++ evs
                  /\ (length (commands_sent evs) <= length (win :: rest))%nat
                  /\ (count_connect evs <= 1)%nat
                  /\ (connected (self w) = true ->
                      count_connect evs = 0%nat /\ connected (self w') = true)).
      { intros v cumul1 -> Hloop.
        apply IH in Hloop as (evs2 & Htr2 & Hs2 & Hc2 & Hconn2).
        exists (evs1 ++ evs2).
        split; [now rewrite Htr2, Htr1, <- app_assoc |].
        rewrite commands_sent_app, length_app, count_connect_app.
        split; [simpl; lia |]. split.
        - destruct (connected (self w)) eqn:Hw.
          + destruct (Hconn1 eq_refl) as [-> Hw1].
            destruct (Hconn2 Hw1) as [-> _]. lia.
          + destruct (count_connect evs1) as [|[|n]] eqn:Hn; [lia | | lia].
            assert (Hw1 : connected (self w1) = true) by (apply Hret1; eauto).
            destruct (Hconn2 Hw1) as [-> _]. lia.
        - intros Hw. destruct (Hconn1 Hw) as [-> Hw1].
          destruct (Hconn2 Hw1) as [-> Hw']. auto. }
      destruct o1 as [df|e|].
      * destruct df; intros Hloop; eapply Hgo; eauto.
      * intros Heq. apply Hstop; [now symmetry | discriminate].
      * intros Heq. apply Hstop; [now symmetry | discriminate].
Qed.

(** X16. [request] sends one command per window at most, and connects once
    at most for all its windows, and not at all when the session is
    connected. *)
Theorem request_sends_a_command_per_window_at_most (request_pattern : string)
    (start : timelike) (stop : option timelike) (columns : list string)
    (date_delta : Z) (cached compress : bool) (w w' : world) (o : outcome parsed) :
  request request_pattern start stop columns date_delta cached compress w = (o, w') ->
  exists evs : list event,
    trace w' = trace w ++ evs
    /\ (length (commands_sent evs)
        <= length (windows_of (start_stop_ts to_datetime start stop) date_delta))%nat
    /\ (count_connect evs <= 1)%nat
    /\ (connected (self w) = true -> count_connect evs = 0%nat).
Proof.
  unfold request.
  destruct (start_stop_ts to_datetime start stop) as [e|[start_ts stop_ts]].
  { intros [= <- <-]. exists []. rewrite app_nil_r. split; [reflexivity |].
    split; [simpl; lia |]. split; [unfold count_connect; simpl; lia | reflexivity]. }
  simpl. unfold mbind, M_bind.
  destruct (request_loop _ _ _ _ _ _ w) as [o1 w1] eqn:E.
  apply request_loop_counts in E as (evs & Htr & Hs & Hc & Hconn).
  assert (Hw : w' = w1 -> exists evs0, trace w' = trace w ++ evs0
                 /\ (length (commands_sent evs0)
                     <= length (split_times start_ts stop_ts date_delta))%nat
                 /\ (count_connect evs0 <= 1)%nat
                 /\ (connected (self w) = true -> count_connect evs0 = 0%nat)).
  { intros ->. exists evs. repeat split; try assumption.
    intros Hcw. now destruct (Hconn Hcw). }
  destruct o1 as [cumul|e|].
  - destruct (length cumul =? 0)%nat.
    + intros [= <- <-]. now apply Hw.
    + destruct (pd_concat cumul); intros [= <- <-]; now apply Hw.
  - intros [= <- <-]. now apply Hw.
  - intros [= <- <-]. now apply Hw.
Qed.

(** X17. When every window has its request in the cache, with a text that
    has no data row and no error banner, [request] returns nothing ([None])
    and leaves the world as it is; so it does when there is no window. (When
    the bounds raise, [request] raises and leaves the world as it is.) *)
Theorem request_of_empty_windows_is_empty (request_pattern : string)
    (start : timelike) (stop : option timelike) (columns : list string)
    (date_delta : Z) (compress : bool) (w : world) :
  (forall win,
     win ∈ windows_of (start_stop_ts to_datetime start stop) date_delta ->
     exists request fh,
       format_request request_pattern win = inr request
       /\ open_cache_file (md5_hexdigest request) w = (Ret fh, w)
       /\ no_data_rows fh
       /\ existsb (startswith ERROR_marker) (readlines fh) = false) ->
  request request_pattern start stop columns date_delta true compress w
  = (match start_stop_ts to_datetime start stop with
     | inl e => Raise e
     | inr _ => Ret Empty
     end, w).
Proof.
  intros Hall. unfold request.
  destruct (start_stop_ts to_datetime start stop) as [e|[start_ts stop_ts]];
    [reflexivity |].
  simpl in Hall. unfold mbind, M_bind.
  assert (Hloop : request_loop request_pattern (join_sep tab columns) true compress
                    (split_times start_ts stop_ts date_delta) [] w = (Ret [], w)).
  { induction (split_times start_ts stop_ts date_delta) as [|win rest IH].
    - reflexivity.
    - rewrite request_loop_cons.
      destruct (Hall win)
        as (request & fh & -> & Hopen & (s & count & Hscan & Hrows) & Herr); [left |].
      apply readable_inv in Hopen as (bytes & Hb & Ht).
      rewrite _impala_hit by (rewrite Hb; eauto).
      rewrite (_read_cache_no_rows _ _ _ _ _ _ Hb Ht Hscan Hrows Herr).
      apply IH. intros win' Hin. apply Hall. now right. }
  now rewrite Hloop.
Qed.

(** X18. When the loop of [request] raises, it is at one window, the first
    that fails: the windows before it have returned, the exception is that
    of the formatting of its request or of its run, and the world is left
    as that window left it, the windows after it not being run. *)
Theorem request_stops_at_first_failure (request_pattern columns : string)
    (cached compress : bool) (sequence : list window) (cumul : list parsed)
    (w w' : world) (e : exn) :
  request_loop request_pattern columns cached compress sequence cumul w
  = (Raise e, w') ->
  exists (pre post : list window) (win : window) (cumul1 : list parsed) (w1 : world),
    sequence = pre ++ win :: post
    /\ request_loop request_pattern columns cached compress pre cumul w
       = (Ret cumul1, w1)
    /\ ((format_request request_pattern win = inl e /\ w' = w1)
        \/ exists request : string,
             format_request request_pattern win = inr request
             /\ _impala request (Some columns) cached compress w1 = (Raise e, w')).
Proof.
  revert cumul w. induction sequence as [|win rest IH]; intros cumul w.
  - discriminate.
  - rewrite request_loop_cons.
    destruct (format_request request_pattern win) as [e0|request] eqn:Hf.
    + intros [= <- <-]. exists [], rest, win, cumul, w. auto.
    + destruct (_impala request (Some columns) cached compress w) as [o1 w1] eqn:E.
      assert (Hgo : forall cumul2,
                request_loop request_pattern columns cached compress rest cumul2 w1
                = (Raise e, w') ->
                request_loop request_pattern columns cached compress [win] cumul w
                = (Ret cumul2, w1) ->
                exists pre post win0 cumul1 w0,
                  win :: rest = pre ++ win0 :: post
                  /\ request_loop request_pattern columns cached compress pre cumul w
                     = (Ret cumul1, w0)
                  /\ ((format_request request_pattern win0 = inl e /\ w' = w0)
                      \/ exists request0,
                           format_request request_pattern win0 = inr request0
                           /\ _impala request0 (Some columns) cached compress w0
                              = (Raise e, w'))).
      { intros cumul2 Hloop Hone.
        apply IH in Hloop as (pre & post & win0 & cumul1 & w0 & -> & Hpre & Hfail).
        exists (win :: pre), post, win0, cumul1, w0.
        split; [reflexivity |]. split; [|exact Hfail].
        rewrite request_loop_cons, Hf, E in *.
        destruct o1 as [df|?|]; [|discriminate..].
        destruct df; simpl in Hone; injection Hone as [= <-]; exact Hpre. }
      destruct o1 as [df|e1|].
      * destruct df; intros Hloop; eapply Hgo; try exact Hloop;
          rewrite request_loop_cons, Hf, E; reflexivity.
      * intros [= <- <-]. exists [], rest, win, cumul, w.
        split; [reflexivity |]. split; [reflexivity |]. right. eauto.
      * discriminate.
Qed.

End QueryProperties.

(** ** The filters on the callsign and on the sensor name *)

Lemma find_from_absent (c : ascii) (s : string) (i : Z) :
  contains c s = false -> find_from i (String c EmptyString) s = (-1)%Z.
Proof.
  revert i. induction s as [|d s IH]; intros i; simpl; [reflexivity |].
  destruct (Ascii.eqb_spec d c) as [-> | Hdc]; [discriminate |].
  intros Hs. unfold startswith. simpl.
  destruct (ascii_dec c d) as [-> | _]; [contradiction | now apply IH].
Qed.

Lemma find_at_start (c : ascii) (s : string) :
  find (String c EmptyString) (String c s) = 0%Z.
Proof.
  unfold find, find_from, startswith. simpl.
  destruct (ascii_dec c c) as [_ | ?]; [|contradiction]. now rewrite prefix_nil.
Qed.

Lemma find_after_other (c d : ascii) (s : string) :
  c <> d -> contains c s = false ->
  find (String c EmptyString) (String d s) = (-1)%Z.
Proof.
  intros Hcd Hs. unfold find. apply find_from_absent. simpl.
  destruct (Ascii.eqb_spec d c) as [-> | _]; [contradiction | exact Hs].
Qed.

(** X19. A callsign or a sensor name whose only wildcard is its first
    character is not filtered alike by the three methods: [flightlist]
    compares it for equality, padded to 8 characters, where [history] and
    [flarm] match it as a pattern with [ilike]. *)
Theorem leading_wildcard_is_a_pattern_but_in_flightlist (wildcard : ascii)
    (rest : string) :
  wildcard = "%"%char \/ wildcard = "_"%char ->
  contains "%" rest = false ->
  contains "_" rest = false ->
  has_regex_char rest = false ->
  let name := String wildcard rest in
  flightlist_callsign_params (Some (inl name))
    = "and callsign='" +:+ ljust8 name +:+ "' "
  /\ history_callsign_params (Some (inl name))
    = ("and callsign ilike '" +:+ name +:+ "' ", false)
  /\ flarm_other_params (Some (inl name)) None EmptyString
    = "and rawmessage = rawmessage and crccorrect " +:+ "and not typeogn "
      +:+ "and sensorname ilike '" +:+ name +:+ "' ".
Proof.
  intros Hw Hpercent Hunder Hregex name.
  assert (Hfind : (find "%" name = 0 /\ find "_" name = -1)%Z
                  \/ (find "%" name = -1 /\ find "_" name = 0)%Z).
  { destruct Hw as [-> | ->]; [left | right]; split;
      try apply find_at_start; apply find_after_other;
        (discriminate || assumption). }
  assert (Hplain : has_regex_char name = false).
  { unfold name. destruct Hw as [-> | ->]; simpl; exact Hregex. }
  unfold flightlist_callsign_params, history_callsign_params, flarm_other_params.
  rewrite Hplain.
  destruct Hfind as [[-> ->] | [-> ->]]; simpl; rewrite ?append_assoc; auto.
Qed.

(** * Further examples *)

Import Demo2.

(** X1: three chunks, the prompt at the end of the second. *)
Lemma reception_stops_at_first_prompt_witness :
  let chunks := ["Query: select x" +:+ nl; "a1b2c3" +:+ nl +:+ prompt_line; "later"] in
  let got := ["Query: select x" +:+ nl; "a1b2c3" +:+ nl +:+ prompt_line] in
  recv_loop EmptyString chunks = (Ret (join got), got, ["later"])
  /\ chunks = got ++ ["later"]
  /\ join got = join got
  /\ ends_with_prompt (join got) = true
  /\ forall n : nat, (0 < n < length got)%nat ->
       ends_with_prompt (join (take n got)) = false.
Proof.
  intros chunks got.
  assert (H : recv_loop EmptyString chunks = (Ret (join got), got, ["later"]))
    by (vm_compute; reflexivity).
  split; [exact H |].
  exact (reception_stops_at_first_prompt chunks got ["later"] (join got) H).
Defined.

(** X2: a shell that answers with the rows and no prompt. *)
Lemma reception_hangs_iff_no_prompt_witness :
  let chunks := ["Query: select x" +:+ nl; "a1b2c3" +:+ tab +:+ "AFR123" +:+ nl] in
  Forall (fun b => decodes b = true) chunks
  /\ recv_loop EmptyString chunks = (Hang, chunks, [])
  /\ forall n : nat, (0 < n <= length chunks)%nat ->
       ends_with_prompt (join (take n chunks)) = false.
Proof.
  intros chunks.
  assert (H : Forall (fun b => decodes b = true) chunks)
    by (repeat constructor).
  assert (Hrun : recv_loop EmptyString chunks = (Hang, chunks, []))
    by (vm_compute; reflexivity).
  split; [exact H |]. split; [exact Hrun |].
  exact (proj1 (reception_hangs_iff_no_prompt chunks H) Hrun).
Defined.

(** X3: a window without a row, in the cache. *)
Lemma no_rows_no_banner_gives_empty_witness :
  let w := cached_world {[ "k" := empty_transcript ]} in
  @open_cache_file demo_gzip "k" w = (Ret empty_transcript, w)
  /\ @no_data_rows demo_pandas empty_transcript
  /\ existsb (startswith ERROR_marker) (readlines empty_transcript) = false
  /\ @_read_cache demo_gzip demo_pandas demo_tempfile "k" w = (Ret Empty, w).
Proof.
  intros w.
  assert (H1 : @open_cache_file demo_gzip "k" w = (Ret empty_transcript, w))
    by (vm_compute; reflexivity).
  assert (H2 : @no_data_rows demo_pandas empty_transcript)
    by (exists EmptyString, 0%nat; split; [vm_compute; reflexivity | now left]).
  assert (H3 : existsb (startswith ERROR_marker) (readlines empty_transcript) = false)
    by (vm_compute; reflexivity).
  repeat (split; [assumption |]).
  exact (@no_rows_no_banner_gives_empty demo_gzip demo_pandas demo_tempfile
           "k" empty_transcript w H1 H2 H3).
Defined.

(** X4: the parser on the file of ten lines, which it moves. *)
Lemma parser_touches_its_file_only_witness :
  let w := cached_world {[ "k" := ten_lines_file; "other" := empty_transcript ]} in
  let r := @_read_cache demo_gzip demo_pandas demo_tempfile "k" w in
  r.1 = Raise TypeError
  /\ self r.2 = self w /\ inbox r.2 = inbox w
  /\ (cache_dir r.2 !! "k" = cache_dir w !! "k" \/ cache_dir r.2 !! "k" = None)
  /\ (forall other : string, other <> "k" ->
        cache_dir r.2 !! other = cache_dir w !! other
        /\ tmp_dir r.2 !! other = tmp_dir w !! other)
  /\ exists evs : list event,
       trace r.2 = trace w ++ evs /\ List.filter is_network evs = [].
Proof.
  intros w r. split; [vm_compute; reflexivity |].
  apply (@parser_touches_its_file_only demo_gzip demo_pandas demo_tempfile "k" w r.2 r.1).
  apply surjective_pairing.
Defined.

(** X5: a row written twice is once in the table. *)
Lemma table_rows_are_distinct_witness :
  let w := cached_world {[ "k" := duplicate_rows_file ]} in
  let df := mkDataFrame ["icao24"; "callsign"]
              [[CStr "a1b2c3"; CStr "AFR123"]; [CStr "a1b2c4"; CStr "AFR124"]] in
  @_read_cache demo_gzip demo_pandas demo_tempfile "k" w = (Ret (Table df), w)
  /\ exists (fh s : string) (count : nat) (df0 : DataFrame),
       @open_cache_file demo_gzip "k" w = (Ret fh, w)
       /\ scan_lines (readlines fh) EmptyString 0 = (s, count, true)
       /\ @read_csv demo_pandas s [("icao24", py_str); ("callsign", py_str)]
          = CsvFrame df0
       /\ df_columns df = df_columns df0
       /\ df_rows df = first_occurrences (df_rows df0)
       /\ NoDup (df_rows df)
       /\ (forall r : list cell, r ∈ df_rows df <-> r ∈ df_rows df0)
       /\ sublist (df_rows df) (df_rows df0).
Proof.
  intros w df.
  assert (H : @_read_cache demo_gzip demo_pandas demo_tempfile "k" w
              = (Ret (Table df), w)) by (vm_compute; reflexivity).
  split; [exact H |].
  exact (@table_rows_are_distinct demo_gzip demo_pandas demo_tempfile "k" df w w H).
Defined.

(** X6: a cached answer, read by a session with no credentials and a shell
    that answers nothing. *)
Lemma cache_hit_needs_no_connection_witness :
  let w := demo_world None None {[ "d41dq" := describe_transcript ]} in
  let r := @_impala demo_hashlib demo_gzip demo_pandas demo_tempfile
             (scripted_remote []) "q" (Some "name, type") true false w in
  is_Some (cache_dir w !! @md5_hexdigest demo_hashlib "q")
  /\ r.1 = Ret (RawText describe_transcript)
  /\ @_read_cache demo_gzip demo_pandas demo_tempfile (@md5_hexdigest demo_hashlib "q") w
     = (r.1, r.2)
  /\ self r.2 = self w /\ inbox r.2 = inbox w
  /\ exists evs : list event,
       trace r.2 = trace w ++ evs /\ List.filter is_network evs = [].
Proof.
  intros w r.
  assert (H : is_Some (cache_dir w !! @md5_hexdigest demo_hashlib "q"))
    by (vm_compute; eauto).
  split; [exact H |]. split; [vm_compute; reflexivity |].
  apply (@cache_hit_needs_no_connection demo_hashlib demo_gzip demo_pandas demo_tempfile
           (scripted_remote []) "q" (Some "name, type") false w r.2 r.1 H).
  apply surjective_pairing.
Defined.

(** X7: an empty password and an empty cache. *)
Lemma miss_without_credentials_does_nothing_witness :
  let w := demo_world (Some "user") (Some EmptyString) ∅ in
  cache_dir w !! @md5_hexdigest demo_hashlib "q" = None
  /\ connected (self w) = false
  /\ (username (self w) = Some EmptyString \/ password (self w) = Some EmptyString)
  /\ @_impala demo_hashlib demo_gzip demo_pandas demo_tempfile
       (scripted_remote [answer ["a1b2c3"; "AFR123"]]) "q" (Some "icao24, callsign")
       true false w
     = (Raise (RuntimeError "This method requires authentication."), w).
Proof.
  intros w.
  assert (H1 : cache_dir w !! @md5_hexdigest demo_hashlib "q" = None) by reflexivity.
  assert (H2 : connected (self w) = false) by reflexivity.
  assert (H3 : username (self w) = Some EmptyString
               \/ password (self w) = Some EmptyString) by (right; reflexivity).
  repeat (split; [assumption |]).
  exact (@miss_without_credentials_does_nothing demo_hashlib demo_gzip demo_pandas
           demo_tempfile (scripted_remote [answer ["a1b2c3"; "AFR123"]])
           "q" (Some "icao24, callsign") true false w H1 H2 H3).
Defined.

(** X8: a forced run over a file of the cache. *)
Lemma forced_run_sends_the_command_witness :
  let w := cached_world {[ "d41dq" := empty_transcript ]} in
  let r := @_impala demo_hashlib demo_gzip demo_pandas demo_tempfile
             (scripted_remote [[rows_transcript]]) "q" (Some "icao24, callsign, alt")
             false false w in
  let df := mkDataFrame ["icao24"; "callsign"; "alt"]
              [[CStr "a1b2c3"; CStr "AFR123"; CInt 1000];
               [CStr "1234e5"; CStr "1234"; CFloat 2 3]] in
  r = (Ret (Table df), r.2)
  /\ exists (evs : list event) (total : string),
       trace r.2 = trace w ++ evs
       /\ commands_sent evs = [replace_newlines "q" +:+ ";" +:+ nl]
       /\ last_chars 10 total = prompt
       /\ cache_dir r.2 !! @md5_hexdigest demo_hashlib "q"
          = Some (@stored_bytes demo_gzip (Some "icao24, callsign, alt") total false).
Proof.
  intros w r df.
  assert (H : r = (Ret (Table df), r.2)) by (vm_compute; reflexivity).
  split; [exact H |].
  exact (@forced_run_sends_the_command demo_hashlib demo_gzip demo_pandas demo_tempfile
           (scripted_remote [[rows_transcript]]) "q" (Some "icao24, callsign, alt")
           false w r.2 (Table df) H).
Defined.

(** X9: a request written on two lines. *)
Lemma run_sends_one_line_at_most_witness :
  let request := "select x" +:+ nl +:+ "from y" in
  let w := cached_world ∅ in
  let r := @_impala demo_hashlib demo_gzip demo_pandas demo_tempfile
             (scripted_remote [[rows_transcript]]) request (Some "icao24, callsign, alt")
             true false w in
  commands_sent (trace r.2) = ["select x from y;" +:+ nl]
  /\ contains LF (replace_newlines request) = false
  /\ exists evs : list event,
       trace r.2 = trace w ++ evs
       /\ (commands_sent evs = []
           \/ commands_sent evs = [replace_newlines request +:+ ";" +:+ nl]).
Proof.
  intros request w r. split; [vm_compute; reflexivity |].
  apply (@run_sends_one_line_at_most demo_hashlib demo_gzip demo_pandas demo_tempfile
           (scripted_remote [[rows_transcript]]) request (Some "icao24, callsign, alt")
           true false w r.2 r.1).
  apply surjective_pairing.
Defined.

(** X10: a first run, which connects. *)
Lemma run_connects_once_at_most_witness :
  let w := cached_world ∅ in
  let r := @_impala demo_hashlib demo_gzip demo_pandas demo_tempfile
             (scripted_remote [[rows_transcript]]) "q" (Some "icao24, callsign, alt")
             true false w in
  count_connect (trace r.2) = 1%nat
  /\ exists evs : list event,
       trace r.2 = trace w ++ evs
       /\ (count_connect evs <= 1)%nat
       /\ (connected (self w) = true ->
           count_connect evs = 0%nat /\ connected (self r.2) = true)
       /\ ((exists v, r.1 = Ret v) -> count_connect evs = 1%nat ->
           connected (self r.2) = true).
Proof.
  intros w r. split; [vm_compute; reflexivity |].
  apply (@run_connects_once_at_most demo_hashlib demo_gzip demo_pandas demo_tempfile
           (scripted_remote [[rows_transcript]]) "q" (Some "icao24, callsign, alt")
           true false w r.2 r.1).
  apply surjective_pairing.
Defined.

(** X11: a run beside the file of another request. *)
Lemma run_leaves_other_files_witness :
  let w := cached_world {[ "d41dother" := empty_transcript ]} in
  let r := @_impala demo_hashlib demo_gzip demo_pandas demo_tempfile
             (scripted_remote [[disk_full_transcript]]) "q" None true false w in
  r.1 = Raise (ImpalaError ("ERROR: disk full" +:+ nl))
  /\ forall other : string, other <> @md5_hexdigest demo_hashlib "q" ->
       cache_dir r.2 !! other = cache_dir w !! other
       /\ tmp_dir r.2 !! other = tmp_dir w !! other.
Proof.
  intros w r. split; [vm_compute; reflexivity |].
  apply (@run_leaves_other_files demo_hashlib demo_gzip demo_pandas demo_tempfile
           (scripted_remote [[disk_full_transcript]]) "q" None true false w r.2 r.1).
  apply surjective_pairing.
Defined.

(** X13: the columns of [flightlist]. *)
Lemma header_of_joined_columns_witness :
  let names := ["icao24"; "firstseen"; "estdepartureairport"; "lastseen";
                "estarrivalairport"; "callsign"; "day"] in
  Forall (fun name => contains COMMA name = false) names
  /\ header_line (Some (join_sep ", " names)) = join_sep tab names +:+ nl.
Proof.
  intros names.
  assert (H : Forall (fun name => contains COMMA name = false) names)
    by (repeat constructor).
  split; [exact H |]. exact (header_of_joined_columns names H).
Defined.

(** X14: three files and a sub-directory, listed after the first file. *)
Lemma clear_cache_stops_at_first_directory_witness :
  let w := cached_world {[ "a" := "x"; "b" := "y"; "c" := "z" ]} in
  @lists_the_cache demo_listing w
  /\ @glob_star demo_listing w
     = map EntryFile ["c"] ++ EntryDir "sub" :: [EntryFile "a"; EntryFile "b"]
  /\ exists w' : world,
       @clear_cache demo_listing w = (Raise IsADirectoryError, w')
       /\ cache_dir w' !! "c" = None
       /\ cache_dir w' !! "a" = Some "x"
       /\ cache_dir w' !! "b" = Some "y".
Proof.
  intros w.
  assert (H1 : @lists_the_cache demo_listing w).
  { unfold lists_the_cache. vm_compute. reflexivity. }
  assert (H2 : @glob_star demo_listing w
               = map EntryFile ["c"] ++ EntryDir "sub" :: [EntryFile "a"; EntryFile "b"])
    by (vm_compute; reflexivity).
  split; [exact H1 |]. split; [exact H2 |].
  destruct (@clear_cache_stops_at_first_directory demo_listing ["c"]
              (Some ("sub", [EntryFile "a"; EntryFile "b"])) w H1 H2)
    as (w' & Hrun & Hcd & _).
  exists w'. split; [exact Hrun |]. rewrite !Hcd. repeat split.
Defined.

(** X15: a request of two windows, run again on the cache that its first
    run has filled, with a shell that answers nothing. *)
Lemma request_from_cache_needs_no_network_witness :
  let w := (demo_request [answer ["a1b2c3"; "AFR123"]; answer ["a1b2c4"; "AFR124"]]
              true (cached_world ∅)).2 in
  let r := demo_request [] true w in
  r.1 = Ret (Table (mkDataFrame ["icao24"; "callsign"]
                      [[CStr "a1b2c3"; CStr "AFR123"]; [CStr "a1b2c4"; CStr "AFR124"]]))
  /\ self r.2 = self w /\ inbox r.2 = inbox w
  /\ (forall v, r.1 = Ret v -> r.2 = w)
  /\ exists evs : list event,
       trace r.2 = trace w ++ evs /\ List.filter is_network evs = [].
Proof.
  intros w r. split; [vm_compute; reflexivity |].
  apply (@request_from_cache_needs_no_network demo_hashlib demo_gzip demo_pandas
           demo_tempfile (scripted_remote []) Z demo_timelib demo_format demo_concat
           "select x" 0%Z (Some two_hours) ["icao24"; "callsign"] one_hour false
           w r.2 r.1).
  - intros win request Hin Hf.
    apply list_elem_of_In in Hin. vm_compute in Hin.
    destruct Hin as [<- | [<- | []]]; vm_compute in Hf; injection Hf as [= <-];
      vm_compute; eauto.
  - apply surjective_pairing.
Defined.

(** X16: the same request on an empty cache: two windows, two commands,
    one connection. *)
Lemma request_sends_a_command_per_window_at_most_witness :
  let w := cached_world ∅ in
  let r := demo_request [answer ["a1b2c3"; "AFR123"]; answer ["a1b2c4"; "AFR124"]]
             true w in
  length (commands_sent (trace r.2)) = 2%nat /\ count_connect (trace r.2) = 1%nat
  /\ exists evs : list event,
       trace r.2 = trace w ++ evs
       /\ (length (commands_sent evs)
           <= length (@windows_of Z demo_timelib
                        (start_stop_ts (@to_datetime Z demo_timelib) 0%Z
                           (Some two_hours)) one_hour))%nat
       /\ (count_connect evs <= 1)%nat
       /\ (connected (self w) = true -> count_connect evs = 0%nat).
Proof.
  intros w r. split; [vm_compute; reflexivity |]. split; [vm_compute; reflexivity |].
  apply (@request_sends_a_command_per_window_at_most demo_hashlib demo_gzip demo_pandas
           demo_tempfile
           (scripted_remote [answer ["a1b2c3"; "AFR123"]; answer ["a1b2c4"; "AFR124"]])
           Z demo_timelib demo_format demo_concat
           "select x" 0%Z (Some two_hours) ["icao24"; "callsign"] one_hour true false
           w r.2 r.1).
  apply surjective_pairing.
Defined.

(** X17: two windows without rows, in the cache. *)
Lemma request_of_empty_windows_is_empty_witness :
  let w := (demo_request [[empty_transcript]; [empty_transcript]] true
              (cached_world ∅)).2 in
  (forall win,
     win ∈ @windows_of Z demo_timelib
             (start_stop_ts (@to_datetime Z demo_timelib) 0%Z (Some two_hours))
             one_hour ->
     exists request fh,
       @format_request demo_format "select x" win = inr request
       /\ @open_cache_file demo_gzip (@md5_hexdigest demo_hashlib request) w = (Ret fh, w)
       /\ @no_data_rows demo_pandas fh
       /\ existsb (startswith ERROR_marker) (readlines fh) = false)
  /\ demo_request [] true w = (Ret Empty, w).
Proof.
  intros w.
  assert (H : forall win,
     win ∈ @windows_of Z demo_timelib
             (start_stop_ts (@to_datetime Z demo_timelib) 0%Z (Some two_hours))
             one_hour ->
     exists request fh,
       @format_request demo_format "select x" win = inr request
       /\ @open_cache_file demo_gzip (@md5_hexdigest demo_hashlib request) w = (Ret fh, w)
       /\ @no_data_rows demo_pandas fh
       /\ existsb (startswith ERROR_marker) (readlines fh) = false).
  { intros win Hin. apply list_elem_of_In in Hin. vm_compute in Hin.
    destruct Hin as [<- | [<- | []]];
      eexists _, (line ["icao24"; "callsign"] +:+ empty_transcript);
      (split; [vm_compute; reflexivity |]);
      (split; [vm_compute; reflexivity |]);
      (split; [|vm_compute; reflexivity]);
      exists ("icao24,callsign" +:+ nl +:+ nl), 1%nat;
      (split; [vm_compute; reflexivity |]);
      right; eexists; (split; [vm_compute; reflexivity | reflexivity]). }
  split; [exact H |].
  exact (@request_of_empty_windows_is_empty demo_hashlib demo_gzip demo_pandas
           demo_tempfile (scripted_remote []) Z demo_timelib demo_format demo_concat
           "select x" 0%Z (Some two_hours) ["icao24"; "callsign"] one_hour false w H).
Defined.

(** X18: three windows, the second answered with an error banner. *)
Lemma request_stops_at_first_failure_witness :
  let sequence := @split_times Z demo_timelib 0%Z (3 * one_hour)%Z one_hour in
  let loop := @request_loop demo_hashlib demo_gzip demo_pandas demo_tempfile
                (scripted_remote [answer ["a1b2c3"; "AFR123"]; [disk_full_transcript];
                                  answer ["a1b2c4"; "AFR124"]])
                demo_format "select x" "icao24" true false in
  let e := ImpalaError ("icao24" +:+ nl +:+ "ERROR: disk full" +:+ nl) in
  let r := loop sequence [] (cached_world ∅) in
  r = (Raise e, r.2)
  /\ length (commands_sent (trace r.2)) = 2%nat
  /\ exists (pre post : list window) (win : window) (cumul1 : list parsed) (w1 : world),
       sequence = pre ++ win :: post
       /\ loop pre [] (cached_world ∅) = (Ret cumul1, w1)
       /\ ((@format_request demo_format "select x" win = inl e /\ r.2 = w1)
           \/ exists request : string,
                @format_request demo_format "select x" win = inr request
                /\ @_impala demo_hashlib demo_gzip demo_pandas demo_tempfile
                     (scripted_remote [answer ["a1b2c3"; "AFR123"];
                                       [disk_full_transcript];
                                       answer ["a1b2c4"; "AFR124"]])
                     request (Some "icao24") true false w1 = (Raise e, r.2)).
Proof.
  intros sequence loop e r.
  assert (H : r = (Raise e, r.2)) by (vm_compute; reflexivity).
  split; [exact H |]. split; [vm_compute; reflexivity |].
  exact (@request_stops_at_first_failure demo_hashlib demo_gzip demo_pandas demo_tempfile
           (scripted_remote [answer ["a1b2c3"; "AFR123"]; [disk_full_transcript];
                             answer ["a1b2c4"; "AFR124"]])
           demo_format "select x" "icao24" true false sequence [] (cached_world ∅)
           r.2 e H).
Defined.

(** X19: a callsign that starts with a percent sign. *)
Lemma leading_wildcard_is_a_pattern_but_in_flightlist_witness :
  ("%"%char = "%"%char \/ "%"%char = "_"%char)
  /\ contains "%" "FR123" = false
  /\ contains "_" "FR123" = false
  /\ has_regex_char "FR123" = false
  /\ flightlist_callsign_params (Some (inl "%FR123")) = "and callsign='%FR123  ' "
  /\ history_callsign_params (Some (inl "%FR123"))
     = ("and callsign ilike '%FR123' ", false)
  /\ flarm_other_params (Some (inl "%FR123")) None EmptyString
     = "and rawmessage = rawmessage and crccorrect and not typeogn "
       +:+ "and sensorname ilike '%FR123' ".
Proof.
  assert (H1 : "%"%char = "%"%char \/ "%"%char = "_"%char) by (left; reflexivity).
  assert (H2 : contains "%" "FR123" = false) by reflexivity.
  assert (H3 : contains "_" "FR123" = false) by reflexivity.
  assert (H4 : has_regex_char "FR123" = false) by reflexivity.
  repeat (split; [assumption |]).
  exact (leading_wildcard_is_a_pattern_but_in_flightlist "%" "FR123" H1 H2 H3 H4).
Defined.
